(** * NYC-taxi cleaning and feature pipeline of the Azure multi-GPU notebook

    A shallow embedding of the hand-written stages of the notebook (the
    cells [remap]/[must_haves], [clean], [haversine_distance_kernel],
    [day_of_the_week_kernel], [add_features] and the [query_frags] filter
    of the workflow cell) and the properties the repository's
    specification states about them.

    Conventions of the embedding.
    - A dataframe is an ordered list of labelled, typed columns; a missing
      value (null) is [None].  Lookups, assignments, [rename], [drop],
      [astype], [fillna] and [query] follow the dataframe library's
      documented behaviour on such frames.
    - Python exceptions are the [Raise] results of a small error monad.
      The string accessor of a text column has no [fillna], so that the
      call [series.str.fillna] of [clean] raises [AttributeError].
    - Integer columns hold [Z] values; a cast to a w-bit integer type wraps.
    - Floating-point columns hold the real number their value denotes:
      rounding to 24 or 53 bits, infinities and NaN are idealised away, so
      that a cast to float32 and the bucket arithmetic are exact; the
      properties stated about them are about labels, dtypes, row counts
      and missing values, not about the digits of a float.
      The one place where the binary64 rounding of a product could change an
      integer result, [math.floor(m*2.6)] in the day-of-week kernel, is
      modelled bit-exactly on IEEE-754 binary64 ([SpecFloat]).
    - Column labels are ASCII strings.
    - Frames are passed by reference in Python; the last part of the
      definitions runs the stages on a store of frame objects. *)

From Stdlib Require Import ZArith List String Ascii Bool Lia.
From Stdlib Require Import Floats.SpecFloat.
From Stdlib Require Import Reals Lra Machin.
Import ListNotations.

Local Open Scope string_scope.
Local Open Scope list_scope.
Local Open Scope Z_scope.

(* ===================================================================== *)
(** * Binary64 arithmetic used by the day-of-week kernel *)
(* ===================================================================== *)

Module B64.

Definition prec : Z := 53.
Definition emax : Z := 1024.

(** An integer converted to a double (exact below 2^53). *)
Definition of_int (n : Z) : spec_float := binary_normalize prec emax n 0 false.

Definition mul : spec_float -> spec_float -> spec_float := SFmul prec emax.
Definition div : spec_float -> spec_float -> spec_float := SFdiv prec emax.

(** The literal [2.6]: 0x1.4cccccccccccdp+1. *)
Definition lit_2_6 : spec_float := S754_finite false 5854679515581645 (-51).

(** [math.floor]: the largest integer not above a finite double; Python
    raises on an infinity or a NaN. *)
Definition floor (x : spec_float) : option Z :=
  match x with
  | S754_zero _ => Some 0
  | S754_finite s m e =>
      let v := cond_Zopp s (Zpos m) in
      Some (if 0 <=? e then v * 2 ^ e else v / 2 ^ (- e))
  | S754_infinity _ | S754_nan => None
  end.

End B64.

(* ===================================================================== *)
(** * The day-of-week kernel *)
(* ===================================================================== *)

(** The body of the loop of [day_of_the_week_kernel] for one row.
    [day], [month] and [year] are the integers of the row; the comparison
    [month < 3] is used once as a condition and once as the integer 0 or 1.
    [//] and [%] are Python's floor division and modulus, which are [Z.div]
    and [Z.modulo].  The result is [None] where [math.floor] would raise. *)
Definition day_of_the_week_kernel (day month year : Z) : option Z :=
  let shift := if month <? 3 then month else 0 in
  let Y := year - (if month <? 3 then 1 else 0) in
  let y := Y - 2000 in
  let c := 20 in
  let d := day in
  let m := month + shift + 1 in
  match B64.floor (B64.mul (B64.of_int m) B64.lit_2_6) with
  | Some fl => Some ((d + fl + y + (y / 4) + (c / 4) - 2 * c) mod 7)
  | None => None
  end.

(** The congruence as the specification words it, on exact rationals:
    [floor(2.6 * m)] is [floor(13 * m / 5)]. *)
Definition day_of_week_spec (day month year : Z) : Z :=
  let shift := if month <? 3 then month else 0 in
  let effective_year := year - (if month <? 3 then 1 else 0) in
  let y := effective_year - 2000 in
  let c := 20 in
  let m := month + shift + 1 in
  (day + (13 * m) / 5 + y + y / 4 + c / 4 - 2 * c) mod 7.

(* ===================================================================== *)
(** * The proleptic Gregorian calendar (reference and [dt] accessors) *)
(* ===================================================================== *)

Module Calendar.

Definition is_leap (y : Z) : bool :=
  ((y mod 4 =? 0) && negb (y mod 100 =? 0)) || (y mod 400 =? 0).

Definition days_in_month (y m : Z) : Z :=
  if m =? 2 then (if is_leap y then 29 else 28)
  else if (m =? 4) || (m =? 6) || (m =? 9) || (m =? 11) then 30
  else 31.

(** Number of days from 1970-01-01 to the civil date [y]-[m]-[d]. *)
Definition days_from_civil (y m d : Z) : Z :=
  let y' := if m <=? 2 then y - 1 else y in
  let era := y' / 400 in
  let yoe := y' - era * 400 in
  let mp := if 2 <? m then m - 3 else m + 9 in
  let doy := (153 * mp + 2) / 5 + d - 1 in
  let doe := yoe * 365 + yoe / 4 - yoe / 100 + doy in
  era * 146097 + doe - 719468.

(** The civil date of a day number: the inverse of [days_from_civil]. *)
Definition civil_from_days (z : Z) : Z * Z * Z :=
  let z' := z + 719468 in
  let era := z' / 146097 in
  let doe := z' - era * 146097 in
  let yoe := (doe - doe / 1460 + doe / 36524 - doe / 146096) / 365 in
  let y := yoe + era * 400 in
  let doy := doe - (365 * yoe + yoe / 4 - yoe / 100) in
  let mp := (5 * doy + 2) / 153 in
  let d := doy - (153 * mp + 2) / 5 + 1 in
  let m := if mp <? 10 then mp + 3 else mp - 9 in
  ((if m <=? 2 then y + 1 else y), m, d).

(** The weekday of a day number with Saturday = 0, Sunday = 1, ...,
    Friday = 6: 1970-01-01 (day 0) was a Thursday, which is 5. *)
Definition weekday_sat0_of_days (z : Z) : Z := (z + 5) mod 7.

Definition weekday_sat0 (y m d : Z) : Z :=
  weekday_sat0_of_days (days_from_civil y m d).

End Calendar.

(** Enumeration of an integer interval, for properties checked by
    computation on a finite range. *)
Fixpoint Zrange_from (lo : Z) (n : nat) : list Z :=
  match n with
  | O => []
  | S k => lo :: Zrange_from (lo + 1) k
  end.

Definition Zrange (lo n : Z) : list Z := Zrange_from lo (Z.to_nat n).

(* ===================================================================== *)
(** * Exceptions *)
(* ===================================================================== *)

Inductive exn : Set := KeyError | ValueError | TypeError | AttributeError.

Inductive result (A : Type) : Type :=
| Ok (a : A)
| Raise (e : exn).

Arguments Ok {A} a.
Arguments Raise {A} e.

Definition bind {A B : Type} (r : result A) (f : A -> result B) : result B :=
  match r with
  | Ok a => f a
  | Raise e => Raise e
  end.

Notation "x <- c ;; k" := (bind c (fun x => k))
  (at level 61, c at next level, right associativity).

(** Elementwise application of a fallible function: the first failure is
    the failure of the whole. *)
Fixpoint traverse {A B : Type} (f : A -> result B) (l : list A) : result (list B) :=
  match l with
  | [] => Ok []
  | a :: l' => b <- f a ;; bs <- traverse f l' ;; Ok (b :: bs)
  end.

Definition is_ok {A : Type} (r : result A) : bool :=
  match r with Ok _ => true | Raise _ => false end.

(* ===================================================================== *)
(** * Strings: [strip], [lower], substring test, number and date parsing *)
(* ===================================================================== *)

Module Str.

Local Open Scope nat_scope.

(** ASCII whitespace as [str.strip()] sees it. *)
Definition is_space (c : ascii) : bool :=
  let n := nat_of_ascii c in
  ((9 <=? n) && (n <=? 13)) || ((28 <=? n) && (n <=? 32)).

Fixpoint lstrip (s : string) : string :=
  match s with
  | EmptyString => EmptyString
  | String c r => if is_space c then lstrip r else s
  end.

Fixpoint rstrip (s : string) : string :=
  match s with
  | EmptyString => EmptyString
  | String c r =>
      match rstrip r with
      | EmptyString => if is_space c then EmptyString else String c EmptyString
      | r' => String c r'
      end
  end.

Definition strip (s : string) : string := rstrip (lstrip s).

Definition lower_char (c : ascii) : ascii :=
  let n := nat_of_ascii c in
  if (65 <=? n) && (n <=? 90) then ascii_of_nat (n + 32) else c.

Fixpoint lower (s : string) : string :=
  match s with
  | EmptyString => EmptyString
  | String c r => String (lower_char c) (lower r)
  end.

(** [needle in hay] on strings. *)
Fixpoint contains (needle hay : string) : bool :=
  prefix needle hay
  || match hay with
     | EmptyString => false
     | String _ r => contains needle r
     end.

Fixpoint mem (x : string) (l : list string) : bool :=
  match l with
  | [] => false
  | y :: l' => String.eqb x y || mem x l'
  end.

Local Open Scope Z_scope.

Definition digit_of (c : ascii) : option Z :=
  let n := Z.of_nat (nat_of_ascii c) in
  if (48 <=? n) && (n <=? 57) then Some (n - 48) else None.

(** Reads the longest run of decimal digits: its value (continuing
    [acc]), its length (continuing [cnt]) and the rest of the text. *)
Fixpoint read_digits (s : string) (acc cnt : Z) : Z * Z * string :=
  match s with
  | EmptyString => (acc, cnt, s)
  | String c r =>
      match digit_of c with
      | Some d => read_digits r (10 * acc + d) (cnt + 1)
      | None => (acc, cnt, s)
      end
  end.

(** An optional sign: [true] for a minus. *)
Definition read_sign (s : string) : bool * string :=
  match s with
  | String "-" r => (true, r)
  | String "+" r => (false, r)
  | _ => (false, s)
  end.

(** A decimal numeral [[sign] digits [. digits] [e [sign] digits]] as a
    mantissa and a power of ten; [None] for any other text (the empty
    string included). *)
Definition parse_decimal (s : string) : option (Z * Z) :=
  let '(neg, s1) := read_sign s in
  let '(ip, n1, s2) := read_digits s1 0 0 in
  let '(mant, n2, s3) :=
    match s2 with
    | String "." r => let '(v, n, r') := read_digits r ip 0 in (v, n, r')
    | _ => (ip, 0, s2)
    end in
  if n1 + n2 =? 0 then None else
  let mant := if neg then - mant else mant in
  match s3 with
  | EmptyString => Some (mant, - n2)
  | String c r =>
      if (Ascii.eqb c "e" || Ascii.eqb c "E")%bool then
        let '(eneg, r1) := read_sign r in
        let '(ev, n3, r2) := read_digits r1 0 0 in
        match r2 with
        | EmptyString =>
            if n3 =? 0 then None
            else Some (mant, (if eneg then - ev else ev) - n2)
        | _ => None
        end
      else None
  end.

(** Exactly [k] digits. *)
Fixpoint take_num (k : nat) (s : string) (acc : Z) : option (Z * string) :=
  match k with
  | O => Some (acc, s)
  | S k' =>
      match s with
      | String c r =>
          match digit_of c with
          | Some d => take_num k' r (10 * acc + d)
          | None => None
          end
      | EmptyString => None
      end
  end.

Definition expect (c : ascii) (s : string) : option string :=
  match s with
  | String c' r => if Ascii.eqb c c' then Some r else None
  | EmptyString => None
  end.

End Str.

(* ===================================================================== *)
(** * Columns and dataframes *)
(* ===================================================================== *)

Inductive ikind : Set := I8 | I16 | I32 | I64 | U8 | U16 | U32 | U64.
Inductive fkind : Set := F32 | F64.

Inductive dtype : Set :=
| D_object
| D_bool
| D_int (k : ikind)
| D_float (k : fkind)
| D_datetime_ms.

(** [str(dtype)]. *)
Definition dtype_str (d : dtype) : string :=
  match d with
  | D_object => "object"
  | D_bool => "bool"
  | D_int I8 => "int8"
  | D_int I16 => "int16"
  | D_int I32 => "int32"
  | D_int I64 => "int64"
  | D_int U8 => "uint8"
  | D_int U16 => "uint16"
  | D_int U32 => "uint32"
  | D_int U64 => "uint64"
  | D_float F32 => "float32"
  | D_float F64 => "float64"
  | D_datetime_ms => "datetime64[ms]"
  end.

(** [dtype == 'object'] and the like: comparison with a dtype name. *)
Definition dtype_is (d : dtype) (name : string) : bool :=
  String.eqb (dtype_str d) name.

(** A column: a dtype and one nullable value per row.  A datetime column
    holds milliseconds since 1970-01-01T00:00:00. *)
Inductive column : Type :=
| StrCol (v : list (option string))
| BoolCol (v : list (option bool))
| IntCol (k : ikind) (v : list (option Z))
| FloatCol (k : fkind) (v : list (option R))
| TimeCol (v : list (option Z)).

Definition dtype_of (c : column) : dtype :=
  match c with
  | StrCol _ => D_object
  | BoolCol _ => D_bool
  | IntCol k _ => D_int k
  | FloatCol k _ => D_float k
  | TimeCol _ => D_datetime_ms
  end.

(** A dataframe: labelled columns, in order. *)
Definition frame : Type := list (string * column).

(** [df.columns]. *)
Definition columns (df : frame) : list string := map fst df.

(** The columns labelled [col]. *)
Definition cols_named (df : frame) (col : string) : list column :=
  map snd (filter (fun p => String.eqb (fst p) col) df).

(** [df[col]] read as a series: with no such label the lookup raises
    [KeyError]; with a repeated label it yields a frame, on which the
    series attributes the code goes on to use ([dtype], [str], [dt],
    [astype] to a scalar column) do not exist. *)
Definition getitem (df : frame) (col : string) : result column :=
  match cols_named df col with
  | [] => Raise KeyError
  | [c] => Ok c
  | _ => Raise AttributeError
  end.

(** [df[col] = c]: replaces the column in place, or appends a new one. *)
Definition setitem (df : frame) (col : string) (c : column) : frame :=
  if Str.mem col (columns df)
  then map (fun p => if String.eqb (fst p) col then (fst p, c) else p) df
  else df ++ [(col, c)].

(** [df.drop(col, axis=1)]. *)
Definition drop (df : frame) (col : string) : result frame :=
  if Str.mem col (columns df)
  then Ok (filter (fun p => negb (String.eqb (fst p) col)) df)
  else Raise KeyError.

(** A Python dict with string keys, as the list of its items. *)
Definition dict (V : Type) : Type := list (string * V).

Fixpoint dict_get {V : Type} (d : dict V) (k : string) : option V :=
  match d with
  | [] => None
  | (k', v) :: d' => if String.eqb k k' then Some v else dict_get d' k
  end.

(** [k in d]. *)
Definition dict_mem {V : Type} (d : dict V) (k : string) : bool :=
  match dict_get d k with Some _ => true | None => false end.

(** [df.rename(columns=mapping)]: every label that is a key of the mapping
    is replaced by its value; the others stay. *)
Definition rename (df : frame) (mapping : dict string) : frame :=
  map (fun p => (match dict_get mapping (fst p) with
                 | Some new => new
                 | None => fst p
                 end, snd p)) df.

(* ===================================================================== *)
(** * Casts and fills *)
(* ===================================================================== *)

Definition ikind_bits (k : ikind) : Z :=
  match k with
  | I8 | U8 => 8 | I16 | U16 => 16 | I32 | U32 => 32 | I64 | U64 => 64
  end.

Definition ikind_signed (k : ikind) : bool :=
  match k with I8 | I16 | I32 | I64 => true | _ => false end.

(** Two's-complement wrap-around of an integer into a w-bit type. *)
Definition wrap (k : ikind) (z : Z) : Z :=
  let w := ikind_bits k in
  if ikind_signed k
  then (z + 2 ^ (w - 1)) mod 2 ^ w - 2 ^ (w - 1)
  else z mod 2 ^ w.

Definition pow10 (k : Z) : R :=
  if 0 <=? k then IZR (10 ^ k) else (/ IZR (10 ^ (- k)))%R.

(** The number a decimal numeral denotes. *)
Definition parse_float (s : string) : option R :=
  match Str.parse_decimal s with
  | Some (mant, e) => Some (IZR mant * pow10 e)%R
  | None => None
  end.

(** A timestamp text [YYYY-MM-DD] or [YYYY-MM-DD HH:MM:SS] (also with a
    [T] between date and time) as milliseconds since the epoch. *)
Definition parse_datetime_ms (s : string) : option Z :=
  match Str.take_num 4 s 0 with
  | None => None
  | Some (y, s) =>
  match Str.expect "-" s with None => None | Some s =>
  match Str.take_num 2 s 0 with None => None | Some (m, s) =>
  match Str.expect "-" s with None => None | Some s =>
  match Str.take_num 2 s 0 with None => None | Some (d, s) =>
  if negb ((1 <=? m) && (m <=? 12) && (1 <=? d)
           && (d <=? Calendar.days_in_month y m)) then None else
  let date := Calendar.days_from_civil y m d * 86400000 in
  match s with
  | EmptyString => Some date
  | String c s =>
      if negb (Ascii.eqb c " " || Ascii.eqb c "T") then None else
      match Str.take_num 2 s 0 with None => None | Some (h, s) =>
      match Str.expect ":" s with None => None | Some s =>
      match Str.take_num 2 s 0 with None => None | Some (mi, s) =>
      match Str.expect ":" s with None => None | Some s =>
      match Str.take_num 2 s 0 with None => None | Some (sec, s) =>
      match s with
      | EmptyString =>
          if (h <? 24) && (mi <? 60) && (sec <? 60)
          then Some (date + h * 3600000 + mi * 60000 + sec * 1000)
          else None
      | _ => None
      end end end end end end
  end end end end end end.


Definition parse_cell {B : Type} (f : string -> option B) (x : option string)
  : result (option B) :=
  match x with
  | None => Ok None
  | Some s => match f s with
              | Some v => Ok (Some v)
              | None => Raise ValueError
              end
  end.

(** A decimal numeral without fraction or exponent part. *)
Definition parse_int (s : string) : option Z :=
  match Str.parse_decimal s with
  | Some (mant, 0) => Some mant
  | _ => None
  end.

Definition Rltb (x y : R) : bool := if Rlt_dec x y then true else false.

(** Rounding towards zero, the float-to-integer conversion. *)
Definition Ztrunc (x : R) : Z := if Rltb x 0 then Zceil x else Zfloor x.

Definition Z_of_bool (b : bool) : Z := if b then 1 else 0.

(** [series.astype(target)].  The notebook asks for three targets only:
    ['datetime64[ms]'], ['float32'] and ['int32']; a text that does not
    parse makes the cast raise, a null stays null.  Casts to the other
    dtypes are not requested anywhere and are left out ([TypeError]).
    A floating-point cell is the real number it denotes: the cast to
    float32 changes the dtype, and the rounding of the value to 24
    significant bits is not modelled.  No property below states the value
    of a cell after such a cast. *)
Definition astype (c : column) (target : dtype) : result column :=
  match target, c with
  | D_datetime_ms, StrCol v =>
      v' <- traverse (parse_cell parse_datetime_ms) v ;; Ok (TimeCol v')
  | D_datetime_ms, TimeCol v => Ok (TimeCol v)
  | D_datetime_ms, IntCol _ v => Ok (TimeCol v)
  | D_float k, StrCol v =>
      v' <- traverse (parse_cell parse_float) v ;; Ok (FloatCol k v')
  | D_float k, FloatCol _ v => Ok (FloatCol k v)
  | D_float k, IntCol _ v => Ok (FloatCol k (map (option_map IZR) v))
  | D_float k, TimeCol v => Ok (FloatCol k (map (option_map IZR) v))
  | D_float k, BoolCol v =>
      Ok (FloatCol k (map (option_map (fun b => IZR (Z_of_bool b))) v))
  | D_int k, StrCol v =>
      v' <- traverse (parse_cell parse_int) v ;;
      Ok (IntCol k (map (option_map (wrap k)) v'))
  | D_int k, IntCol _ v => Ok (IntCol k (map (option_map (wrap k)) v))
  | D_int k, TimeCol v => Ok (IntCol k (map (option_map (wrap k)) v))
  | D_int k, FloatCol _ v =>
      Ok (IntCol k (map (option_map (fun x => wrap k (Ztrunc x))) v))
  | D_int k, BoolCol v =>
      Ok (IntCol k (map (option_map (fun b => wrap k (Z_of_bool b))) v))
  | _, _ => Raise TypeError
  end.

Definition fill {A : Type} (d : A) (v : list (option A)) : list (option A) :=
  map (fun x => match x with None => Some d | Some _ => x end) v.

(** [series.fillna(value)] with an integer [value]: the nulls become the
    value converted to the column's dtype. *)
Definition fillna (c : column) (value : Z) : result column :=
  match c with
  | IntCol k v => Ok (IntCol k (fill (wrap k value) v))
  | FloatCol k v => Ok (FloatCol k (fill (IZR value) v))
  | BoolCol v => Ok (BoolCol (fill (negb (value =? 0)) v))
  | TimeCol v => Ok (TimeCol (fill value v))
  | StrCol _ => Raise TypeError
  end.

(** [series.str.fillna(text)].  The expression looks [fillna] up on the
    string accessor [.str], which offers the string methods only: [fillna]
    is a method of the series, not of its accessor.  The lookup raises
    [AttributeError] before anything is filled, whatever the column holds;
    on a column that is not text the accessor itself is missing, with the
    same exception. *)
Definition str_fillna (c : column) (text : string) : result column :=
  match c with
  | StrCol _ => Raise AttributeError
  | _ => Raise AttributeError
  end.

(* ===================================================================== *)
(** * Column Normalizer: [remap], [must_haves], [clean] *)
(* ===================================================================== *)

Definition remap : dict string :=
  [ ("tpep_pickup_datetime", "pickup_datetime");
    ("tpep_dropoff_datetime", "dropoff_datetime");
    ("ratecodeid", "rate_code") ].

Definition must_haves : dict dtype :=
  [ ("pickup_datetime", D_datetime_ms);
    ("dropoff_datetime", D_datetime_ms);
    ("passenger_count", D_int I32);
    ("trip_distance", D_float F32);
    ("pickup_longitude", D_float F32);
    ("pickup_latitude", D_float F32);
    ("rate_code", D_int I32);
    ("dropoff_longitude", D_float F32);
    ("dropoff_latitude", D_float F32);
    ("fare_amount", D_float F32) ].

(** One round of the loop [for col in df_part.columns] of [clean]. *)
Definition clean_col (must_haves : dict dtype) (df_part : frame) (col : string)
  : result frame :=
  if negb (dict_mem must_haves col) then drop df_part col
  else
    c <- getitem df_part col ;;
    if dtype_is (dtype_of c) "object"
       && Str.mem col ["pickup_datetime"; "dropoff_datetime"]
    then
      c' <- astype c D_datetime_ms ;;
      Ok (setitem df_part col c')
    else if dtype_is (dtype_of c) "object" then
      c' <- str_fillna c "-1" ;;
      let df_part := setitem df_part col c' in
      c <- getitem df_part col ;;
      c' <- astype c (D_float F32) ;;
      Ok (setitem df_part col c')
    else
      df_part <-
        (if Str.contains "int" (dtype_str (dtype_of c))
         then c' <- astype c (D_int I32) ;; Ok (setitem df_part col c')
         else Ok df_part) ;;
      c <- getitem df_part col ;;
      df_part <-
        (if Str.contains "float" (dtype_str (dtype_of c))
         then c' <- astype c (D_float F32) ;; Ok (setitem df_part col c')
         else Ok df_part) ;;
      c <- getitem df_part col ;;
      c' <- fillna c (-1) ;;
      Ok (setitem df_part col c').

(** The loop: the labels are those of the frame as it is when the loop
    starts; the frame itself changes from round to round. *)
Fixpoint clean_loop (must_haves : dict dtype) (cols : list string)
  (df_part : frame) : result frame :=
  match cols with
  | [] => Ok df_part
  | col :: cols' =>
      df_part <- clean_col must_haves df_part col ;;
      clean_loop must_haves cols' df_part
  end.

Definition clean (df_part : frame) (remap : dict string)
  (must_haves : dict dtype) : result frame :=
  let tmp := map (fun col => (col, Str.lower (Str.strip col))) (columns df_part) in
  let df_part := rename df_part tmp in
  let df_part := rename df_part remap in
  clean_loop must_haves (columns df_part) df_part.


(* ===================================================================== *)
(** * Outlier Filter: [query_frags] and [df.query] *)
(* ===================================================================== *)

(** The expressions the notebook's query strings are made of. *)
Inductive qexpr : Set :=
| Q_gt (col : string) (k : Z)
| Q_lt (col : string) (k : Z)
| Q_and (a b : qexpr).

Definition query_frags : list qexpr :=
  [ Q_and (Q_gt "fare_amount" 0) (Q_lt "fare_amount" 500);
    Q_and (Q_gt "passenger_count" 0) (Q_lt "passenger_count" 6);
    Q_and (Q_gt "pickup_longitude" (-75)) (Q_lt "pickup_longitude" (-73));
    Q_and (Q_gt "dropoff_longitude" (-75)) (Q_lt "dropoff_longitude" (-73));
    Q_and (Q_gt "pickup_latitude" 40) (Q_lt "pickup_latitude" 42);
    Q_and (Q_gt "dropoff_latitude" 40) (Q_lt "dropoff_latitude" 42) ].

(** [' and '.join(frags)]: one conjunction of all the fragments; the empty
    text is not an expression. *)
Fixpoint join_and (frags : list qexpr) : result qexpr :=
  match frags with
  | [] => Raise ValueError
  | [e] => Ok e
  | e :: rest => r <- join_and rest ;; Ok (Q_and e r)
  end.

(** A boolean mask: one nullable truth value per row. *)
Definition mask : Type := list (option bool).

(** Comparison of a column with an integer literal, row by row; a null
    compares to null.  [gt] chooses [column > k] over [column < k]. *)
Definition cmp_scalar (gt : bool) (c : column) (k : Z) : result mask :=
  match c with
  | IntCol _ v =>
      Ok (map (option_map (fun x => if gt then k <? x else x <? k)) v)
  | FloatCol _ v =>
      Ok (map (option_map (fun x => if gt then Rltb (IZR k) x
                                    else Rltb x (IZR k))) v)
  | BoolCol v =>
      Ok (map (option_map (fun b => if gt then k <? Z_of_bool b
                                    else Z_of_bool b <? k)) v)
  | StrCol _ | TimeCol _ => Raise TypeError
  end.

Definition and_cell (a b : option bool) : option bool :=
  match a, b with
  | Some x, Some y => Some (x && y)
  | _, _ => None
  end.

Fixpoint and_mask (ma mb : mask) : mask :=
  match ma, mb with
  | a :: ma', b :: mb' => and_cell a b :: and_mask ma' mb'
  | _, _ => []
  end.

Fixpoint eval_mask (df : frame) (e : qexpr) : result mask :=
  match e with
  | Q_gt col k => c <- getitem df col ;; cmp_scalar true c k
  | Q_lt col k => c <- getitem df col ;; cmp_scalar false c k
  | Q_and a b => ma <- eval_mask df a ;; mb <- eval_mask df b ;; Ok (and_mask ma mb)
  end.

(** A row is kept where the mask is true; false and null drop it. *)
Definition keep (m : option bool) : bool :=
  match m with Some true => true | _ => false end.

Fixpoint select {A : Type} (m : mask) (v : list A) : list A :=
  match m, v with
  | b :: m', x :: v' => if keep b then x :: select m' v' else select m' v'
  | _, _ => []
  end.

Definition take_rows (m : mask) (c : column) : column :=
  match c with
  | StrCol v => StrCol (select m v)
  | BoolCol v => BoolCol (select m v)
  | IntCol k v => IntCol k (select m v)
  | FloatCol k v => FloatCol k (select m v)
  | TimeCol v => TimeCol (select m v)
  end.

(** The rows of [df] that the mask [m] keeps. *)
Definition restrict (m : mask) (df : frame) : frame :=
  map (fun p => (fst p, take_rows m (snd p))) df.

(** [df.query(expr)]. *)
Definition query (df : frame) (e : qexpr) : result frame :=
  m <- eval_mask df e ;; Ok (restrict m df).

(** The filter step of the workflow cell. *)
Definition outlier_filter (df : frame) : result frame :=
  e <- join_and query_frags ;; query df e.

(* ===================================================================== *)
(** * Feature Deriver: the haversine kernel and [add_features] *)
(* ===================================================================== *)

(** The body of the loop of [haversine_distance_kernel] for one row, on
    real numbers. *)
Definition haversine_distance_kernel (x_1 y_1 x_2 y_2 : R) : R :=
  (let x_1 := PI / 180 * x_1 in
   let y_1 := PI / 180 * y_1 in
   let x_2 := PI / 180 * x_2 in
   let y_2 := PI / 180 * y_2 in
   let dlon := y_2 - y_1 in
   let dlat := x_2 - x_1 in
   let a := sin (dlat / 2) ^ 2 + cos x_1 * cos x_2 * sin (dlon / 2) ^ 2 in
   let c := 2 * asin (sqrt a) in
   let r := 6371 in
   c * r)%R.

(** The great-circle distance as the specification words it. *)
Definition deg2rad (x : R) : R := (x * PI / 180)%R.

Definition haversine_spec (lat1 lon1 lat2 lon2 : R) : R :=
  (let R_earth := 6371 in
   let dlat := deg2rad lat2 - deg2rad lat1 in
   let dlon := deg2rad lon2 - deg2rad lon1 in
   let a := Rsqr (sin (dlat / 2))
            + cos (deg2rad lat1) * cos (deg2rad lat2) * Rsqr (sin (dlon / 2)) in
   2 * R_earth * asin (sqrt a))%R.


(** The [dt] accessors of a datetime column ([int16] results); they exist
    on datetime columns only. *)
Definition ms_per_day : Z := 86400000.

Definition ms_hour (ms : Z) : Z := (ms mod ms_per_day) / 3600000.
Definition ms_year (ms : Z) : Z := fst (fst (Calendar.civil_from_days (ms / ms_per_day))).
Definition ms_month (ms : Z) : Z := snd (fst (Calendar.civil_from_days (ms / ms_per_day))).
Definition ms_day (ms : Z) : Z := snd (Calendar.civil_from_days (ms / ms_per_day)).

Definition dt_field (f : Z -> Z) (c : column) : result column :=
  match c with
  | TimeCol v => Ok (IntCol I16 (map (option_map (fun ms => wrap I16 (f ms))) v))
  | _ => Raise AttributeError
  end.

Definition dt_hour := dt_field ms_hour.
Definition dt_year := dt_field ms_year.
Definition dt_month := dt_field ms_month.
Definition dt_day := dt_field ms_day.

Fixpoint zip_with {A B C : Type} (f : A -> B -> C) (l : list A) (l' : list B)
  : list C :=
  match l, l' with
  | a :: t, b :: t' => f a b :: zip_with f t t'
  | _, _ => []
  end.

Definition lift2 {A B C : Type} (f : A -> B -> C) (x : option A) (y : option B)
  : option C :=
  match x, y with
  | Some a, Some b => Some (f a b)
  | _, _ => None
  end.

(** [a - b] on two [int32] columns: 32-bit subtraction, which wraps.  Both
    operands of the notebook's subtraction come out of [astype('int32')]. *)
Definition col_sub (a b : column) : result column :=
  match a, b with
  | IntCol I32 va, IntCol I32 vb =>
      Ok (IntCol I32 (zip_with (lift2 (fun x y => wrap I32 (x - y))) va vb))
  | _, _ => Raise TypeError
  end.

(** [series // k] and [series * k] for a float literal [k], on the real
    numbers the floats denote: the floor of the exact quotient, the exact
    product.  The floating-point operations round (the literal [.01] is
    not 1/100, the quotient is rounded before the floor), so that their
    result can be the neighbouring multiple; the properties below use the
    labels, dtypes and row counts of the bucket columns only. *)
Definition col_floordiv (c : column) (k : R) : result column :=
  match c with
  | FloatCol fk v =>
      Ok (FloatCol fk (map (option_map (fun x => IZR (Zfloor (x / k)))) v))
  | IntCol _ v =>
      Ok (FloatCol F64 (map (option_map (fun x => IZR (Zfloor (IZR x / k)))) v))
  | _ => Raise TypeError
  end.

Definition col_mul (c : column) (k : R) : result column :=
  match c with
  | FloatCol fk v => Ok (FloatCol fk (map (option_map (fun x => x * k)%R) v))
  | IntCol _ v => Ok (FloatCol F64 (map (option_map (fun x => IZR x * k)%R) v))
  | _ => Raise TypeError
  end.

(** [df[col] // .01 * .01]. *)
Definition bucket (df : frame) (col : string) : result column :=
  c <- getitem df col ;;
  q <- col_floordiv c (1 / 100)%R ;;
  col_mul q (1 / 100)%R.

(** The values a kernel reads from a numeric input column. *)
Definition real_cells (c : column) : result (list (option R)) :=
  match c with
  | FloatCol _ v => Ok v
  | IntCol _ v => Ok (map (option_map IZR) v)
  | _ => Raise TypeError
  end.

Definition int_cells (c : column) : result (list (option Z)) :=
  match c with
  | IntCol _ v => Ok v
  | _ => Raise TypeError
  end.

Definition lift4 {A B : Type} (f : A -> A -> A -> A -> B)
  (a b c d : option A) : option B :=
  match a, b, c, d with
  | Some a, Some b, Some c, Some d => Some (f a b c d)
  | _, _, _, _ => None
  end.

Fixpoint zip4 {A B : Type} (f : A -> A -> A -> A -> B) (l1 l2 l3 l4 : list A)
  : list B :=
  match l1, l2, l3, l4 with
  | a :: t1, b :: t2, c :: t3, d :: t4 => f a b c d :: zip4 f t1 t2 t3 t4
  | _, _, _, _ => []
  end.

Fixpoint zip3 {A B : Type} (f : A -> A -> A -> B) (l1 l2 l3 : list A) : list B :=
  match l1, l2, l3 with
  | a :: t1, b :: t2, c :: t3 => f a b c :: zip3 f t1 t2 t3
  | _, _, _ => []
  end.

(** [df.apply_rows(haversine_distance_kernel, incols=[...],
    outcols=dict(h_distance=np.float32))]: the kernel runs over the zipped
    input columns; a row with a null input gets a null. *)
Definition apply_haversine (df : frame) : result frame :=
  c1 <- getitem df "pickup_latitude" ;; x_1 <- real_cells c1 ;;
  c2 <- getitem df "pickup_longitude" ;; y_1 <- real_cells c2 ;;
  c3 <- getitem df "dropoff_latitude" ;; x_2 <- real_cells c3 ;;
  c4 <- getitem df "dropoff_longitude" ;; y_2 <- real_cells c4 ;;
  Ok (setitem df "h_distance"
        (FloatCol F32 (zip4 (lift4 haversine_distance_kernel) x_1 y_1 x_2 y_2))).

(** One row of the day-of-week kernel on nullable inputs; the integer
    result is stored in the [float32] output column. *)
Definition day_of_week_cell (d m y : option Z) : result (option R) :=
  match d, m, y with
  | Some d, Some m, Some y =>
      match day_of_the_week_kernel d m y with
      | Some w => Ok (Some (IZR w))
      | None => Raise ValueError
      end
  | _, _, _ => Ok None
  end.

Definition apply_day_of_week (df : frame) : result frame :=
  c1 <- getitem df "day" ;; day <- int_cells c1 ;;
  c2 <- getitem df "month" ;; month <- int_cells c2 ;;
  c3 <- getitem df "year" ;; year <- int_cells c3 ;;
  v <- traverse (fun r => r) (zip3 day_of_week_cell day month year) ;;
  Ok (setitem df "day_of_week" (FloatCol F32 v)).

(** The assignments at the head of [add_features]: they change the frame
    object the caller passed in. *)
Definition add_features_assign (df : frame) : result frame :=
  c <- getitem df "pickup_datetime" ;; c <- dt_hour c ;;
  let df := setitem df "hour" c in
  c <- getitem df "pickup_datetime" ;; c <- dt_year c ;;
  let df := setitem df "year" c in
  c <- getitem df "pickup_datetime" ;; c <- dt_month c ;;
  let df := setitem df "month" c in
  c <- getitem df "pickup_datetime" ;; c <- dt_day c ;;
  let df := setitem df "day" c in
  d <- getitem df "dropoff_datetime" ;; d <- astype d (D_int I32) ;;
  p <- getitem df "pickup_datetime" ;; p <- astype p (D_int I32) ;;
  c <- col_sub d p ;;
  let df := setitem df "diff" c in
  c <- bucket df "pickup_latitude" ;;
  let df := setitem df "pickup_latitude_r" c in
  c <- bucket df "pickup_longitude" ;;
  let df := setitem df "pickup_longitude_r" c in
  c <- bucket df "dropoff_latitude" ;;
  let df := setitem df "dropoff_latitude_r" c in
  c <- bucket df "dropoff_longitude" ;;
  let df := setitem df "dropoff_longitude_r" c in
  Ok df.

(** The rest of [add_features], from the first [df = df.drop(...)] on: it
    works on new frame objects. *)
Definition add_features_derive (df : frame) : result frame :=
  df <- drop df "pickup_datetime" ;;
  df <- drop df "dropoff_datetime" ;;
  df <- apply_haversine df ;;
  df <- apply_day_of_week df ;;
  c <- getitem df "day_of_week" ;;
  m <- cmp_scalar false c 2 ;;
  Ok (setitem df "is_weekend" (BoolCol m)).

Definition add_features (df : frame) : result frame :=
  df <- add_features_assign df ;; add_features_derive df.

(* ===================================================================== *)
(** * The workflow: clean, filter, derive *)
(* ===================================================================== *)

Definition pipeline (raw : frame) : result frame :=
  df <- clean raw remap must_haves ;;
  df <- outlier_filter df ;;
  add_features df.


(* ===================================================================== *)
(** * What the stages compute, column by column *)
(* ===================================================================== *)

(** The label [clean] gives to an input column: trimmed, lower-cased, then
    renamed by [remap]. *)
Definition canonical_name (remap : dict string) (col : string) : string :=
  let col' := Str.lower (Str.strip col) in
  match dict_get remap col' with
  | Some new => new
  | None => col'
  end.

Definition is_timestamp_col (col : string) : bool :=
  Str.mem col ["pickup_datetime"; "dropoff_datetime"].

(** What [clean] does to one retained column. *)
Definition normalize_column (col : string) (c : column) : result column :=
  match c with
  | StrCol v =>
      if is_timestamp_col col then astype (StrCol v) D_datetime_ms
      else Raise AttributeError
  | IntCol k v => Ok (IntCol I32 (fill (-1) (map (option_map (wrap I32)) v)))
  | FloatCol k v => Ok (FloatCol F32 (fill (IZR (-1)) v))
  | BoolCol v => Ok (BoolCol (fill true v))
  | TimeCol v => Ok (TimeCol (fill (-1) v))
  end.

Fixpoint normalize_frame (must_haves : dict dtype) (df : frame) : result frame :=
  match df with
  | [] => Ok []
  | (col, c) :: df' =>
      if dict_mem must_haves col then
        c' <- normalize_column col c ;;
        r <- normalize_frame must_haves df' ;;
        Ok ((col, c') :: r)
      else normalize_frame must_haves df'
  end.

(** The dtype a retained column comes out with: it depends on the dtype it
    came in with, not on the dtype [must_haves] declares.  A column read as
    text comes out only as one of the two timestamp columns, parsed. *)
Definition normalized_dtype (d : dtype) : dtype :=
  match d with
  | D_object => D_datetime_ms
  | D_int _ => D_int I32
  | D_float _ => D_float F32
  | D_bool => D_bool
  | D_datetime_ms => D_datetime_ms
  end.

(** A text that can be cast to a timestamp; a null needs no cast. *)
Definition castable_cell (x : option string) : bool :=
  match x with
  | None => true
  | Some s => match parse_datetime_ms s with Some _ => true | None => false end
  end.

(** A column [clean] can take: a column read as text only as one of the
    two timestamp columns, with texts that are timestamps; a column read as
    numbers, booleans or timestamps always. *)
Definition castable_column (col : string) (c : column) : bool :=
  match c with
  | StrCol v => is_timestamp_col col && forallb castable_cell v
  | _ => true
  end.

(** No schema column of the frame other than the two timestamps was read
    as text, and the texts of the timestamp columns are timestamps. *)
Definition castable (remap : dict string) (must_haves : dict dtype) (df : frame)
  : bool :=
  forallb (fun p =>
             let col := canonical_name remap (fst p) in
             negb (dict_mem must_haves col) || castable_column col (snd p)) df.

(** The frame after the two [rename] calls of [clean]. *)
Definition canonical_frame (remap : dict string) (df : frame) : frame :=
  map (fun p => (canonical_name remap (fst p), snd p)) df.


(** The reading of "exactly the declared schema, typed as declared": the
    labels are those of [must_haves] and each column has the dtype
    [must_haves] gives its label. *)
Definition has_declared_schema (must_haves : dict dtype) (df : frame) : Prop :=
  (forall name, In name (columns df) <-> dict_mem must_haves name = true)
  /\ (forall name c, In (name, c) df -> dict_get must_haves name = Some (dtype_of c)).

(** A partition with a fare and a passenger count, both read as floating
    point, and no other column. *)
Definition frame_two_columns : frame :=
  [ (" Fare_Amount ", FloatCol F64 [Some 12.5%R]);
    ("passenger_count", FloatCol F64 [Some 1%R]) ].





(** The six range predicates on one record, as the specification lists
    them; a null in any of the six fields fails them. *)
Definition in_bounds (fare_amount passenger_count pickup_longitude
  dropoff_longitude pickup_latitude dropoff_latitude : option R) : Prop :=
  match fare_amount, passenger_count, pickup_longitude, dropoff_longitude,
        pickup_latitude, dropoff_latitude with
  | Some fare, Some pc, Some plon, Some dlon, Some plat, Some dlat =>
      (0 < fare < 500 /\ 0 < pc < 6
       /\ -75 < plon < -73 /\ -75 < dlon < -73
       /\ 40 < plat < 42 /\ 40 < dlat < 42)%R
  | _, _, _, _, _, _ => False
  end.

(** [df] has a numeric column [name] with the values [v], one for each of
    its [n] rows. *)
Definition numeric_column (df : frame) (name : string) (v : list (option R))
  (n : nat) : Prop :=
  exists c, getitem df name = Ok c /\ real_cells c = Ok v /\ List.length v = n.

(** Two trips that differ in the fare only: 501 and 499.99. *)
Definition frame_fares : frame :=
  [ ("fare_amount", FloatCol F32 [Some 501%R; Some 499.99%R]);
    ("passenger_count", IntCol I32 [Some 1; Some 1]);
    ("pickup_longitude", FloatCol F32 [Some (-73.98)%R; Some (-73.98)%R]);
    ("pickup_latitude", FloatCol F32 [Some 40.75%R; Some 40.75%R]);
    ("dropoff_longitude", FloatCol F32 [Some (-73.99)%R; Some (-73.99)%R]);
    ("dropoff_latitude", FloatCol F32 [Some 40.76%R; Some 40.76%R]) ].

Definition frame_fares_kept : frame :=
  [ ("fare_amount", FloatCol F32 [Some 499.99%R]);
    ("passenger_count", IntCol I32 [Some 1]);
    ("pickup_longitude", FloatCol F32 [Some (-73.98)%R]);
    ("pickup_latitude", FloatCol F32 [Some 40.75%R]);
    ("dropoff_longitude", FloatCol F32 [Some (-73.99)%R]);
    ("dropoff_latitude", FloatCol F32 [Some 40.76%R]) ].


(** The mask cell of one fragment [col > lo and col < hi] on a value. *)
Definition range_cell (lo hi : Z) (x : option R) : option bool :=
  and_cell (option_map (fun r => Rltb (IZR lo) r) x)
           (option_map (fun r => Rltb r (IZR hi)) x).


(* ===================================================================== *)
(** * What the Feature Deriver adds *)
(* ===================================================================== *)

Definition derived_names : list string :=
  [ "hour"; "year"; "month"; "day"; "diff";
    "pickup_latitude_r"; "pickup_longitude_r";
    "dropoff_latitude_r"; "dropoff_longitude_r";
    "h_distance"; "day_of_week"; "is_weekend" ].

(** The frame without its two timestamp columns. *)
Definition without_timestamps (df : frame) : frame :=
  filter (fun p => negb (String.eqb (fst p) "dropoff_datetime"))
    (filter (fun p => negb (String.eqb (fst p) "pickup_datetime")) df).

Definition dt_col (f : Z -> Z) (pu : list (option Z)) : column :=
  IntCol I16 (map (option_map (fun ms => wrap I16 (f ms))) pu).

Definition diff_col (pu dr : list (option Z)) : column :=
  IntCol I32 (zip_with (lift2 (fun x y => wrap I32 (x - y)))
                (map (option_map (wrap I32)) dr)
                (map (option_map (wrap I32)) pu)).

Definition bucket_value (x : R) : R := (IZR (Zfloor (x / (1 / 100))) * (1 / 100))%R.

Definition bucket_col (c : column) : column :=
  match c with
  | FloatCol fk v => FloatCol fk (map (option_map bucket_value) v)
  | IntCol _ v => FloatCol F64 (map (option_map (fun x => bucket_value (IZR x))) v)
  | _ => c
  end.

Definition day_of_week_value (ms : Z) : R :=
  IZR (day_of_week_spec (wrap I16 (ms_day ms)) (wrap I16 (ms_month ms))
         (wrap I16 (ms_year ms))).

(** The columns the assignments at the head of [add_features] add. *)
Definition assigned_columns (pu dr : list (option Z))
  (c_plat c_plon c_dlat c_dlon : column) : frame :=
  [ ("hour", dt_col ms_hour pu);
    ("year", dt_col ms_year pu);
    ("month", dt_col ms_month pu);
    ("day", dt_col ms_day pu);
    ("diff", diff_col pu dr);
    ("pickup_latitude_r", bucket_col c_plat);
    ("pickup_longitude_r", bucket_col c_plon);
    ("dropoff_latitude_r", bucket_col c_dlat);
    ("dropoff_longitude_r", bucket_col c_dlon) ].

Definition derived_columns (pu dr : list (option Z))
  (c_plat c_plon c_dlat c_dlon : column) (x_1 y_1 x_2 y_2 : list (option R))
  : frame :=
  assigned_columns pu dr c_plat c_plon c_dlat c_dlon
  ++ [ ("h_distance",
         FloatCol F32 (zip4 (lift4 haversine_distance_kernel) x_1 y_1 x_2 y_2));
       ("day_of_week", FloatCol F32 (map (option_map day_of_week_value) pu));
       ("is_weekend",
         BoolCol (map (option_map (fun w => Rltb w (IZR 2)))
                    (map (option_map day_of_week_value) pu))) ].

(** A frame as the Feature Deriver expects it: the two timestamp columns
    are datetime columns, the four coordinate columns are numeric, and no
    column bears the name of a derived column. *)
Record deriver_input (df : frame) (pu dr : list (option Z))
  (c_plat c_plon c_dlat c_dlon : column) (x_1 y_1 x_2 y_2 : list (option R))
  : Prop := {
  di_pickup : getitem df "pickup_datetime" = Ok (TimeCol pu);
  di_dropoff : getitem df "dropoff_datetime" = Ok (TimeCol dr);
  di_plat : getitem df "pickup_latitude" = Ok c_plat;
  di_plon : getitem df "pickup_longitude" = Ok c_plon;
  di_dlat : getitem df "dropoff_latitude" = Ok c_dlat;
  di_dlon : getitem df "dropoff_longitude" = Ok c_dlon;
  di_x_1 : real_cells c_plat = Ok x_1;
  di_y_1 : real_cells c_plon = Ok y_1;
  di_x_2 : real_cells c_dlat = Ok x_2;
  di_y_2 : real_cells c_dlon = Ok y_2;
  di_fresh : forall name, In name derived_names -> ~ In name (columns df)
}.


(** One cleaned and filtered trip: 15 June 2014, 10:00 to 10:30. *)
Definition frame_trip : frame :=
  [ ("pickup_datetime", TimeCol [Some 1402826400000]);
    ("dropoff_datetime", TimeCol [Some 1402828200000]);
    ("passenger_count", IntCol I32 [Some 1]);
    ("trip_distance", FloatCol F32 [Some 2.5%R]);
    ("pickup_longitude", FloatCol F32 [Some (-73.98)%R]);
    ("pickup_latitude", FloatCol F32 [Some 40.75%R]);
    ("rate_code", IntCol I32 [Some 1]);
    ("dropoff_longitude", FloatCol F32 [Some (-73.99)%R]);
    ("dropoff_latitude", FloatCol F32 [Some 40.76%R]);
    ("fare_amount", FloatCol F32 [Some 12.5%R]) ].

(** The same trip with a dropoff recorded 3 000 000 000 ms (34.7 days)
    after the pickup: 20 July 2014, 03:20. *)
Definition frame_long_trip : frame :=
  [ ("pickup_datetime", TimeCol [Some 1402826400000]);
    ("dropoff_datetime", TimeCol [Some 1405826400000]);
    ("passenger_count", IntCol I32 [Some 1]);
    ("trip_distance", FloatCol F32 [Some 2.5%R]);
    ("pickup_longitude", FloatCol F32 [Some (-73.98)%R]);
    ("pickup_latitude", FloatCol F32 [Some 40.75%R]);
    ("rate_code", IntCol I32 [Some 1]);
    ("dropoff_longitude", FloatCol F32 [Some (-73.99)%R]);
    ("dropoff_latitude", FloatCol F32 [Some 40.76%R]);
    ("fare_amount", FloatCol F32 [Some 12.5%R]) ].


(* ===================================================================== *)
(** * The workflow on frame objects *)
(* ===================================================================== *)

(** Python passes frames by reference.  A store holds the frame objects;
    a reference is an index into it.  [rename], [drop], [query] and
    [apply_rows] return new objects; an assignment [df[col] = ...] changes
    the object [df] refers to. *)
Definition ref : Set := nat.
Definition store : Type := list frame.

Definition lookup (s : store) (r : ref) : result frame :=
  match nth_error s r with
  | Some df => Ok df
  | None => Raise KeyError
  end.

Definition alloc (s : store) (df : frame) : store * ref :=
  (s ++ [df], List.length s).

Fixpoint update (s : store) (r : ref) (df : frame) : store :=
  match s, r with
  | [], _ => []
  | _ :: t, O => df :: t
  | x :: t, S r' => x :: update t r' df
  end.

(** [clean(df_part, ...)]: the first [rename] makes a new frame, which the
    loop then changes; the argument object is left as it was. *)
Definition clean_obj (r : ref) (s : store) : result (store * ref) :=
  df_part <- lookup s r ;;
  out <- clean df_part remap must_haves ;;
  Ok (alloc s out).

(** [df.query(...)]: a new frame. *)
Definition outlier_filter_obj (r : ref) (s : store) : result (store * ref) :=
  df <- lookup s r ;;
  out <- outlier_filter df ;;
  Ok (alloc s out).

(** [add_features(df)]: the assignments change the object passed in; from
    the first [drop] on the function works on new frames and returns the
    last of them. *)
Definition add_features_obj (r : ref) (s : store) : result (store * ref) :=
  df <- lookup s r ;;
  df <- add_features_assign df ;;
  let s := update s r df in
  out <- add_features_derive df ;;
  Ok (alloc s out).

(** One run of the workflow on the partition object [r]. *)
Definition run_pipeline (r : ref) (s : store) : result (store * ref) :=
  x <- clean_obj r s ;;
  x <- outlier_filter_obj (snd x) (fst x) ;;
  add_features_obj (snd x) (fst x).

(** A raw partition as the CSV reader gives it: the timestamps and the
    flags read as text, the numeric fields as 64-bit numbers. *)
Definition frame_raw : frame :=
  [ ("vendor_id", StrCol [Some "CMT"; Some "VTS"]);
    (" pickup_datetime",
      StrCol [Some "2014-06-15 10:00:00"; Some "2014-01-04 09:15:00"]);
    (" dropoff_datetime",
      StrCol [Some "2014-06-15 10:30:00"; Some "2014-01-04 09:40:00"]);
    (" passenger_count", IntCol I64 [Some 1; Some 7]);
    (" trip_distance", FloatCol F64 [Some 2.5%R; Some 1%R]);
    (" pickup_longitude", FloatCol F64 [Some (-73.98)%R; Some (-73.97)%R]);
    (" pickup_latitude", FloatCol F64 [Some 40.75%R; Some 40.74%R]);
    (" rate_code", IntCol I64 [Some 1; Some 1]);
    (" store_and_fwd_flag", StrCol [Some "N"; None]);
    (" dropoff_longitude", FloatCol F64 [Some (-73.99)%R; Some (-73.96)%R]);
    (" dropoff_latitude", FloatCol F64 [Some 40.76%R; Some 40.77%R]);
    (" fare_amount", FloatCol F64 [Some 12.5%R; Some 8%R]) ].


(** [frame_raw] after [clean], after the filter (the second trip has seven
    passengers) and after [add_features]. *)
Definition frame_raw_cleaned : frame :=
  [ ("pickup_datetime", TimeCol [Some 1402826400000; Some 1388826900000]);
    ("dropoff_datetime", TimeCol [Some 1402828200000; Some 1388828400000]);
    ("passenger_count", IntCol I32 [Some 1; Some 7]);
    ("trip_distance", FloatCol F32 [Some 2.5%R; Some 1%R]);
    ("pickup_longitude", FloatCol F32 [Some (-73.98)%R; Some (-73.97)%R]);
    ("pickup_latitude", FloatCol F32 [Some 40.75%R; Some 40.74%R]);
    ("rate_code", IntCol I32 [Some 1; Some 1]);
    ("dropoff_longitude", FloatCol F32 [Some (-73.99)%R; Some (-73.96)%R]);
    ("dropoff_latitude", FloatCol F32 [Some 40.76%R; Some 40.77%R]);
    ("fare_amount", FloatCol F32 [Some 12.5%R; Some 8%R]) ].

Definition frame_raw_filtered : frame :=
  [ ("pickup_datetime", TimeCol [Some 1402826400000]);
    ("dropoff_datetime", TimeCol [Some 1402828200000]);
    ("passenger_count", IntCol I32 [Some 1]);
    ("trip_distance", FloatCol F32 [Some 2.5%R]);
    ("pickup_longitude", FloatCol F32 [Some (-73.98)%R]);
    ("pickup_latitude", FloatCol F32 [Some 40.75%R]);
    ("rate_code", IntCol I32 [Some 1]);
    ("dropoff_longitude", FloatCol F32 [Some (-73.99)%R]);
    ("dropoff_latitude", FloatCol F32 [Some 40.76%R]);
    ("fare_amount", FloatCol F32 [Some 12.5%R]) ].

Definition frame_raw_result : frame :=
  [ ("passenger_count", IntCol I32 [Some 1]);
    ("trip_distance", FloatCol F32 [Some 2.5%R]);
    ("pickup_longitude", FloatCol F32 [Some (-73.98)%R]);
    ("pickup_latitude", FloatCol F32 [Some 40.75%R]);
    ("rate_code", IntCol I32 [Some 1]);
    ("dropoff_longitude", FloatCol F32 [Some (-73.99)%R]);
    ("dropoff_latitude", FloatCol F32 [Some 40.76%R]);
    ("fare_amount", FloatCol F32 [Some 12.5%R]);
    ("hour", IntCol I16 [Some 10]);
    ("year", IntCol I16 [Some 2014]);
    ("month", IntCol I16 [Some 6]);
    ("day", IntCol I16 [Some 15]);
    ("diff", IntCol I32 [Some 1800000]);
    ("pickup_latitude_r", FloatCol F32 [Some (bucket_value 40.75)]);
    ("pickup_longitude_r", FloatCol F32 [Some (bucket_value (-73.98))]);
    ("dropoff_latitude_r", FloatCol F32 [Some (bucket_value 40.76)]);
    ("dropoff_longitude_r", FloatCol F32 [Some (bucket_value (-73.99))]);
    ("h_distance",
      FloatCol F32
        [Some (haversine_distance_kernel 40.75 (-73.98) 40.76 (-73.99))]);
    ("day_of_week", FloatCol F32 [Some (IZR 1)]);
    ("is_weekend", BoolCol [Some true]) ].


(* ===================================================================== *)
(** * Shapes of frames *)
(* ===================================================================== *)

(** The number of rows of a column. *)
Definition col_rows (c : column) : nat :=
  match c with
  | StrCol v => List.length v
  | BoolCol v => List.length v
  | IntCol _ v => List.length v
  | FloatCol _ v => List.length v
  | TimeCol v => List.length v
  end.

(** Every column of the frame has [n] rows. *)
Definition rectangular (n : nat) (df : frame) : Prop :=
  Forall (fun p => col_rows (snd p) = n) df.

Definition is_null {A : Type} (x : option A) : bool :=
  match x with None => true | Some _ => false end.

(** The column has a missing value. *)
Definition has_null (c : column) : bool :=
  match c with
  | StrCol v => existsb is_null v
  | BoolCol v => existsb is_null v
  | IntCol _ v => existsb is_null v
  | FloatCol _ v => existsb is_null v
  | TimeCol v => existsb is_null v
  end.

(** A datetime column with its nulls replaced by the timestamp -1; any
    other column as it is. *)
Definition fill_null_timestamps (c : column) : column :=
  match c with
  | TimeCol v => TimeCol (fill (-1) v)
  | _ => c
  end.

(** The frame with its labels changed by [f]. *)
Definition relabel (f : string -> string) (df : frame) : frame :=
  map (fun p => (f (fst p), snd p)) df.

(** How a cell of a timestamp column read as text comes out of [clean]. *)
Definition normalized_timestamp_cell (x : option string) (y : option Z) : Prop :=
  match x with
  | None => y = None
  | Some s => parse_datetime_ms s = y /\ y <> None
  end.

(** A timestamp column read as text, with a missing value. *)
Definition frame_missing_pickup : frame :=
  [ ("tpep_pickup_datetime", StrCol [Some "2014-06-15 10:00:00"; None]);
    ("Passenger_count", IntCol I64 [Some 1; None]) ].


Definition frame_missing_pickup_cleaned : frame :=
  [ ("pickup_datetime", TimeCol [Some 1402826400000; None]);
    ("passenger_count", IntCol I32 [Some 1; Some (-1)]) ].


(** A value strictly between two integer bounds; a null is not. *)
Definition in_range (lo hi : Z) (x : option R) : Prop :=
  match x with
  | Some r => (IZR lo < r < IZR hi)%R
  | None => False
  end.

(** [df] has a numeric column [name] all of whose values are strictly
    between [lo] and [hi]. *)
Definition column_in_range (df : frame) (name : string) (lo hi : Z) : Prop :=
  exists c v, getitem df name = Ok c /\ real_cells c = Ok v
              /\ Forall (in_range lo hi) v.

(** A missing value, or the sentinel that [clean] puts in its place. *)
Definition missing_or_sentinel (x : option R) : Prop :=
  x = None \/ x = Some (IZR (-1)).

(** The columns an expression reads. *)
Fixpoint qexpr_cols (e : qexpr) : list string :=
  match e with
  | Q_gt col _ | Q_lt col _ => [col]
  | Q_and a b => qexpr_cols a ++ qexpr_cols b
  end.

(** The six columns the filter reads. *)
Definition filtered_names : list string :=
  [ "fare_amount"; "passenger_count"; "pickup_longitude";
    "dropoff_longitude"; "pickup_latitude"; "dropoff_latitude" ].


(** Two trips; the passenger count of the first was missing and holds the
    sentinel. *)
Definition frame_sentinel : frame :=
  [ ("fare_amount", FloatCol F32 [Some 12.5%R; Some 8%R]);
    ("passenger_count", IntCol I32 [Some (-1); Some 2]);
    ("pickup_longitude", FloatCol F32 [Some (-73.98)%R; Some (-73.98)%R]);
    ("pickup_latitude", FloatCol F32 [Some 40.75%R; Some 40.75%R]);
    ("dropoff_longitude", FloatCol F32 [Some (-73.99)%R; Some (-73.99)%R]);
    ("dropoff_latitude", FloatCol F32 [Some 40.76%R; Some 40.76%R]) ].


(* ===================================================================== *)
(** * The workflow after the Feature Deriver: [dropna], [astype], X and y *)
(* ===================================================================== *)

(** True in the rows where the column has a value. *)
Definition notnull_mask (c : column) : mask :=
  match c with
  | StrCol v => map (fun x => Some (negb (is_null x))) v
  | BoolCol v => map (fun x => Some (negb (is_null x))) v
  | IntCol _ v => map (fun x => Some (negb (is_null x))) v
  | FloatCol _ v => map (fun x => Some (negb (is_null x))) v
  | TimeCol v => map (fun x => Some (negb (is_null x))) v
  end.

(** [taxi_df.dropna()]: the rows without a missing value in any column. *)
Definition dropna (df : frame) : frame :=
  match map (fun p => notnull_mask (snd p)) df with
  | [] => df
  | m :: ms => restrict (fold_left and_mask ms m) df
  end.

(** [taxi_df.astype(dtype)]: every column cast. *)
Definition frame_astype (df : frame) (d : dtype) : result frame :=
  traverse (fun p => c <- astype (snd p) d ;; Ok (fst p, c)) df.

(** [X, y = taxi_df.drop(["fare_amount"], axis=1),
            taxi_df["fare_amount"].astype('float32')]. *)
Definition features_and_target (taxi_df : frame) : result (frame * column) :=
  X <- drop taxi_df "fare_amount" ;;
  c <- getitem taxi_df "fare_amount" ;;
  y <- astype c (D_float F32) ;;
  Ok (X, y).

(** The three statements between [add_features] and the train/test
    split. *)
Definition prepare (taxi_df : frame) : result (frame * column) :=
  let taxi_df := dropna taxi_df in
  taxi_df <- frame_astype taxi_df (D_float F32) ;;
  features_and_target taxi_df.

(** A derived frame of two trips; the pickup time of the second was
    missing, and so are its hour and its weekend flag. *)
Definition frame_derived : frame :=
  [ ("passenger_count", IntCol I32 [Some 1; Some 2]);
    ("fare_amount", FloatCol F32 [Some 12.5%R; Some 8%R]);
    ("hour", IntCol I16 [Some 10; None]);
    ("is_weekend", BoolCol [Some true; None]) ].


(** The columns a partition needs for the workflow to return a frame. *)
Definition needed_names : list string :=
  filtered_names ++ ["pickup_datetime"; "dropoff_datetime"].

(** A column read as numbers: integer or floating point. *)
Definition read_as_number (d : dtype) : Prop :=
  match d with
  | D_int _ | D_float _ => True
  | D_object | D_bool | D_datetime_ms => False
  end.

(** The dtypes of a timestamp column the Feature Deriver can use after
    [clean]: text or datetime. *)
Definition read_as_time (d : dtype) : Prop :=
  d = D_object \/ d = D_datetime_ms.

(** [raw] has a column whose canonical name is [name] and whose dtype
    satisfies [P]. *)
Definition has_column (raw : frame) (name : string) (P : dtype -> Prop) : Prop :=
  exists name0 c, In (name0, c) raw /\ canonical_name remap name0 = name
                  /\ P (dtype_of c).

(** A partition the workflow can process: [n] rows in every column,
    distinct canonical names, no schema column read as text but the
    timestamps, whose texts are timestamps, the six filtered columns read
    as numbers and the two timestamps read as text or as datetimes. *)
Record processable (raw : frame) (n : nat) : Prop := {
  pr_nodup : NoDup (map (canonical_name remap) (columns raw));
  pr_castable : castable remap must_haves raw = true;
  pr_rows : rectangular n raw;
  pr_numbers : forall name, In name filtered_names ->
                            has_column raw name read_as_number;
  pr_times : forall name, In name ["pickup_datetime"; "dropoff_datetime"] ->
                          has_column raw name read_as_time
}.


(** How a cell of an integer column comes out of [clean]. *)
Definition normalized_int_cell (x y : option Z) : Prop :=
  match x with
  | None => y = Some (-1)
  | Some z => y = Some (wrap I32 z)
  end.

(** A cell before and after the sentinel substitution: a missing value
    has become the sentinel [d], a value is still a value. *)
Definition sentinel_cell {A : Type} (d : A) (x y : option A) : Prop :=
  match x with
  | None => y = Some d
  | Some _ => y <> None
  end.


(** The columns of the frame whose canonical name is in the schema. *)
Definition schema_columns (remap : dict string) (must_haves : dict dtype)
  (df : frame) : frame :=
  filter (fun p => dict_mem must_haves (canonical_name remap (fst p))) df.

(** A passenger count read as 64-bit integers, one of them missing and
    one beyond 32 bits, beside a column the schema does not know. *)
Definition frame_wide_count : frame :=
  [ ("Passenger_Count", IntCol I64 [Some 2; None; Some 4294967297]);
    ("store_and_fwd_flag", StrCol [Some "N"; Some "Y"; None]) ].

Definition frame_wide_count_cleaned : frame :=
  [ ("passenger_count", IntCol I32 [Some 2; Some (-1); Some 1]) ].

(* ===================================================================== *)
(** * Properties *)
(* ===================================================================== *)

Lemma Zrange_from_In (n : nat) :
  forall lo z, lo <= z < lo + Z.of_nat n -> In z (Zrange_from lo n).
Proof.
  induction n as [|k IH]; intros lo z Hz; [lia|].
  cbn [Zrange_from].
  destruct (Z.eq_dec lo z) as [->|Hne]; [now left|].
  right. apply IH. lia.
Qed.

Lemma Zrange_In (lo n z : Z) :
  lo <= z < lo + n -> In z (Zrange lo n).
Proof.
  intros Hz. apply Zrange_from_In. lia.
Qed.

Lemma forallb_Zrange (P : Z -> bool) (lo n : Z) :
  forallb P (Zrange lo n) = true ->
  forall z, lo <= z < lo + n -> P z = true.
Proof.
  intros H z Hz. rewrite forallb_forall in H. apply H, Zrange_In, Hz.
Qed.

(** ** Day of week *)

Example b64_lit_2_6_is_13_over_5 :
  B64.div (B64.of_int 13) (B64.of_int 5) = B64.lit_2_6.
Proof. vm_compute. reflexivity. Qed.

Example days_2014_06_15 : Calendar.days_from_civil 2014 6 15 = 16236.
Proof. vm_compute. reflexivity. Qed.

Example civil_16236 : Calendar.civil_from_days 16236 = (2014, 6, 15).
Proof. vm_compute. reflexivity. Qed.

(** The double product [m * 2.6] has the floor of the exact [13 m / 5] for
    every [m] below 1024: the binary64 rounding never crosses an
    integer. *)
Lemma b64_floor_mul_2_6 (m : Z) :
  0 <= m < 1024 ->
  B64.floor (B64.mul (B64.of_int m) B64.lit_2_6) = Some (13 * m / 5).
Proof.
  intros Hm.
  pose (P := fun m =>
    match B64.floor (B64.mul (B64.of_int m) B64.lit_2_6) with
    | Some v => v =? 13 * m / 5
    | None => false
    end).
  assert (HP : P m = true).
  { apply (forallb_Zrange P 0 1024); [vm_compute; reflexivity | lia]. }
  unfold P in HP.
  destruct (B64.floor _) as [v|]; [|discriminate].
  apply Z.eqb_eq in HP. now subst.
Qed.

Lemma day_of_the_week_kernel_spec (day month year : Z) :
  0 <= month <= 500 ->
  day_of_the_week_kernel day month year
  = Some (day_of_week_spec day month year).
Proof.
  intros Hm. unfold day_of_the_week_kernel, day_of_week_spec.
  rewrite b64_floor_mul_2_6; [reflexivity|].
  destruct (month <? 3) eqn:E; [apply Z.ltb_lt in E | apply Z.ltb_ge in E]; lia.
Qed.

Lemma days_in_month_le_31 (y m : Z) : Calendar.days_in_month y m <= 31.
Proof.
  unfold Calendar.days_in_month.
  destruct (m =? 2); [destruct (Calendar.is_leap y); lia|].
  destruct ((m =? 4) || (m =? 6) || (m =? 9) || (m =? 11))%bool; lia.
Qed.

(** The reference calendar counts days: within 2000..2099 the day after
    the last day of a month is the first of the next month, the day after
    31 December is 1 January, and the day numbers of consecutive days
    differ by one. *)
Lemma days_from_civil_next_day (y m d : Z) :
  Calendar.days_from_civil y m (d + 1) = Calendar.days_from_civil y m d + 1.
Proof. unfold Calendar.days_from_civil. lia. Qed.

Lemma days_from_civil_next_month (y m : Z) :
  2000 <= y <= 2099 -> 1 <= m <= 11 ->
  Calendar.days_from_civil y (m + 1) 1
  = Calendar.days_from_civil y m (Calendar.days_in_month y m) + 1.
Proof.
  intros Hy Hm.
  pose (P := fun y => forallb (fun m =>
               Calendar.days_from_civil y (m + 1) 1
               =? Calendar.days_from_civil y m (Calendar.days_in_month y m) + 1)
               (Zrange 1 11)).
  assert (HP : P y = true).
  { apply (forallb_Zrange P 2000 100); [vm_compute; reflexivity | lia]. }
  unfold P in HP. rewrite forallb_forall in HP.
  specialize (HP m (Zrange_In 1 11 m ltac:(lia))).
  now apply Z.eqb_eq.
Qed.

Lemma days_from_civil_next_year (y : Z) :
  2000 <= y <= 2099 ->
  Calendar.days_from_civil (y + 1) 1 1 = Calendar.days_from_civil y 12 31 + 1.
Proof.
  intros Hy.
  pose (P := fun y => Calendar.days_from_civil (y + 1) 1 1
                      =? Calendar.days_from_civil y 12 31 + 1).
  assert (HP : P y = true).
  { apply (forallb_Zrange P 2000 100); [vm_compute; reflexivity | lia]. }
  now apply Z.eqb_eq.
Qed.

(** The [dt] accessors read the same calendar: the civil date of the day
    number of a date of 2000..2099 is that date. *)
Lemma civil_from_days_from_civil (y m d : Z) :
  2000 <= y <= 2099 -> 1 <= m <= 12 -> 1 <= d <= Calendar.days_in_month y m ->
  Calendar.civil_from_days (Calendar.days_from_civil y m d) = (y, m, d).
Proof.
  intros Hy Hm Hd.
  pose (P := fun y => forallb (fun m => forallb (fun d =>
               negb (d <=? Calendar.days_in_month y m)
               || match Calendar.civil_from_days
                          (Calendar.days_from_civil y m d) with
                  | (y', m', d') => (y' =? y) && (m' =? m) && (d' =? d)
                  end)
               (Zrange 1 31)) (Zrange 1 12)).
  assert (HP : P y = true).
  { apply (forallb_Zrange P 2000 100); [vm_compute; reflexivity | lia]. }
  unfold P in HP. rewrite forallb_forall in HP.
  specialize (HP m (Zrange_In 1 12 m ltac:(lia))).
  rewrite forallb_forall in HP.
  pose proof (days_in_month_le_31 y m) as H31.
  specialize (HP d (Zrange_In 1 31 d ltac:(lia))).
  replace (d <=? Calendar.days_in_month y m) with true in HP
    by (symmetry; apply Z.leb_le; lia).
  cbn [negb orb] in HP.
  destruct (Calendar.civil_from_days (Calendar.days_from_civil y m d))
    as [[y' m'] d'].
  apply andb_true_iff in HP. destruct HP as [HP H3].
  apply andb_true_iff in HP. destruct HP as [H1 H2].
  apply Z.eqb_eq in H1, H2, H3. now subst.
Qed.

(** January 2014 started on a Wednesday (4 with Saturday = 0). *)
Example weekday_2014_01_01 : Calendar.weekday_sat0 2014 1 1 = 4.
Proof. vm_compute. reflexivity. Qed.

(** From March on, the congruence is Zeller's: it gives the weekday of the
    Gregorian calendar for every date of 2000..2099. *)
Lemma day_of_week_spec_is_weekday (y m d : Z) :
  2000 <= y <= 2099 -> 3 <= m <= 12 -> 1 <= d <= 31 ->
  day_of_week_spec d m y = Calendar.weekday_sat0 y m d.
Proof.
  intros Hy Hm Hd.
  pose (P := fun y => forallb (fun m => forallb (fun d =>
               day_of_week_spec d m y =? Calendar.weekday_sat0 y m d)
               (Zrange 1 31)) (Zrange 3 10)).
  assert (HP : P y = true).
  { apply (forallb_Zrange P 2000 100); [vm_compute; reflexivity | lia]. }
  unfold P in HP. rewrite forallb_forall in HP.
  specialize (HP m (Zrange_In 3 10 m ltac:(lia))).
  rewrite forallb_forall in HP.
  specialize (HP d (Zrange_In 1 31 d ltac:(lia))).
  now apply Z.eqb_eq.
Qed.

(** In January and February the kernel is off for every date of
    2000..2099: its month term is [2 * month + 1], not Zeller's
    [month + 13]. *)
Lemma day_of_week_spec_off_in_jan_feb (y m d : Z) :
  2000 <= y <= 2099 -> 1 <= m <= 2 -> 1 <= d <= 31 ->
  day_of_week_spec d m y <> Calendar.weekday_sat0 y m d.
Proof.
  intros Hy Hm Hd.
  pose (P := fun y => forallb (fun m => forallb (fun d =>
               negb (day_of_week_spec d m y =? Calendar.weekday_sat0 y m d))
               (Zrange 1 31)) (Zrange 1 2)).
  assert (HP : P y = true).
  { apply (forallb_Zrange P 2000 100); [vm_compute; reflexivity | lia]. }
  unfold P in HP. rewrite forallb_forall in HP.
  specialize (HP m (Zrange_In 1 2 m ltac:(lia))).
  rewrite forallb_forall in HP.
  specialize (HP d (Zrange_In 1 31 d ltac:(lia))).
  apply negb_true_iff, Z.eqb_neq in HP. exact HP.
Qed.

Lemma Rltb_IZR (a b : Z) : Rltb (IZR a) (IZR b) = (a <? b).
Proof.
  unfold Rltb. destruct (Rlt_dec (IZR a) (IZR b)) as [H|H].
  - symmetry. apply Z.ltb_lt. now apply lt_IZR.
  - symmetry. apply Z.ltb_ge. apply Z.le_ngt. intros Hlt. apply H.
    now apply IZR_lt.
Qed.

(** C10: for every date of March..December of 2000..2099 the kernel's
    day_of_week is the weekday of the Gregorian calendar counted from
    Saturday = 0, so the weekend flag (day_of_week < 2, taken on the stored
    float value) holds exactly on Saturdays and Sundays; for January and
    February the kernel uses the month term [2 * month + 1] and the
    correspondence fails, as on Saturday 4 January 2014, which gets 6 and
    no weekend flag. *)
Theorem day_of_week_weekday_from_march :
  (forall y m d : Z,
      2000 <= y <= 2099 -> 3 <= m <= 12 ->
      1 <= d <= Calendar.days_in_month y m ->
      exists w,
        day_of_the_week_kernel d m y = Some w
        /\ w = Calendar.weekday_sat0 y m d
        /\ (Rltb (IZR w) (IZR 2) = true
            <-> Calendar.weekday_sat0 y m d = 0
                \/ Calendar.weekday_sat0 y m d = 1))
  /\ (forall y m d : Z,
        1 <= m <= 2 ->
        day_of_week_spec d m y
        = (d + 13 * (2 * m + 1) / 5 + (y - 1 - 2000) + (y - 1 - 2000) / 4
           + 5 - 40) mod 7)
  /\ Calendar.weekday_sat0 2014 1 4 = 0
  /\ day_of_the_week_kernel 4 1 2014 = Some 6
  /\ Rltb (IZR 6) (IZR 2) = false.
Proof.
  split; [|split; [|split; [|split]]].
  - intros y m d Hy Hm Hd.
    pose proof (days_in_month_le_31 y m) as H31.
    exists (day_of_week_spec d m y).
    rewrite day_of_the_week_kernel_spec by lia.
    rewrite (day_of_week_spec_is_weekday y m d) by lia.
    split; [reflexivity|]. split; [reflexivity|].
    rewrite Rltb_IZR.
    unfold Calendar.weekday_sat0, Calendar.weekday_sat0_of_days.
    pose proof (Z.mod_pos_bound (Calendar.days_from_civil y m d + 5) 7
                  ltac:(lia)) as Hb.
    rewrite Z.ltb_lt. lia.
  - intros y m d Hm. unfold day_of_week_spec.
    replace (m <? 3) with true by (symmetry; apply Z.ltb_lt; lia).
    f_equal. replace (m + m + 1) with (2 * m + 1) by lia.
    change (20 / 4) with 5. lia.
  - vm_compute. reflexivity.
  - vm_compute. reflexivity.
  - rewrite Rltb_IZR. reflexivity.
Qed.

Lemma day_of_week_weekday_from_march_witness :
  exists w,
    day_of_the_week_kernel 15 6 2014 = Some w
    /\ w = Calendar.weekday_sat0 2014 6 15
    /\ (Rltb (IZR w) (IZR 2) = true
        <-> Calendar.weekday_sat0 2014 6 15 = 0
            \/ Calendar.weekday_sat0 2014 6 15 = 1).
Proof.
  apply (proj1 day_of_week_weekday_from_march 2014 6 15);
    vm_compute; split; congruence.
Defined.

(** ** Haversine distance *)

Local Open Scope R_scope.

Lemma PI_bounds : 3.14155 < PI < 3.14161.
Proof.
  pose proof (PI_2_3_7_ineq 2) as [Hlo Hhi].
  unfold sum_f_R0, tg_alt, PI_2_3_7_tg, Ratan_seq in Hlo, Hhi.
  cbn [Nat.mul Nat.add pow INR] in Hlo, Hhi.
  split; lra.
Qed.

Lemma haversine_kernel_is_spec (lat1 lon1 lat2 lon2 : R) :
  haversine_distance_kernel lat1 lon1 lat2 lon2
  = haversine_spec lat1 lon1 lat2 lon2.
Proof.
  unfold haversine_distance_kernel, haversine_spec, deg2rad.
  replace (PI / 180 * lat1) with (lat1 * PI / 180) by field.
  replace (PI / 180 * lat2) with (lat2 * PI / 180) by field.
  replace (PI / 180 * lon1) with (lon1 * PI / 180) by field.
  replace (PI / 180 * lon2) with (lon2 * PI / 180) by field.
  rewrite !Rsqr_pow2. ring.
Qed.

Lemma haversine_same_point (lat lon : R) :
  haversine_distance_kernel lat lon lat lon = 0.
Proof.
  unfold haversine_distance_kernel.
  replace (PI / 180 * lat - PI / 180 * lat) with 0 by ring.
  replace (PI / 180 * lon - PI / 180 * lon) with 0 by ring.
  replace (0 / 2) with 0 by field.
  rewrite sin_0.
  replace (0 ^ 2 + cos (PI / 180 * lat) * cos (PI / 180 * lat) * 0 ^ 2)
    with 0 by ring.
  rewrite sqrt_0, asin_0. ring.
Qed.

Lemma haversine_quarter_circle :
  haversine_distance_kernel 0 0 0 90 = 6371 * PI / 2.
Proof.
  unfold haversine_distance_kernel.
  replace (PI / 180 * 0) with 0 by ring.
  replace ((PI / 180 * 90 - 0) / 2) with (PI / 4) by field.
  replace ((0 - 0) / 2) with 0 by field.
  rewrite sin_0, cos_0, sin_PI4.
  assert (Hs : 0 < sqrt 2) by (apply sqrt_lt_R0; lra).
  assert (Hss : sqrt 2 * sqrt 2 = 2) by (apply sqrt_sqrt; lra).
  assert (Hq : (1 / sqrt 2) ^ 2 = / 2).
  { replace ((1 / sqrt 2) ^ 2) with (/ (sqrt 2 * sqrt 2)) by (field; lra).
    now rewrite Hss. }
  rewrite Hq.
  replace (0 ^ 2 + 1 * 1 * / 2) with (/ 2) by field.
  rewrite sqrt_inv, asin_inv_sqrt2. field.
Qed.

(** C5: the kernel's h_distance is the haversine formula with R = 6371,
    [a = sin^2 (dlat/2) + cos lat1 * cos lat2 * sin^2 (dlon/2)] on the
    coordinates converted to radians and [2 * R * asin (sqrt a)]; identical
    pickup and dropoff points, (40.7128, -74.0060) among them, are at
    distance 0, and (0, 0) to (0, 90) is a quarter of a great circle,
    6371 * PI / 2, within 0.1 km of 10007.5.  Floating-point values are
    read as the real numbers they denote. *)
Theorem haversine_distance_formula :
  (forall lat1 lon1 lat2 lon2 : R,
      haversine_distance_kernel lat1 lon1 lat2 lon2
      = haversine_spec lat1 lon1 lat2 lon2)
  /\ (forall lat lon : R, haversine_distance_kernel lat lon lat lon = 0)
  /\ haversine_distance_kernel 40.7128 (-74.0060) 40.7128 (-74.0060) = 0
  /\ haversine_distance_kernel 0 0 0 90 = 6371 * PI / 2
  /\ Rabs (haversine_distance_kernel 0 0 0 90 - 10007.5) < 0.1.
Proof.
  split; [exact haversine_kernel_is_spec|].
  split; [exact haversine_same_point|].
  split; [apply haversine_same_point|].
  split; [exact haversine_quarter_circle|].
  rewrite haversine_quarter_circle.
  pose proof PI_bounds as [Hlo Hhi].
  apply Rabs_def1; lra.
Qed.

Local Close Scope R_scope.

(** ** Frames: lookup, update and removal of a uniquely labelled column *)

Lemma mem_In (x : string) (l : list string) : Str.mem x l = true <-> In x l.
Proof.
  induction l as [|y l IH]; simpl; [split; [discriminate | tauto]|].
  rewrite orb_true_iff, IH, String.eqb_eq. split; intros [H|H]; auto.
Qed.

Lemma mem_notIn (x : string) (l : list string) :
  Str.mem x l = false <-> ~ In x l.
Proof.
  rewrite <- mem_In. destruct (Str.mem x l); split; congruence.
Qed.

Lemma columns_app (a b : frame) : columns (a ++ b) = columns a ++ columns b.
Proof. apply map_app. Qed.

Lemma cols_named_app (a b : frame) (col : string) :
  cols_named (a ++ b) col = cols_named a col ++ cols_named b col.
Proof. unfold cols_named. now rewrite filter_app, map_app. Qed.

Lemma cols_named_notin (a : frame) (col : string) :
  ~ In col (columns a) -> cols_named a col = [].
Proof.
  induction a as [|[n c] a IH]; intros H; [reflexivity|].
  unfold cols_named in *. simpl in *.
  destruct (String.eqb n col) eqn:E.
  - apply String.eqb_eq in E. tauto.
  - apply IH. tauto.
Qed.

Section UniqueLabel.

Variables (a b : frame) (col : string) (c : column).
Hypothesis Ha : ~ In col (columns a).
Hypothesis Hb : ~ In col (columns b).

Lemma cols_named_mid : cols_named (a ++ (col, c) :: b) col = [c].
Proof.
  rewrite cols_named_app, (cols_named_notin a col Ha).
  unfold cols_named. simpl. rewrite String.eqb_refl. simpl.
  fold (cols_named b col). now rewrite (cols_named_notin b col Hb).
Qed.

Lemma getitem_mid : getitem (a ++ (col, c) :: b) col = Ok c.
Proof. unfold getitem. now rewrite cols_named_mid. Qed.

Lemma mem_mid : Str.mem col (columns (a ++ (col, c) :: b)) = true.
Proof. apply mem_In. rewrite columns_app. apply in_or_app. right. now left. Qed.

Lemma map_replace_notin (f : frame) (c' : column) :
  ~ In col (columns f) ->
  map (fun p => if String.eqb (fst p) col then (fst p, c') else p) f = f.
Proof.
  induction f as [|[n x] f IH]; intros H; [reflexivity|].
  simpl in *. destruct (String.eqb n col) eqn:E.
  - apply String.eqb_eq in E. tauto.
  - f_equal. apply IH. tauto.
Qed.

Lemma setitem_mid (c' : column) :
  setitem (a ++ (col, c) :: b) col c' = a ++ (col, c') :: b.
Proof.
  unfold setitem. rewrite mem_mid, map_app. simpl.
  rewrite String.eqb_refl, (map_replace_notin a c' Ha),
    (map_replace_notin b c' Hb).
  reflexivity.
Qed.

Lemma filter_drop_notin (f : frame) :
  ~ In col (columns f) ->
  filter (fun p => negb (String.eqb (fst p) col)) f = f.
Proof.
  induction f as [|[n x] f IH]; intros H; [reflexivity|].
  simpl in *. destruct (String.eqb n col) eqn:E.
  - apply String.eqb_eq in E. tauto.
  - simpl. f_equal. apply IH. tauto.
Qed.

Lemma drop_mid : drop (a ++ (col, c) :: b) col = Ok (a ++ b).
Proof.
  unfold drop. rewrite mem_mid, filter_app. simpl.
  rewrite String.eqb_refl. simpl.
  now rewrite (filter_drop_notin a Ha), (filter_drop_notin b Hb).
Qed.

End UniqueLabel.

Lemma setitem_new (df : frame) (col : string) (c : column) :
  ~ In col (columns df) -> setitem df col c = df ++ [(col, c)].
Proof.
  intros H. unfold setitem. apply mem_notIn in H. now rewrite H.
Qed.

(** ** The Column Normalizer *)

Lemma clean_col_dropped (mh : dict dtype) (a b : frame) (col : string)
  (c : column) :
  ~ In col (columns a) -> ~ In col (columns b) ->
  dict_mem mh col = false ->
  clean_col mh (a ++ (col, c) :: b) col = Ok (a ++ b).
Proof.
  intros Ha Hb Hm. unfold clean_col. rewrite Hm. simpl.
  now apply drop_mid.
Qed.

Lemma clean_col_kept (mh : dict dtype) (a b : frame) (col : string)
  (c : column) :
  ~ In col (columns a) -> ~ In col (columns b) ->
  dict_mem mh col = true ->
  clean_col mh (a ++ (col, c) :: b) col
  = (c' <- normalize_column col c ;; Ok (a ++ (col, c') :: b)).
Proof.
  intros Ha Hb Hm. unfold clean_col. rewrite Hm. simpl negb. cbv iota.
  rewrite getitem_mid by assumption. cbn [bind].
  destruct c as [v|v|k v|k v|v].
  - (* object *)
    change (dtype_is (dtype_of (StrCol v)) "object") with true.
    cbn [andb normalize_column]. unfold is_timestamp_col.
    destruct (Str.mem col ["pickup_datetime"; "dropoff_datetime"]).
    + destruct (astype (StrCol v) D_datetime_ms) as [c'|e]; cbn [bind];
        [now rewrite setitem_mid | reflexivity].
    + cbn [str_fillna bind]. reflexivity.
  - (* bool *)
    change (dtype_is (dtype_of (BoolCol v)) "object") with false.
    cbn [andb]. 
    change (Str.contains "int" (dtype_str (dtype_of (BoolCol v)))) with false.
    cbv iota. cbn [bind]. rewrite getitem_mid by assumption. cbn [bind].
    change (Str.contains "float" (dtype_str (dtype_of (BoolCol v)))) with false.
    cbv iota. cbn [bind]. rewrite getitem_mid by assumption.
    cbn [bind fillna normalize_column]. now rewrite setitem_mid.
  - (* integers *)
    replace (dtype_is (dtype_of (IntCol k v)) "object") with false
      by (destruct k; reflexivity).
    cbn [andb].
    replace (Str.contains "int" (dtype_str (dtype_of (IntCol k v)))) with true
      by (destruct k; reflexivity).
    cbv iota. cbn [astype bind]. rewrite setitem_mid by assumption.
    cbn [bind]. rewrite getitem_mid by assumption. cbn [bind].
    change (Str.contains "float" (dtype_str (dtype_of (IntCol I32
              (map (option_map (wrap I32)) v))))) with false.
    cbv iota. cbn [bind]. rewrite getitem_mid by assumption.
    cbn [bind fillna normalize_column]. now rewrite setitem_mid.
  - (* floats *)
    replace (dtype_is (dtype_of (FloatCol k v)) "object") with false
      by (destruct k; reflexivity).
    cbn [andb].
    replace (Str.contains "int" (dtype_str (dtype_of (FloatCol k v)))) with false
      by (destruct k; reflexivity).
    cbv iota. cbn [bind]. rewrite getitem_mid by assumption. cbn [bind].
    replace (Str.contains "float" (dtype_str (dtype_of (FloatCol k v)))) with true
      by (destruct k; reflexivity).
    cbv iota. cbn [astype bind]. rewrite setitem_mid by assumption.
    cbn [bind]. rewrite getitem_mid by assumption.
    cbn [bind fillna normalize_column]. now rewrite setitem_mid.
  - (* datetimes *)
    change (dtype_is (dtype_of (TimeCol v)) "object") with false.
    cbn [andb].
    change (Str.contains "int" (dtype_str (dtype_of (TimeCol v)))) with false.
    cbv iota. cbn [bind]. rewrite getitem_mid by assumption. cbn [bind].
    change (Str.contains "float" (dtype_str (dtype_of (TimeCol v)))) with false.
    cbv iota. cbn [bind]. rewrite getitem_mid by assumption.
    cbn [bind fillna normalize_column]. now rewrite setitem_mid.
Qed.

Lemma bind_assoc {A B C : Type} (r : result A) (f : A -> result B)
  (g : B -> result C) :
  (y <- (x <- r ;; f x) ;; g y) = (x <- r ;; y <- f x ;; g y).
Proof. destruct r; reflexivity. Qed.

Lemma clean_loop_normalize (mh : dict dtype) (todo : frame) :
  forall done : frame,
    NoDup (columns (done ++ todo)) ->
    clean_loop mh (columns todo) (done ++ todo)
    = (r <- normalize_frame mh todo ;; Ok (done ++ r)).
Proof.
  induction todo as [|[col c] todo IH]; intros done Hnd.
  - simpl. now rewrite app_nil_r.
  - rewrite columns_app in Hnd. simpl in Hnd.
    pose proof (NoDup_remove_2 _ _ _ Hnd) as Hnot.
    pose proof (NoDup_remove_1 _ _ _ Hnd) as Hnd'.
    assert (Ha : ~ In col (columns done))
      by (intros H; apply Hnot, in_or_app; now left).
    assert (Hb : ~ In col (columns todo))
      by (intros H; apply Hnot, in_or_app; now right).
    cbn [columns map fst clean_loop normalize_frame].
    fold (columns todo).
    destruct (dict_mem mh col) eqn:Hm.
    + rewrite clean_col_kept by assumption.
      destruct (normalize_column col c) as [c'|e]; cbn [bind]; [|reflexivity].
      replace (done ++ (col, c') :: todo) with ((done ++ [(col, c')]) ++ todo)
        by now rewrite <- app_assoc.
      rewrite IH.
      * destruct (normalize_frame mh todo) as [r|e]; cbn [bind];
          [now rewrite <- app_assoc | reflexivity].
      * rewrite !columns_app. simpl. rewrite <- app_assoc. exact Hnd.
    + rewrite clean_col_dropped by assumption. cbn [bind].
      apply IH. now rewrite columns_app.
Qed.

Lemma dict_get_comprehension (f : string -> string) (l : list string)
  (x : string) :
  In x l -> dict_get (map (fun col => (col, f col)) l) x = Some (f x).
Proof.
  induction l as [|y l IH]; intros H; [destruct H|].
  simpl. destruct (String.eqb x y) eqn:E.
  - apply String.eqb_eq in E. now subst.
  - apply IH. destruct H as [->|H]; [|exact H].
    now rewrite String.eqb_refl in E.
Qed.

(** The two [rename] calls of [clean] give every column its canonical
    name and leave the columns themselves alone. *)
Lemma clean_renames (df : frame) (remap : dict string) :
  rename (rename df (map (fun col => (col, Str.lower (Str.strip col)))
                         (columns df))) remap
  = map (fun p => (canonical_name remap (fst p), snd p)) df.
Proof.
  unfold rename. rewrite map_map. apply map_ext_in.
  intros [n c] Hin. cbn [fst snd].
  rewrite dict_get_comprehension
    by (apply in_map_iff; exists (n, c); split; [reflexivity | exact Hin]).
  reflexivity.
Qed.

Lemma columns_canonical_frame (remap : dict string) (df : frame) :
  columns (canonical_frame remap df) = map (canonical_name remap) (columns df).
Proof. unfold canonical_frame, columns. now rewrite !map_map. Qed.

(** With distinct canonical names, [clean] is the column-by-column
    normalization of the renamed frame, failures included. *)
Lemma clean_is_normalize (df : frame) (remap : dict string) (mh : dict dtype) :
  NoDup (map (canonical_name remap) (columns df)) ->
  clean df remap mh = normalize_frame mh (canonical_frame remap df).
Proof.
  intros Hnd. unfold clean. cbv zeta. rewrite clean_renames.
  fold (canonical_frame remap df).
  rewrite <- columns_canonical_frame in Hnd.
  pose proof (clean_loop_normalize mh (canonical_frame remap df) [] Hnd) as H.
  cbn [app] in H. rewrite H.
  destruct (normalize_frame mh (canonical_frame remap df)); reflexivity.
Qed.

Lemma normalize_column_dtype (col : string) (c c' : column) :
  normalize_column col c = Ok c' ->
  dtype_of c' = normalized_dtype (dtype_of c).
Proof.
  destruct c as [v|v|k v|k v|v]; cbn [normalize_column dtype_of normalized_dtype].
  - destruct (is_timestamp_col col); cbn [astype]; [|discriminate].
    destruct (traverse _ v); cbn [bind]; intros H; inversion H; reflexivity.
  - intros H; inversion H; reflexivity.
  - intros H; inversion H; reflexivity.
  - intros H; inversion H; reflexivity.
  - intros H; inversion H; reflexivity.
Qed.

Lemma traverse_ok {A B : Type} (f : A -> result B) (l : list A) :
  (forall x, In x l -> is_ok (f x) = true) ->
  exists l', traverse f l = Ok l'.
Proof.
  induction l as [|a l IH]; intros H; [now exists []|].
  destruct (f a) as [b|e] eqn:E.
  - destruct IH as [l' Hl']; [intros x Hx; apply H; now right|].
    exists (b :: l'). simpl. now rewrite E, Hl'.
  - specialize (H a (or_introl eq_refl)). rewrite E in H. discriminate.
Qed.

Lemma traverse_Forall2 {A B : Type} (f : A -> result B) (l : list A)
  (l' : list B) :
  traverse f l = Ok l' -> Forall2 (fun a b => f a = Ok b) l l'.
Proof.
  revert l'. induction l as [|a l IH]; intros l' H; simpl in H.
  - inversion H. constructor.
  - destruct (f a) as [b|e] eqn:E; cbn [bind] in H; [|discriminate].
    destruct (traverse f l) as [bs|e]; cbn [bind] in H; [|discriminate].
    inversion H; subst. constructor; [exact E | now apply IH].
Qed.

Lemma normalize_column_castable (col : string) (c : column) :
  castable_column col c = true -> exists c', normalize_column col c = Ok c'.
Proof.
  destruct c as [v|v|k v|k v|v]; cbn [castable_column normalize_column];
    intros H; try (eexists; reflexivity).
  apply andb_true_iff in H. destruct H as [Ets H]. rewrite Ets.
  rewrite forallb_forall in H. cbn [astype].
  destruct (traverse_ok (parse_cell parse_datetime_ms) v) as [v' Hv'].
  { intros x Hx. specialize (H x Hx). unfold castable_cell in H.
    destruct x as [s|]; [|reflexivity]. simpl.
    destruct (parse_datetime_ms s); [reflexivity | discriminate]. }
  rewrite Hv'. eexists; reflexivity.
Qed.

Lemma normalize_frame_castable (mh : dict dtype) (df : frame) :
  forallb (fun p => negb (dict_mem mh (fst p))
                    || castable_column (fst p) (snd p)) df = true ->
  exists out, normalize_frame mh df = Ok out.
Proof.
  induction df as [|[col c] df IH]; intros H; [now exists []|].
  simpl in H. apply andb_true_iff in H. destruct H as [Hc Hdf].
  destruct (IH Hdf) as [r Hr]. cbn [normalize_frame].
  destruct (dict_mem mh col) eqn:Hm.
  - simpl in Hc. destruct (normalize_column_castable col c Hc) as [c' Hc'].
    rewrite Hc', Hr. eexists; reflexivity.
  - rewrite Hr. eexists; reflexivity.
Qed.

Lemma normalize_frame_columns (mh : dict dtype) (df out : frame) :
  normalize_frame mh df = Ok out ->
  columns out = filter (dict_mem mh) (columns df)
  /\ map (fun p => dtype_of (snd p)) out
     = map (fun p => normalized_dtype (dtype_of (snd p)))
         (filter (fun p => dict_mem mh (fst p)) df).
Proof.
  revert out. induction df as [|[col c] df IH]; intros out H.
  - inversion H. split; reflexivity.
  - cbn [normalize_frame] in H. cbn [columns map filter fst snd].
    destruct (dict_mem mh col) eqn:Hm.
    + destruct (normalize_column col c) as [c'|e] eqn:Hc; cbn [bind] in H;
        [|discriminate].
      destruct (normalize_frame mh df) as [r|e]; cbn [bind] in H;
        [|discriminate].
      inversion H; subst out. destruct (IH r eq_refl) as [IH1 IH2].
      cbn [columns map fst snd]. fold (columns r). fold (columns df).
      rewrite IH1, IH2, (normalize_column_dtype col c c' Hc).
      split; reflexivity.
    + fold (columns df). now apply IH.
Qed.

Lemma forallb_map {A B : Type} (g : A -> B) (P : B -> bool) (l : list A) :
  forallb P (map g l) = forallb (fun x => P (g x)) l.
Proof. induction l as [|a l IH]; simpl; [reflexivity | now rewrite IH]. Qed.

Lemma castable_normalizes (df : frame) :
  NoDup (map (canonical_name remap) (columns df)) ->
  castable remap must_haves df = true ->
  exists out, clean df remap must_haves = Ok out.
Proof.
  intros Hnd Hc. rewrite clean_is_normalize by exact Hnd.
  apply normalize_frame_castable. unfold canonical_frame.
  rewrite forallb_map. exact Hc.
Qed.

(** C1 (counterexample): a partition without the timestamp columns comes
    out of [clean] without them, and its passenger count, read as floating
    point, comes out as float32 although int32 is declared. *)
Lemma clean_keeps_absent_columns_absent :
  exists out,
    clean frame_two_columns remap must_haves = Ok out
    /\ columns out = ["fare_amount"; "passenger_count"]
    /\ ~ has_declared_schema must_haves out.
Proof.
  exists [ ("fare_amount", FloatCol F32 [Some 12.5%R]);
           ("passenger_count", FloatCol F32 [Some 1%R]) ].
  split; [|split].
  - cbv -[IZR Rmult Rinv Rdiv]. reflexivity.
  - reflexivity.
  - intros [Hnames Htypes].
    assert (H : In "pickup_datetime" ["fare_amount"; "passenger_count"]).
    { apply Hnames. reflexivity. }
    simpl in H. destruct H as [H|[H|[]]]; discriminate.
Qed.

(** C1 (amended): when the canonical names of the input columns are
    distinct, no schema column other than the two timestamps was read as
    text and the texts of the timestamps are timestamps, [clean] returns a
    frame whose labels are, in input order, the canonical names that are
    keys of [must_haves]: a subset of the schema, which is the whole schema
    exactly when every schema column is present in the input.  The dtype
    of a column follows from the dtype it was read with: a timestamp read
    as text becomes datetime64[ms], integers become int32, floats
    float32. *)
Theorem clean_output_schema (df : frame) :
  NoDup (map (canonical_name remap) (columns df)) ->
  castable remap must_haves df = true ->
  exists out,
    clean df remap must_haves = Ok out
    /\ columns out
       = filter (dict_mem must_haves) (map (canonical_name remap) (columns df))
    /\ map (fun p => dtype_of (snd p)) out
       = map (fun p => normalized_dtype (dtype_of (snd p)))
           (filter (fun p => dict_mem must_haves (canonical_name remap (fst p)))
                   df)
    /\ ((forall name, In name (columns out) <-> dict_mem must_haves name = true)
        <-> (forall name, dict_mem must_haves name = true ->
                          In name (map (canonical_name remap) (columns df)))).
Proof.
  intros Hnd Hc.
  destruct (castable_normalizes df Hnd Hc) as [out Hout].
  exists out. split; [exact Hout|].
  rewrite clean_is_normalize in Hout by exact Hnd.
  destruct (normalize_frame_columns _ _ _ Hout) as [Hcols Htys].
  rewrite columns_canonical_frame in Hcols.
  split; [exact Hcols|]. split.
  - rewrite Htys. unfold canonical_frame.
    clear. induction df as [|[n c] df IH]; [reflexivity|].
    cbn [map filter fst snd].
    destruct (dict_mem must_haves (canonical_name remap n));
      cbn [map fst snd]; now rewrite IH.
  - rewrite Hcols. split.
    + intros H name Hm. apply H in Hm. apply filter_In in Hm. tauto.
    + intros H name. rewrite filter_In. split; [tauto|].
      intros Hm. split; [now apply H | exact Hm].
Qed.

Lemma clean_output_schema_witness :
  exists out,
    clean frame_two_columns remap must_haves = Ok out
    /\ columns out
       = filter (dict_mem must_haves)
           (map (canonical_name remap) (columns frame_two_columns))
    /\ map (fun p => dtype_of (snd p)) out
       = map (fun p => normalized_dtype (dtype_of (snd p)))
           (filter (fun p => dict_mem must_haves (canonical_name remap (fst p)))
                   frame_two_columns)
    /\ ((forall name, In name (columns out) <-> dict_mem must_haves name = true)
        <-> (forall name, dict_mem must_haves name = true ->
                          In name (map (canonical_name remap)
                                     (columns frame_two_columns)))).
Proof.
  apply (clean_output_schema frame_two_columns).
  - vm_compute. repeat constructor; simpl; intuition discriminate.
  - vm_compute. reflexivity.
Defined.

Lemma normalize_frame_app (mh : dict dtype) (a b : frame) :
  normalize_frame mh (a ++ b)
  = (ra <- normalize_frame mh a ;; rb <- normalize_frame mh b ;; Ok (ra ++ rb)).
Proof.
  induction a as [|[col c] a IH]; cbn [app normalize_frame bind].
  - destruct (normalize_frame mh b); reflexivity.
  - destruct (dict_mem mh col); [|exact IH].
    destruct (normalize_column col c) as [c'|e]; cbn [bind]; [|reflexivity].
    rewrite IH. destruct (normalize_frame mh a) as [ra|e]; cbn [bind];
      [|reflexivity].
    destruct (normalize_frame mh b); reflexivity.
Qed.

Lemma normalize_frame_labels (mh : dict dtype) (df out : frame) (col : string) :
  normalize_frame mh df = Ok out -> In col (columns out) -> In col (columns df).
Proof.
  intros H Hin. destruct (normalize_frame_columns mh df out H) as [Hc _].
  rewrite Hc in Hin. apply filter_In in Hin. tauto.
Qed.

(** A retained column of a frame with distinct labels is found in the
    normalized frame under its label, normalized. *)
Lemma normalize_frame_getitem (mh : dict dtype) (df out : frame)
  (col : string) (c : column) :
  NoDup (columns df) ->
  normalize_frame mh df = Ok out ->
  In (col, c) df -> dict_mem mh col = true ->
  exists c', normalize_column col c = Ok c' /\ getitem out col = Ok c'.
Proof.
  intros Hnd Hout Hin Hm.
  destruct (in_split _ _ Hin) as [a [b ->]].
  rewrite columns_app in Hnd. simpl in Hnd.
  pose proof (NoDup_remove_2 _ _ _ Hnd) as Hnot.
  rewrite normalize_frame_app in Hout. cbn [normalize_frame] in Hout.
  rewrite Hm in Hout.
  destruct (normalize_frame mh a) as [ra|e] eqn:Ea; cbn [bind] in Hout;
    [|discriminate].
  destruct (normalize_column col c) as [c'|e] eqn:Ec; cbn [bind] in Hout;
    [|discriminate].
  destruct (normalize_frame mh b) as [rb|e] eqn:Eb; cbn [bind] in Hout;
    [|discriminate].
  inversion Hout; subst out. exists c'. split; [reflexivity|].
  apply getitem_mid.
  - intros H. apply Hnot, in_or_app. left.
    exact (normalize_frame_labels mh a ra col Ea H).
  - intros H. apply Hnot, in_or_app. right.
    exact (normalize_frame_labels mh b rb col Eb H).
Qed.


(** ** The Outlier Filter *)

Lemma select_nil_r {A : Type} (m : mask) : select m (@nil A) = [].
Proof. destruct m as [|b m]; reflexivity. Qed.

Lemma and_mask_nil_r (m : mask) : and_mask m [] = [].
Proof. destruct m; reflexivity. Qed.

Lemma select_map {A B : Type} (f : A -> B) (m : mask) (v : list A) :
  select m (map f v) = map f (select m v).
Proof.
  revert v. induction m as [|b m IH]; intros [|x v]; try reflexivity.
  simpl. destruct (keep b); simpl; now rewrite IH.
Qed.

Lemma select_and_mask (m a b : mask) :
  select m (and_mask a b) = and_mask (select m a) (select m b).
Proof.
  revert a b. induction m as [|x m IH]; intros a b.
  - destruct a, b; reflexivity.
  - destruct a as [|xa a]; [now rewrite !select_nil_r|].
    destruct b as [|xb b].
    { cbn [and_mask]. now rewrite !select_nil_r, and_mask_nil_r. }
    cbn [and_mask select]. destruct (keep x); cbn [and_mask]; now rewrite IH.
Qed.

Lemma cols_named_restrict (m : mask) (df : frame) (col : string) :
  cols_named (restrict m df) col = map (take_rows m) (cols_named df col).
Proof.
  unfold cols_named, restrict.
  induction df as [|[n c] df IH]; [reflexivity|].
  cbn [map filter fst snd]. destruct (String.eqb n col); cbn [map snd];
    now rewrite IH.
Qed.

Lemma getitem_restrict (m : mask) (df : frame) (col : string) :
  getitem (restrict m df) col = (c <- getitem df col ;; Ok (take_rows m c)).
Proof.
  unfold getitem. rewrite cols_named_restrict.
  destruct (cols_named df col) as [|c [|c' l]]; reflexivity.
Qed.

Lemma cmp_scalar_take_rows (gt : bool) (c : column) (k : Z) (m mc : mask) :
  cmp_scalar gt c k = Ok mc ->
  cmp_scalar gt (take_rows m c) k = Ok (select m mc).
Proof.
  destruct c; cbn [cmp_scalar take_rows]; intros H; inversion H;
    now rewrite select_map.
Qed.

Lemma eval_mask_restrict (df : frame) (e : qexpr) (m : mask) :
  forall m0, eval_mask df e = Ok m0 ->
             eval_mask (restrict m df) e = Ok (select m m0).
Proof.
  induction e as [col k|col k|a IHa b IHb]; intros m0 H; cbn [eval_mask] in *.
  - rewrite getitem_restrict. destruct (getitem df col) as [c|]; cbn [bind] in *;
      [now apply cmp_scalar_take_rows | discriminate].
  - rewrite getitem_restrict. destruct (getitem df col) as [c|]; cbn [bind] in *;
      [now apply cmp_scalar_take_rows | discriminate].
  - destruct (eval_mask df a) as [ma|]; cbn [bind] in H; [|discriminate].
    destruct (eval_mask df b) as [mb|]; cbn [bind] in H; [|discriminate].
    inversion H; subst m0.
    rewrite (IHa ma eq_refl), (IHb mb eq_refl). cbn [bind].
    now rewrite select_and_mask.
Qed.

Lemma select_self_kept (m : mask) : Forall (fun b => keep b = true) (select m m).
Proof.
  induction m as [|b m IH]; [constructor|].
  simpl. destruct (keep b) eqn:E; [constructor; assumption | exact IH].
Qed.

Lemma select_length_le {A : Type} (m : mask) (v : list A) :
  (List.length (select m v) <= List.length (select m m))%nat.
Proof.
  revert v. induction m as [|b m IH]; intros [|x v]; simpl; try lia.
  destruct (keep b); simpl; [apply le_n_S|]; apply IH.
Qed.

Lemma select_all_kept {A : Type} (m : mask) (v : list A) :
  Forall (fun b => keep b = true) m ->
  (List.length v <= List.length m)%nat ->
  select m v = v.
Proof.
  revert v. induction m as [|b m IH]; intros [|x v] Hk Hl; try reflexivity.
  - simpl in Hl. lia.
  - inversion Hk; subst. simpl. rewrite H1. f_equal. apply IH; [assumption|].
    simpl in Hl. lia.
Qed.

Lemma take_rows_twice (m : mask) (c : column) :
  take_rows (select m m) (take_rows m c) = take_rows m c.
Proof.
  destruct c; cbn [take_rows]; f_equal;
    apply select_all_kept; auto using select_self_kept, select_length_le.
Qed.

Lemma query_idempotent (df out : frame) (e : qexpr) :
  query df e = Ok out -> query out e = Ok out.
Proof.
  unfold query. destruct (eval_mask df e) as [m|] eqn:E; cbn [bind];
    [|discriminate].
  intros H. inversion H.
  rewrite (eval_mask_restrict df e m m E). cbn [bind]. apply f_equal.
  unfold restrict. rewrite map_map. apply map_ext.
  intros [n c]. cbn [fst snd]. now rewrite take_rows_twice.
Qed.

(** C7: the Outlier Filter applied to its own result gives that result
    again, for every frame; where the first application raises, so does
    the composition. *)
Theorem outlier_filter_idempotent (df : frame) :
  (df' <- outlier_filter df ;; outlier_filter df') = outlier_filter df.
Proof.
  unfold outlier_filter.
  destruct (join_and query_frags) as [e|]; cbn [bind]; [|reflexivity].
  destruct (query df e) as [out|] eqn:E; cbn [bind]; [|reflexivity].
  exact (query_idempotent df out e E).
Qed.

Lemma Rltb_true (x y : R) : Rltb x y = true <-> (x < y)%R.
Proof.
  unfold Rltb. destruct (Rlt_dec x y); split; intros; try assumption;
    try reflexivity; try discriminate; contradiction.
Qed.

Lemma cmp_scalar_real (gt : bool) (c : column) (k : Z) (v : list (option R)) :
  real_cells c = Ok v ->
  cmp_scalar gt c k
  = Ok (map (option_map (fun x => if gt then Rltb (IZR k) x
                                  else Rltb x (IZR k))) v).
Proof.
  destruct c as [s|b|ik z|fk r|t]; cbn [real_cells cmp_scalar]; intros H;
    inversion H; subst; try reflexivity.
  f_equal. rewrite map_map. apply map_ext. intros [x|]; [|reflexivity].
  cbn [option_map]. destruct gt; now rewrite Rltb_IZR.
Qed.

Lemma and_mask_map {A : Type} (f g : A -> option bool) (v : list A) :
  and_mask (map f v) (map g v) = map (fun x => and_cell (f x) (g x)) v.
Proof. induction v as [|x v IH]; simpl; [reflexivity | now rewrite IH]. Qed.

Lemma eval_fragment (df : frame) (name : string) (lo hi : Z)
  (v : list (option R)) (n : nat) :
  numeric_column df name v n ->
  eval_mask df (Q_and (Q_gt name lo) (Q_lt name hi))
  = Ok (map (range_cell lo hi) v).
Proof.
  intros [c [Hget [Hreal _]]]. cbn [eval_mask]. rewrite Hget. cbn [bind].
  rewrite (cmp_scalar_real true c lo v Hreal),
    (cmp_scalar_real false c hi v Hreal).
  cbn [bind]. now rewrite and_mask_map.
Qed.

Lemma keep_and_cell (a b : option bool) :
  keep (and_cell a b) = keep a && keep b.
Proof. destruct a as [[|]|], b as [[|]|]; reflexivity. Qed.

Lemma keep_range_cell (lo hi : Z) (x : option R) :
  keep (range_cell lo hi x) = true
  <-> match x with
      | Some r => (IZR lo < r < IZR hi)%R
      | None => False
      end.
Proof.
  unfold range_cell. rewrite keep_and_cell, andb_true_iff.
  destruct x as [r|]; cbn [option_map keep].
  - rewrite <- !Rltb_true.
    destruct (Rltb (IZR lo) r), (Rltb r (IZR hi)); intuition congruence.
  - intuition congruence.
Qed.

Lemma nth_and_mask (a b : mask) (i : nat) :
  nth i (and_mask a b) None = and_cell (nth i a None) (nth i b None).
Proof.
  revert a b. induction i as [|i IH]; intros [|x a] [|y b]; cbn [and_mask nth];
    try reflexivity.
  - now destruct x.
  - destruct (nth i a None); reflexivity.
  - apply IH.
Qed.

Lemma length_and_mask (a b : mask) (n : nat) :
  List.length a = n -> List.length b = n -> List.length (and_mask a b) = n.
Proof.
  revert a b. induction n as [|n IH]; intros [|x a] [|y b] Ha Hb;
    simpl in *; try discriminate; try reflexivity.
  f_equal. apply IH; lia.
Qed.

Lemma nth_range_cell (lo hi : Z) (v : list (option R)) (i : nat) :
  nth i (map (range_cell lo hi) v) None = range_cell lo hi (nth i v None).
Proof. exact (map_nth (range_cell lo hi) v None i). Qed.

Lemma outlier_filter_rows (df : frame) (n : nat)
  (fare pc plon dlon plat dlat : list (option R)) :
  numeric_column df "fare_amount" fare n ->
  numeric_column df "passenger_count" pc n ->
  numeric_column df "pickup_longitude" plon n ->
  numeric_column df "dropoff_longitude" dlon n ->
  numeric_column df "pickup_latitude" plat n ->
  numeric_column df "dropoff_latitude" dlat n ->
  exists m : mask,
    List.length m = n
    /\ (forall i, (i < n)%nat ->
          (keep (nth i m None) = true
           <-> in_bounds (nth i fare None) (nth i pc None) (nth i plon None)
                         (nth i dlon None) (nth i plat None) (nth i dlat None)))
    /\ outlier_filter df = Ok (restrict m df).
Proof.
  intros H1 H2 H3 H4 H5 H6.
  exists (and_mask (map (range_cell 0 500) fare)
         (and_mask (map (range_cell 0 6) pc)
         (and_mask (map (range_cell (-75) (-73)) plon)
         (and_mask (map (range_cell (-75) (-73)) dlon)
         (and_mask (map (range_cell 40 42) plat)
                   (map (range_cell 40 42) dlat)))))).
  split; [|split].
  - destruct H1 as [? [_ [_ L1]]], H2 as [? [_ [_ L2]]], H3 as [? [_ [_ L3]]],
      H4 as [? [_ [_ L4]]], H5 as [? [_ [_ L5]]], H6 as [? [_ [_ L6]]].
    repeat apply length_and_mask; now rewrite length_map.
  - intros i _. rewrite !nth_and_mask, !keep_and_cell, !andb_true_iff,
      !nth_range_cell, !keep_range_cell.
    unfold in_bounds.
    destruct (nth i fare None), (nth i pc None), (nth i plon None),
      (nth i dlon None), (nth i plat None), (nth i dlat None); tauto.
  - unfold outlier_filter, query.
    change (join_and query_frags) with
      (Ok (Q_and (Q_and (Q_gt "fare_amount" 0) (Q_lt "fare_amount" 500))
          (Q_and (Q_and (Q_gt "passenger_count" 0) (Q_lt "passenger_count" 6))
          (Q_and (Q_and (Q_gt "pickup_longitude" (-75))
                        (Q_lt "pickup_longitude" (-73)))
          (Q_and (Q_and (Q_gt "dropoff_longitude" (-75))
                        (Q_lt "dropoff_longitude" (-73)))
          (Q_and (Q_and (Q_gt "pickup_latitude" 40) (Q_lt "pickup_latitude" 42))
                 (Q_and (Q_gt "dropoff_latitude" 40)
                        (Q_lt "dropoff_latitude" 42)))))))).
    cbn [bind].
    pose proof (eval_fragment df _ 0 500 _ _ H1) as E1.
    pose proof (eval_fragment df _ 0 6 _ _ H2) as E2.
    pose proof (eval_fragment df _ (-75) (-73) _ _ H3) as E3.
    pose proof (eval_fragment df _ (-75) (-73) _ _ H4) as E4.
    pose proof (eval_fragment df _ 40 42 _ _ H5) as E5.
    pose proof (eval_fragment df _ 40 42 _ _ H6) as E6.
    change (eval_mask df (Q_and ?a ?b))
      with (ma <- eval_mask df a ;; mb <- eval_mask df b ;; Ok (and_mask ma mb)).
    rewrite E1. cbn [bind].
    change (eval_mask df (Q_and ?a ?b))
      with (ma <- eval_mask df a ;; mb <- eval_mask df b ;; Ok (and_mask ma mb)).
    rewrite E2. cbn [bind].
    change (eval_mask df (Q_and ?a ?b))
      with (ma <- eval_mask df a ;; mb <- eval_mask df b ;; Ok (and_mask ma mb)).
    rewrite E3. cbn [bind].
    change (eval_mask df (Q_and ?a ?b))
      with (ma <- eval_mask df a ;; mb <- eval_mask df b ;; Ok (and_mask ma mb)).
    rewrite E4. cbn [bind].
    change (eval_mask df (Q_and ?a ?b))
      with (ma <- eval_mask df a ;; mb <- eval_mask df b ;; Ok (and_mask ma mb)).
    rewrite E5, E6. cbn [bind]. reflexivity.
Qed.

Lemma frame_fares_numeric :
  numeric_column frame_fares "fare_amount" [Some 501%R; Some 499.99%R] 2
  /\ numeric_column frame_fares "passenger_count" [Some (IZR 1); Some (IZR 1)] 2
  /\ numeric_column frame_fares "pickup_longitude"
       [Some (-73.98)%R; Some (-73.98)%R] 2
  /\ numeric_column frame_fares "dropoff_longitude"
       [Some (-73.99)%R; Some (-73.99)%R] 2
  /\ numeric_column frame_fares "pickup_latitude"
       [Some 40.75%R; Some 40.75%R] 2
  /\ numeric_column frame_fares "dropoff_latitude"
       [Some 40.76%R; Some 40.76%R] 2.
Proof.
  repeat split; eexists; (split; [reflexivity | split; reflexivity]).
Qed.

Lemma outlier_filter_fares : outlier_filter frame_fares = Ok frame_fares_kept.
Proof.
  destruct frame_fares_numeric as [H1 [H2 [H3 [H4 [H5 H6]]]]].
  destruct (outlier_filter_rows frame_fares 2 _ _ _ _ _ _ H1 H2 H3 H4 H5 H6)
    as [m [Hlen [Hrows Hout]]].
  rewrite Hout. clear Hout.
  destruct m as [|a [|b [|c m]]]; try discriminate Hlen.
  pose proof (Hrows 0%nat ltac:(lia)) as R0.
  pose proof (Hrows 1%nat ltac:(lia)) as R1.
  cbn [nth in_bounds] in R0, R1.
  assert (Ha : keep a = false).
  { destruct (keep a); [|reflexivity].
    destruct R0 as [R0 _]. specialize (R0 eq_refl). lra. }
  assert (Hb : keep b = true).
  { apply R1. lra. }
  unfold restrict, frame_fares, frame_fares_kept.
  cbn [map fst snd take_rows select]. rewrite Ha, Hb. reflexivity.
Qed.

(** C4: on a frame whose six filtered columns are numeric, the Outlier
    Filter keeps row [i] exactly when fare_amount is in (0, 500),
    passenger_count in (0, 6), both longitudes in (-75, -73) and both
    latitudes in (40, 42), and drops the whole row otherwise; of two trips
    that differ in the fare only, the one at 501 is dropped and the one at
    499.99 is kept. *)
Theorem outlier_filter_retains_in_bounds :
  (forall (df : frame) (n : nat) (fare pc plon dlon plat dlat : list (option R)),
      numeric_column df "fare_amount" fare n ->
      numeric_column df "passenger_count" pc n ->
      numeric_column df "pickup_longitude" plon n ->
      numeric_column df "dropoff_longitude" dlon n ->
      numeric_column df "pickup_latitude" plat n ->
      numeric_column df "dropoff_latitude" dlat n ->
      exists m : mask,
        List.length m = n
        /\ (forall i, (i < n)%nat ->
              (keep (nth i m None) = true
               <-> in_bounds (nth i fare None) (nth i pc None)
                             (nth i plon None) (nth i dlon None)
                             (nth i plat None) (nth i dlat None)))
        /\ outlier_filter df = Ok (restrict m df))
  /\ outlier_filter frame_fares = Ok frame_fares_kept.
Proof.
  split; [exact outlier_filter_rows | exact outlier_filter_fares].
Qed.

Lemma outlier_filter_retains_in_bounds_witness :
  exists m : mask,
    List.length m = 2%nat
    /\ (forall i, (i < 2)%nat ->
          (keep (nth i m None) = true
           <-> in_bounds (nth i [Some 501%R; Some 499.99%R] None)
                         (nth i [Some (IZR 1); Some (IZR 1)] None)
                         (nth i [Some (-73.98)%R; Some (-73.98)%R] None)
                         (nth i [Some (-73.99)%R; Some (-73.99)%R] None)
                         (nth i [Some 40.75%R; Some 40.75%R] None)
                         (nth i [Some 40.76%R; Some 40.76%R] None)))
    /\ outlier_filter frame_fares = Ok (restrict m frame_fares).
Proof.
  apply (proj1 outlier_filter_retains_in_bounds frame_fares 2%nat);
    eexists; (split; [reflexivity | split; reflexivity]).
Defined.

(** ** The Feature Deriver *)

(** The month of every day number is in 1..12. *)
Lemma civil_month_range (z : Z) :
  1 <= snd (fst (Calendar.civil_from_days z)) <= 12.
Proof.
  unfold Calendar.civil_from_days. cbv zeta. cbn [fst snd].
  set (doe := z + 719468 - (z + 719468) / 146097 * 146097).
  assert (Hdoe : 0 <= doe < 146097).
  { unfold doe. pose proof (Z.mod_pos_bound (z + 719468) 146097 ltac:(lia)).
    rewrite Z.mod_eq in H by lia. lia. }
  clearbody doe.
  set (yoe := (doe - doe / 1460 + doe / 36524 - doe / 146096) / 365).
  set (doy := doe - (365 * yoe + yoe / 4 - yoe / 100)).
  assert (Hdoy : 0 <= doy <= 365).
  { unfold doy, yoe. Z.div_mod_to_equations; lia. }
  set (mp := (5 * doy + 2) / 153).
  assert (Hmp : 0 <= mp <= 11) by (unfold mp; Z.div_mod_to_equations; lia).
  destruct (mp <? 10) eqn:E; [apply Z.ltb_lt in E | apply Z.ltb_ge in E]; lia.
Qed.

Lemma ms_month_range (ms : Z) : 1 <= ms_month ms <= 12.
Proof. apply civil_month_range. Qed.

Lemma wrap_I16_small (z : Z) : -32768 <= z < 32768 -> wrap I16 z = z.
Proof.
  intros H. unfold wrap. cbn [ikind_bits ikind_signed].
  change (2 ^ (16 - 1)) with 32768. change (2 ^ 16) with 65536.
  rewrite Z.mod_small; lia.
Qed.

Lemma wrap_I32_small (z : Z) : - 2 ^ 31 <= z < 2 ^ 31 -> wrap I32 z = z.
Proof.
  intros H. unfold wrap. cbn [ikind_bits ikind_signed].
  change (2 ^ (32 - 1)) with (2 ^ 31). change (2 ^ 32) with (2 * 2 ^ 31).
  rewrite Z.mod_small; lia.
Qed.

(** The 32-bit subtraction of two values cast to 32 bits is the exact
    difference cast to 32 bits. *)
Lemma wrap_I32_sub (x y : Z) :
  wrap I32 (wrap I32 x - wrap I32 y) = wrap I32 (x - y).
Proof.
  unfold wrap. cbn [ikind_bits ikind_signed].
  change (2 ^ (32 - 1)) with 2147483648. change (2 ^ 32) with 4294967296.
  f_equal.
  replace ((x + 2147483648) mod 4294967296 - 2147483648
           - ((y + 2147483648) mod 4294967296 - 2147483648) + 2147483648)
    with ((x + 2147483648) mod 4294967296
          - (y + 2147483648) mod 4294967296 + 2147483648) by lia.
  rewrite Z.add_mod by lia. rewrite <- Zminus_mod.
  rewrite <- Z.add_mod by lia. f_equal. lia.
Qed.

Lemma day_of_week_cell_ok (ms : option Z) :
  day_of_week_cell (option_map (fun ms => wrap I16 (ms_day ms)) ms)
                   (option_map (fun ms => wrap I16 (ms_month ms)) ms)
                   (option_map (fun ms => wrap I16 (ms_year ms)) ms)
  = Ok (option_map day_of_week_value ms).
Proof.
  destruct ms as [ms|]; [|reflexivity].
  cbn [option_map day_of_week_cell].
  pose proof (ms_month_range ms) as Hm.
  rewrite day_of_the_week_kernel_spec
    by (rewrite wrap_I16_small; lia).
  unfold day_of_week_value. reflexivity.
Qed.

Lemma day_of_week_column_ok (pu : list (option Z)) :
  traverse (fun r => r)
    (zip3 day_of_week_cell
       (map (option_map (fun ms => wrap I16 (ms_day ms))) pu)
       (map (option_map (fun ms => wrap I16 (ms_month ms))) pu)
       (map (option_map (fun ms => wrap I16 (ms_year ms))) pu))
  = Ok (map (option_map day_of_week_value) pu).
Proof.
  induction pu as [|ms pu IH]; [reflexivity|].
  cbn [map zip3 traverse]. rewrite day_of_week_cell_ok, IH. reflexivity.
Qed.

(** The day of the month of every day number is in 1..31. *)
Lemma civil_day_range (z : Z) : 1 <= snd (Calendar.civil_from_days z) <= 31.
Proof.
  unfold Calendar.civil_from_days. cbv zeta. cbn [fst snd].
  set (doe := z + 719468 - (z + 719468) / 146097 * 146097).
  assert (Hdoe : 0 <= doe < 146097).
  { unfold doe. pose proof (Z.mod_pos_bound (z + 719468) 146097 ltac:(lia)).
    rewrite Z.mod_eq in H by lia. lia. }
  clearbody doe.
  set (yoe := (doe - doe / 1460 + doe / 36524 - doe / 146096) / 365).
  set (doy := doe - (365 * yoe + yoe / 4 - yoe / 100)).
  assert (Hdoy : 0 <= doy <= 365).
  { unfold doy, yoe. Z.div_mod_to_equations; lia. }
  clearbody doy. Z.div_mod_to_equations; lia.
Qed.

Lemma ms_day_range (ms : Z) : 1 <= ms_day ms <= 31.
Proof. apply civil_day_range. Qed.

(** C3: for a record with a year in 2000..2099 the kernel's day_of_week is
    the stated congruence
    [(day + floor(2.6 m) + y + floor(y/4) + floor(c/4) - 2c) mod 7] with
    [m = month + shift + 1], [y = effective year - 2000] and [c = 20], and
    it lies in 0..6: so on explicit day, month and year, so on the day,
    month and year columns derived from a timestamp; for 15 June 2014 it
    is the hand-computed value 1. *)
Theorem day_of_week_congruence :
  (forall day month year : Z,
      2000 <= year <= 2099 -> 1 <= month <= 12 ->
      day_of_the_week_kernel day month year
      = Some (day_of_week_spec day month year)
      /\ 0 <= day_of_week_spec day month year <= 6)
  /\ (forall ms : Z,
        2000 <= ms_year ms <= 2099 ->
        day_of_week_cell (Some (wrap I16 (ms_day ms)))
                         (Some (wrap I16 (ms_month ms)))
                         (Some (wrap I16 (ms_year ms)))
        = Ok (Some (IZR (day_of_week_spec (ms_day ms) (ms_month ms)
                           (ms_year ms)))))
  /\ day_of_week_spec 15 6 2014 = (15 + 18 + 14 + 3 + 5 - 40) mod 7
  /\ day_of_the_week_kernel 15 6 2014 = Some 1.
Proof.
  split; [|split; [|split; vm_compute; reflexivity]].
  - intros day month year _ Hm. split.
    + apply day_of_the_week_kernel_spec. lia.
    + unfold day_of_week_spec.
      match goal with |- _ <= ?a mod 7 <= _ =>
        pose proof (Z.mod_pos_bound a 7 ltac:(lia)); lia end.
  - intros ms Hy.
    pose proof (ms_month_range ms) as Hm.
    pose proof (ms_day_range ms) as Hd.
    rewrite !wrap_I16_small by lia.
    cbn [day_of_week_cell].
    rewrite day_of_the_week_kernel_spec by lia. reflexivity.
Qed.

Lemma day_of_week_congruence_witness :
  (day_of_the_week_kernel 1 1 2000 = Some (day_of_week_spec 1 1 2000)
   /\ 0 <= day_of_week_spec 1 1 2000 <= 6)
  /\ day_of_week_cell (Some (wrap I16 (ms_day 1402826400000)))
                      (Some (wrap I16 (ms_month 1402826400000)))
                      (Some (wrap I16 (ms_year 1402826400000)))
     = Ok (Some (IZR (day_of_week_spec (ms_day 1402826400000)
                        (ms_month 1402826400000) (ms_year 1402826400000)))).
Proof.
  split.
  - apply (proj1 day_of_week_congruence 1 1 2000); lia.
  - apply (proj1 (proj2 day_of_week_congruence) 1402826400000).
    vm_compute. split; discriminate.
Defined.

Lemma getitem_app_l (df ext : frame) (col : string) :
  ~ In col (columns ext) -> getitem (df ++ ext) col = getitem df col.
Proof.
  intros H. unfold getitem.
  now rewrite cols_named_app, (cols_named_notin ext col H), app_nil_r.
Qed.

Lemma getitem_app_r (df ext : frame) (col : string) :
  ~ In col (columns df) -> getitem (df ++ ext) col = getitem ext col.
Proof.
  intros H. unfold getitem.
  now rewrite cols_named_app, (cols_named_notin df col H).
Qed.

Lemma setitem_app_new (df ext : frame) (col : string) (c : column) :
  ~ In col (columns df) -> ~ In col (columns ext) ->
  setitem (df ++ ext) col c = df ++ (ext ++ [(col, c)]).
Proof.
  intros Hd He. rewrite setitem_new, app_assoc; [reflexivity|].
  rewrite columns_app. intros H. apply in_app_or in H. tauto.
Qed.

Lemma cols_named_In (df : frame) (col : string) (c : column) :
  In c (cols_named df col) -> In col (columns df).
Proof.
  unfold cols_named. intros H. apply in_map_iff in H.
  destruct H as [[n x] [_ H]]. apply filter_In in H. destruct H as [Hin He].
  apply String.eqb_eq in He. cbn [fst] in He. subst n.
  apply in_map_iff. now exists (col, x).
Qed.

Lemma getitem_In (df : frame) (col : string) (c : column) :
  getitem df col = Ok c -> In col (columns df).
Proof.
  unfold getitem. destruct (cols_named df col) as [|x [|y l]] eqn:E;
    intros H; inversion H.
  apply (cols_named_In df col x). rewrite E. now left.
Qed.

Lemma drop_app (df ext : frame) (col : string) :
  In col (columns df) -> ~ In col (columns ext) ->
  drop (df ++ ext) col
  = Ok (filter (fun p => negb (String.eqb (fst p) col)) df ++ ext).
Proof.
  intros Hd He. unfold drop.
  replace (Str.mem col (columns (df ++ ext))) with true.
  2:{ symmetry. apply mem_In. rewrite columns_app. apply in_or_app. now left. }
  rewrite filter_app. f_equal. f_equal.
  clear Hd. induction ext as [|[n x] ext IH]; [reflexivity|].
  cbn [filter fst]. cbn [columns map fst] in He.
  destruct (String.eqb n col) eqn:E.
  - apply String.eqb_eq in E. exfalso. apply He. now left.
  - cbn [negb]. f_equal. apply IH. intros H. apply He. now right.
Qed.

Lemma cols_named_filter_other (df : frame) (col col' : string) :
  col <> col' ->
  cols_named (filter (fun p => negb (String.eqb (fst p) col')) df) col
  = cols_named df col.
Proof.
  intros Hne. unfold cols_named. f_equal.
  induction df as [|[n x] df IH]; [reflexivity|].
  cbn [filter fst]. destruct (String.eqb n col') eqn:E1; cbn [negb].
  - destruct (String.eqb n col) eqn:E2; [|exact IH].
    apply String.eqb_eq in E1, E2. congruence.
  - cbn [filter fst]. destruct (String.eqb n col); now rewrite IH.
Qed.

Lemma getitem_filter_other (df : frame) (col col' : string) :
  col <> col' ->
  getitem (filter (fun p => negb (String.eqb (fst p) col')) df) col
  = getitem df col.
Proof. intros H. unfold getitem. now rewrite cols_named_filter_other. Qed.

Lemma columns_filter_In (f : string * column -> bool) (df : frame)
  (name : string) :
  In name (columns (filter f df)) -> In name (columns df).
Proof.
  unfold columns. rewrite !in_map_iff. intros [p [Hp Hin]].
  apply filter_In in Hin. exists p. tauto.
Qed.

Lemma getitem_without_timestamps (df : frame) (col : string) :
  col <> "pickup_datetime" -> col <> "dropoff_datetime" ->
  getitem (without_timestamps df) col = getitem df col.
Proof.
  intros H1 H2. unfold without_timestamps.
  now rewrite !getitem_filter_other.
Qed.

Lemma bucket_numeric (df : frame) (col : string) (c : column)
  (v : list (option R)) :
  getitem df col = Ok c -> real_cells c = Ok v ->
  bucket df col = Ok (bucket_col c).
Proof.
  intros Hg Hr. unfold bucket. rewrite Hg. cbn [bind].
  destruct c as [s|b|k z|k r|t]; try discriminate Hr;
    cbn [col_floordiv col_mul bind bucket_col]; do 2 f_equal;
    rewrite map_map; apply map_ext; intros [x|]; reflexivity.
Qed.

Section Deriver.

Variables (df : frame) (pu dr : list (option Z)).
Variables (c_plat c_plon c_dlat c_dlon : column).
Variables (x_1 y_1 x_2 y_2 : list (option R)).
Hypothesis Hin :
  deriver_input df pu dr c_plat c_plon c_dlat c_dlon x_1 y_1 x_2 y_2.

Ltac fresh_in_ext :=
  cbn [columns map fst app];
  let H := fresh in
  intros H; repeat (destruct H as [H|H]; [discriminate H|]); exact H.

Ltac fresh_in_df :=
  match goal with
  | Hin : deriver_input _ _ _ _ _ _ _ _ _ _ _ |- _ =>
      apply (di_fresh _ _ _ _ _ _ _ _ _ _ _ Hin); cbn; tauto
  end.

Lemma add_features_assign_eq :
  add_features_assign df
  = Ok (df ++ assigned_columns pu dr c_plat c_plon c_dlat c_dlon).
Proof.
  pose proof (di_pickup _ _ _ _ _ _ _ _ _ _ _ Hin) as Hpu.
  pose proof (di_dropoff _ _ _ _ _ _ _ _ _ _ _ Hin) as Hdr.
  pose proof (di_plat _ _ _ _ _ _ _ _ _ _ _ Hin) as H1.
  pose proof (di_plon _ _ _ _ _ _ _ _ _ _ _ Hin) as H2.
  pose proof (di_dlat _ _ _ _ _ _ _ _ _ _ _ Hin) as H3.
  pose proof (di_dlon _ _ _ _ _ _ _ _ _ _ _ Hin) as H4.
  pose proof (di_x_1 _ _ _ _ _ _ _ _ _ _ _ Hin) as R1.
  pose proof (di_y_1 _ _ _ _ _ _ _ _ _ _ _ Hin) as R2.
  pose proof (di_x_2 _ _ _ _ _ _ _ _ _ _ _ Hin) as R3.
  pose proof (di_y_2 _ _ _ _ _ _ _ _ _ _ _ Hin) as R4.
  unfold add_features_assign.
  rewrite Hpu. cbn [bind dt_hour dt_field].
  rewrite (setitem_new df "hour") by fresh_in_df.
  rewrite getitem_app_l by fresh_in_ext. rewrite Hpu.
  cbn [bind dt_year dt_field].
  rewrite setitem_app_new by (fresh_in_df || fresh_in_ext). cbn [app].
  rewrite getitem_app_l by fresh_in_ext. rewrite Hpu.
  cbn [bind dt_month dt_field].
  rewrite setitem_app_new by (fresh_in_df || fresh_in_ext). cbn [app].
  rewrite getitem_app_l by fresh_in_ext. rewrite Hpu.
  cbn [bind dt_day dt_field].
  rewrite setitem_app_new by (fresh_in_df || fresh_in_ext). cbn [app].
  rewrite getitem_app_l by fresh_in_ext. rewrite Hdr.
  cbn [bind astype].
  rewrite getitem_app_l by fresh_in_ext. rewrite Hpu.
  cbn [bind astype col_sub].
  rewrite setitem_app_new by (fresh_in_df || fresh_in_ext). cbn [app].
  rewrite (bucket_numeric _ "pickup_latitude" c_plat x_1)
    by (try (rewrite getitem_app_l by fresh_in_ext); assumption).
  cbn [bind].
  rewrite setitem_app_new by (fresh_in_df || fresh_in_ext). cbn [app].
  rewrite (bucket_numeric _ "pickup_longitude" c_plon y_1)
    by (try (rewrite getitem_app_l by fresh_in_ext); assumption).
  cbn [bind].
  rewrite setitem_app_new by (fresh_in_df || fresh_in_ext). cbn [app].
  rewrite (bucket_numeric _ "dropoff_latitude" c_dlat x_2)
    by (try (rewrite getitem_app_l by fresh_in_ext); assumption).
  cbn [bind].
  rewrite setitem_app_new by (fresh_in_df || fresh_in_ext). cbn [app].
  rewrite (bucket_numeric _ "dropoff_longitude" c_dlon y_2)
    by (try (rewrite getitem_app_l by fresh_in_ext); assumption).
  cbn [bind].
  rewrite setitem_app_new by (fresh_in_df || fresh_in_ext). cbn [app].
  reflexivity.
Qed.

Lemma fresh_without_timestamps (name : string) :
  In name derived_names -> ~ In name (columns (without_timestamps df)).
Proof.
  intros Hn H. apply (di_fresh _ _ _ _ _ _ _ _ _ _ _ Hin name Hn).
  unfold without_timestamps in H.
  now do 2 apply columns_filter_In in H.
Qed.

Ltac fresh_in_wt := apply fresh_without_timestamps; cbn; tauto.

Lemma add_features_derive_eq :
  add_features_derive
    (df ++ assigned_columns pu dr c_plat c_plon c_dlat c_dlon)
  = Ok (without_timestamps df
        ++ derived_columns pu dr c_plat c_plon c_dlat c_dlon
             x_1 y_1 x_2 y_2).
Proof.
  pose proof (di_pickup _ _ _ _ _ _ _ _ _ _ _ Hin) as Hpu.
  pose proof (di_dropoff _ _ _ _ _ _ _ _ _ _ _ Hin) as Hdr.
  pose proof (di_plat _ _ _ _ _ _ _ _ _ _ _ Hin) as H1.
  pose proof (di_plon _ _ _ _ _ _ _ _ _ _ _ Hin) as H2.
  pose proof (di_dlat _ _ _ _ _ _ _ _ _ _ _ Hin) as H3.
  pose proof (di_dlon _ _ _ _ _ _ _ _ _ _ _ Hin) as H4.
  pose proof (di_x_1 _ _ _ _ _ _ _ _ _ _ _ Hin) as R1.
  pose proof (di_y_1 _ _ _ _ _ _ _ _ _ _ _ Hin) as R2.
  pose proof (di_x_2 _ _ _ _ _ _ _ _ _ _ _ Hin) as R3.
  pose proof (di_y_2 _ _ _ _ _ _ _ _ _ _ _ Hin) as R4.
  unfold add_features_derive, assigned_columns.
  rewrite drop_app by (solve [eapply getitem_In; eassumption] || fresh_in_ext).
  cbn [bind].
  rewrite drop_app.
  2:{ eapply getitem_In. rewrite getitem_filter_other by discriminate.
      eassumption. }
  2:{ fresh_in_ext. }
  cbn [bind]. fold (without_timestamps df).
  unfold apply_haversine.
  rewrite getitem_app_l by fresh_in_ext.
  rewrite getitem_without_timestamps by discriminate.
  rewrite H1. cbn [bind]. rewrite R1. cbn [bind].
  rewrite getitem_app_l by fresh_in_ext.
  rewrite getitem_without_timestamps by discriminate.
  rewrite H2. cbn [bind]. rewrite R2. cbn [bind].
  rewrite getitem_app_l by fresh_in_ext.
  rewrite getitem_without_timestamps by discriminate.
  rewrite H3. cbn [bind]. rewrite R3. cbn [bind].
  rewrite getitem_app_l by fresh_in_ext.
  rewrite getitem_without_timestamps by discriminate.
  rewrite H4. cbn [bind]. rewrite R4. cbn [bind].
  rewrite setitem_app_new by (fresh_in_wt || fresh_in_ext). cbn [app].
  unfold apply_day_of_week.
  rewrite getitem_app_r by fresh_in_wt.
  match goal with |- context [getitem ?ext "day"] =>
    change (getitem ext "day") with (Ok (dt_col ms_day pu)) end.
  cbn [bind dt_col int_cells].
  rewrite getitem_app_r by fresh_in_wt.
  match goal with |- context [getitem ?ext "month"] =>
    change (getitem ext "month") with (Ok (dt_col ms_month pu)) end.
  cbn [bind dt_col int_cells].
  rewrite getitem_app_r by fresh_in_wt.
  match goal with |- context [getitem ?ext "year"] =>
    change (getitem ext "year") with (Ok (dt_col ms_year pu)) end.
  cbn [bind dt_col int_cells].
  rewrite day_of_week_column_ok. cbn [bind].
  rewrite setitem_app_new by (fresh_in_wt || fresh_in_ext). cbn [app].
  rewrite getitem_app_r by fresh_in_wt.
  match goal with |- context [getitem ?ext "day_of_week"] =>
    change (getitem ext "day_of_week")
      with (Ok (FloatCol F32 (map (option_map day_of_week_value) pu))) end.
  cbn [bind cmp_scalar].
  rewrite setitem_app_new by (fresh_in_wt || fresh_in_ext). cbn [app].
  reflexivity.
Qed.

(** On a frame with the expected columns, [add_features] returns the
    frame without its timestamp columns, followed by the twelve derived
    columns. *)
Lemma add_features_eq :
  add_features df
  = Ok (without_timestamps df
        ++ derived_columns pu dr c_plat c_plon c_dlat c_dlon
             x_1 y_1 x_2 y_2).
Proof.
  unfold add_features. rewrite add_features_assign_eq. cbn [bind].
  apply add_features_derive_eq.
Qed.

End Deriver.

Lemma columns_without_timestamps (df : frame) :
  columns (without_timestamps df)
  = filter (fun n => negb (is_timestamp_col n)) (columns df).
Proof.
  unfold without_timestamps, is_timestamp_col, columns.
  induction df as [|[n c] df IH]; [reflexivity|].
  cbn [map filter fst Str.mem].
  destruct (String.eqb n "pickup_datetime") eqn:E1; cbn [negb orb].
  - exact IH.
  - cbn [filter fst]. rewrite orb_false_r.
    destruct (String.eqb n "dropoff_datetime"); cbn [negb map fst];
      now rewrite IH.
Qed.


Lemma nth_zip_with_lift2 {A B C : Type} (f : A -> B -> C)
  (a : list (option A)) (b : list (option B)) (i : nat) :
  nth i (zip_with (lift2 f) a b) None
  = lift2 f (nth i a None) (nth i b None).
Proof.
  revert a b. induction i as [|i IH]; intros [|x a] [|y b];
    cbn [zip_with nth]; try reflexivity.
  - now destruct x.
  - destruct (nth i a None); reflexivity.
  - apply IH.
Qed.

Lemma nth_option_map {A B : Type} (f : A -> B) (v : list (option A)) (i : nat) :
  nth i (map (option_map f) v) None = option_map f (nth i v None).
Proof. exact (map_nth (option_map f) v None i). Qed.

(** A concrete frame is checked to be an input of the Feature Deriver by
    evaluating its lookups and comparing its labels with the derived
    names. *)
Ltac concrete_deriver_input :=
  constructor; try reflexivity;
  let name := fresh "name" in
  let Hn := fresh "Hn" in
  let Hc := fresh "Hc" in
  intros name Hn Hc; cbn in Hn, Hc;
  repeat (destruct Hn as [<-|Hn];
          [repeat (destruct Hc as [Hc|Hc]; [discriminate Hc|]); exact Hc|]);
  exact Hn.

Lemma frame_trip_is_deriver_input :
  deriver_input frame_trip [Some 1402826400000] [Some 1402828200000]
    (FloatCol F32 [Some 40.75%R]) (FloatCol F32 [Some (-73.98)%R])
    (FloatCol F32 [Some 40.76%R]) (FloatCol F32 [Some (-73.99)%R])
    [Some 40.75%R] [Some (-73.98)%R] [Some 40.76%R] [Some (-73.99)%R].
Proof. concrete_deriver_input. Qed.

Lemma frame_long_trip_is_deriver_input :
  deriver_input frame_long_trip [Some 1402826400000] [Some 1405826400000]
    (FloatCol F32 [Some 40.75%R]) (FloatCol F32 [Some (-73.98)%R])
    (FloatCol F32 [Some 40.76%R]) (FloatCol F32 [Some (-73.99)%R])
    [Some 40.75%R] [Some (-73.98)%R] [Some 40.76%R] [Some (-73.99)%R].
Proof. concrete_deriver_input. Qed.



(** C6 (counterexample): for a dropoff 3 000 000 000 ms after the pickup
    the diff column holds -1 294 967 296, which is neither the difference
    of the two millisecond counts nor the difference of their 32-bit
    casts. *)
Lemma diff_wraps_on_long_trip :
  exists out,
    add_features frame_long_trip = Ok out
    /\ getitem out "diff" = Ok (IntCol I32 [Some (-1294967296)])
    /\ -1294967296 <> 1405826400000 - 1402826400000
    /\ -1294967296 <> wrap I32 1405826400000 - wrap I32 1402826400000.
Proof.
  eexists. split.
  - exact (add_features_eq _ _ _ _ _ _ _ _ _ _ _
             frame_long_trip_is_deriver_input).
  - split; [|split; vm_compute; discriminate].
    rewrite getitem_app_r
      by (apply (fresh_without_timestamps _ _ _ _ _ _ _ _ _ _ _
                   frame_long_trip_is_deriver_input); cbn; tauto).
    reflexivity.
Qed.

(** C6 (amended): the diff column is an int32 column; in a row where both
    timestamps are present it holds the difference dropoff - pickup of the
    two millisecond counts reduced to 32 bits (wrap-around modulo 2^32),
    which is the exact difference in milliseconds whenever that lies in
    [-2^31, 2^31). *)
Theorem add_features_diff (df : frame) (pu dr : list (option Z))
  (c_plat c_plon c_dlat c_dlon : column) (x_1 y_1 x_2 y_2 : list (option R)) :
  deriver_input df pu dr c_plat c_plon c_dlat c_dlon x_1 y_1 x_2 y_2 ->
  exists out v,
    add_features df = Ok out
    /\ getitem out "diff" = Ok (IntCol I32 v)
    /\ forall (i : nat) (d p : Z),
         nth i dr None = Some d -> nth i pu None = Some p ->
         nth i v None = Some (wrap I32 (d - p))
         /\ (- 2 ^ 31 <= d - p < 2 ^ 31 -> nth i v None = Some (d - p)).
Proof.
  intros Hin. eexists. eexists.
  split; [exact (add_features_eq _ _ _ _ _ _ _ _ _ _ _ Hin)|].
  split.
  - rewrite getitem_app_r
      by (apply (fresh_without_timestamps _ _ _ _ _ _ _ _ _ _ _ Hin);
          cbn; tauto).
    reflexivity.
  - intros i d p Hd Hp.
    assert (Hi : nth i (zip_with (lift2 (fun x y => wrap I32 (x - y)))
                          (map (option_map (wrap I32)) dr)
                          (map (option_map (wrap I32)) pu)) None
                 = Some (wrap I32 (d - p))).
    { rewrite nth_zip_with_lift2, !nth_option_map, Hd, Hp.
      cbn [option_map lift2]. now rewrite wrap_I32_sub. }
    split; [exact Hi|].
    intros Hsmall. rewrite Hi. now rewrite wrap_I32_small.
Qed.

Lemma add_features_diff_witness :
  exists out v,
    add_features frame_trip = Ok out
    /\ getitem out "diff" = Ok (IntCol I32 v)
    /\ forall (i : nat) (d p : Z),
         nth i [Some 1402828200000] None = Some d ->
         nth i [Some 1402826400000] None = Some p ->
         nth i v None = Some (wrap I32 (d - p))
         /\ (- 2 ^ 31 <= d - p < 2 ^ 31 -> nth i v None = Some (d - p)).
Proof.
  apply (add_features_diff frame_trip
           [Some 1402826400000] [Some 1402828200000]
           (FloatCol F32 [Some 40.75%R]) (FloatCol F32 [Some (-73.98)%R])
           (FloatCol F32 [Some 40.76%R]) (FloatCol F32 [Some (-73.99)%R])
           [Some 40.75%R] [Some (-73.98)%R] [Some 40.76%R] [Some (-73.99)%R]).
  concrete_deriver_input.
Defined.

(** ** Running the workflow again *)

Lemma lookup_app_l (s t : store) (r : ref) (df : frame) :
  lookup s r = Ok df -> lookup (s ++ t) r = Ok df.
Proof.
  unfold lookup. destruct (nth_error s r) as [x|] eqn:E; [|discriminate].
  intros H. rewrite nth_error_app1 by (apply nth_error_Some; congruence).
  now rewrite E.
Qed.

Lemma lookup_app_r (s t : store) (k : nat) :
  lookup (s ++ t) (List.length s + k)%nat = lookup t k.
Proof.
  unfold lookup. rewrite nth_error_app2 by lia.
  now replace (List.length s + k - List.length s)%nat with k by lia.
Qed.

Lemma update_app_r (s t : store) (k : nat) (df : frame) :
  update (s ++ t) (List.length s + k)%nat df = s ++ update t k df.
Proof. induction s as [|x s IH]; [reflexivity|]. simpl. now rewrite IH. Qed.

(** A run on the object [r] computes the pure [pipeline] of the frame
    stored there, adds three objects to the store (the cleaned frame, the
    filtered frame with the assigned columns, and the result) and changes
    no object that was there before. *)
Lemma run_pipeline_eq (s : store) (r : ref) (raw : frame) :
  lookup s r = Ok raw ->
  run_pipeline r s
  = (c <- clean raw remap must_haves ;;
     q <- outlier_filter c ;;
     q1 <- add_features_assign q ;;
     out <- add_features_derive q1 ;;
     Ok (s ++ [c; q1; out], (List.length s + 2)%nat)).
Proof.
  intros Hraw. unfold run_pipeline, clean_obj. rewrite Hraw. cbn [bind].
  destruct (clean raw remap must_haves) as [c|e]; cbn [bind]; [|reflexivity].
  unfold alloc. cbn [fst snd]. unfold outlier_filter_obj.
  replace (List.length s) with (List.length s + 0)%nat at 1 by lia.
  rewrite lookup_app_r. cbn [lookup nth_error bind].
  destruct (outlier_filter c) as [q|e]; cbn [bind]; [|reflexivity].
  unfold alloc. cbn [fst snd]. unfold add_features_obj.
  rewrite length_app. cbn [List.length].
  rewrite <- app_assoc. cbn [app].
  rewrite lookup_app_r. cbn [lookup nth_error bind].
  destruct (add_features_assign q) as [q1|e]; cbn [bind]; [|reflexivity].
  rewrite update_app_r. cbn [update].
  destruct (add_features_derive q1) as [out|e]; cbn [bind]; [|reflexivity].
  unfold alloc. rewrite <- app_assoc. cbn [app].
  rewrite length_app. cbn [List.length].
  reflexivity.
Qed.

Lemma run_pipeline_result (s s1 : store) (r o1 : ref) (raw : frame) :
  lookup s r = Ok raw ->
  run_pipeline r s = Ok (s1, o1) ->
  lookup s1 r = Ok raw /\ (out <- lookup s1 o1 ;; Ok out) = pipeline raw.
Proof.
  intros Hraw Hrun. rewrite (run_pipeline_eq s r raw Hraw) in Hrun.
  unfold pipeline, add_features.
  destruct (clean raw remap must_haves) as [c|e]; cbn [bind] in *;
    [|discriminate].
  destruct (outlier_filter c) as [q|e]; cbn [bind] in *; [|discriminate].
  destruct (add_features_assign q) as [q1|e]; cbn [bind] in *; [|discriminate].
  destruct (add_features_derive q1) as [out|e]; cbn [bind] in *;
    [|discriminate].
  inversion Hrun; subst s1 o1. split.
  - now apply lookup_app_l.
  - rewrite lookup_app_r. reflexivity.
Qed.

(** C9: the workflow is a function of the input partition, and running it
    a second time on the same partition object, in the store the first run
    left behind, returns a frame identical to the first result: the first
    run changes no object it was given, only frames it made itself. *)
Theorem pipeline_rerun_same_output (s s1 : store) (r o1 : ref) (raw : frame) :
  lookup s r = Ok raw ->
  run_pipeline r s = Ok (s1, o1) ->
  exists s2 o2 out,
    run_pipeline r s1 = Ok (s2, o2)
    /\ lookup s1 o1 = Ok out
    /\ lookup s2 o2 = Ok out
    /\ lookup s2 o1 = Ok out
    /\ pipeline raw = Ok out.
Proof.
  intros Hraw Hrun.
  destruct (run_pipeline_result s s1 r o1 raw Hraw Hrun) as [Hraw1 Hout1].
  pose proof (run_pipeline_eq s1 r raw Hraw1) as Hrun2.
  rewrite (run_pipeline_eq s r raw Hraw) in Hrun.
  destruct (clean raw remap must_haves) as [c|e]; cbn [bind] in *;
    [|discriminate].
  destruct (outlier_filter c) as [q|e]; cbn [bind] in *; [|discriminate].
  destruct (add_features_assign q) as [q1|e]; cbn [bind] in *; [|discriminate].
  destruct (add_features_derive q1) as [out|e] eqn:Ed; cbn [bind] in *;
    [|discriminate].
  inversion Hrun; subst s1 o1. clear Hrun.
  exists ((s ++ [c; q1; out]) ++ [c; q1; out]),
    (List.length (s ++ [c; q1; out]) + 2)%nat, out.
  split; [exact Hrun2|].
  assert (H1 : lookup (s ++ [c; q1; out]) (List.length s + 2)%nat = Ok out)
    by (rewrite lookup_app_r; reflexivity).
  split; [exact H1|]. split; [|split].
  - rewrite lookup_app_r. reflexivity.
  - now apply lookup_app_l.
  - rewrite <- Hout1, H1. reflexivity.
Qed.

(** ** One partition through the whole workflow *)

Lemma clean_frame_raw : clean frame_raw remap must_haves = Ok frame_raw_cleaned.
Proof.
  rewrite clean_is_normalize
    by (vm_compute; repeat constructor; simpl; intuition discriminate).
  cbv -[IZR Rmult Rinv Rdiv pow10]. reflexivity.
Qed.

Lemma outlier_filter_frame_raw :
  outlier_filter frame_raw_cleaned = Ok frame_raw_filtered.
Proof.
  assert (Hn : forall name c v,
             getitem frame_raw_cleaned name = Ok c -> real_cells c = Ok v ->
             List.length v = 2%nat -> numeric_column frame_raw_cleaned name v 2).
  { intros name c v H1 H2 H3. exists c. auto. }
  destruct (outlier_filter_rows frame_raw_cleaned 2
              [Some 12.5%R; Some 8%R]
              [Some (IZR 1); Some (IZR 7)]
              [Some (-73.98)%R; Some (-73.97)%R]
              [Some (-73.99)%R; Some (-73.96)%R]
              [Some 40.75%R; Some 40.74%R]
              [Some 40.76%R; Some 40.77%R])
    as [m [Hlen [Hrows Hout]]];
    try (eapply Hn; reflexivity).
  rewrite Hout. clear Hout Hn.
  destruct m as [|a [|b [|c m]]]; try discriminate Hlen.
  pose proof (Hrows 0%nat ltac:(lia)) as R0.
  pose proof (Hrows 1%nat ltac:(lia)) as R1.
  cbn [nth in_bounds] in R0, R1.
  assert (Ha : keep a = true) by (apply R0; lra).
  assert (Hb : keep b = false).
  { destruct (keep b); [|reflexivity].
    destruct R1 as [R1 _]. specialize (R1 eq_refl). lra. }
  unfold restrict, frame_raw_cleaned, frame_raw_filtered.
  cbn [map fst snd take_rows select]. rewrite Ha, Hb. reflexivity.
Qed.

Lemma add_features_frame_raw :
  add_features frame_raw_filtered = Ok frame_raw_result.
Proof.
  rewrite (add_features_eq frame_raw_filtered
             [Some 1402826400000] [Some 1402828200000]
             (FloatCol F32 [Some 40.75%R]) (FloatCol F32 [Some (-73.98)%R])
             (FloatCol F32 [Some 40.76%R]) (FloatCol F32 [Some (-73.99)%R])
             [Some 40.75%R] [Some (-73.98)%R] [Some 40.76%R] [Some (-73.99)%R])
    by concrete_deriver_input.
  unfold derived_columns, assigned_columns.
  cbn [map option_map].
  change (day_of_week_value 1402826400000) with (IZR 1).
  rewrite Rltb_IZR.
  reflexivity.
Qed.

(** The raw partition comes out as one trip, a Sunday, flagged as
    weekend. *)
Lemma pipeline_frame_raw : pipeline frame_raw = Ok frame_raw_result.
Proof.
  unfold pipeline. rewrite clean_frame_raw. cbn [bind].
  rewrite outlier_filter_frame_raw. cbn [bind].
  apply add_features_frame_raw.
Qed.

Lemma run_pipeline_frame_raw :
  exists s1, run_pipeline 0%nat [frame_raw] = Ok (s1, 3%nat).
Proof.
  rewrite (run_pipeline_eq [frame_raw] 0%nat frame_raw eq_refl).
  pose proof pipeline_frame_raw as H. unfold pipeline, add_features in H.
  destruct (clean frame_raw remap must_haves) as [c|e]; cbn [bind] in *;
    [|discriminate].
  destruct (outlier_filter c) as [q|e]; cbn [bind] in *; [|discriminate].
  destruct (add_features_assign q) as [q1|e]; cbn [bind] in *; [|discriminate].
  destruct (add_features_derive q1) as [out|e]; cbn [bind] in *;
    [|discriminate].
  eexists. reflexivity.
Qed.

Lemma pipeline_rerun_same_output_witness :
  exists s1 s2 o2 out,
    run_pipeline 0%nat [frame_raw] = Ok (s1, 3%nat)
    /\ run_pipeline 0%nat s1 = Ok (s2, o2)
    /\ lookup s1 3%nat = Ok out
    /\ lookup s2 o2 = Ok out
    /\ lookup s2 3%nat = Ok out
    /\ pipeline frame_raw = Ok out.
Proof.
  destruct run_pipeline_frame_raw as [s1 Hrun].
  destruct (pipeline_rerun_same_output [frame_raw] s1 0%nat 3%nat frame_raw
              eq_refl Hrun) as [s2 [o2 [out H]]].
  exists s1, s2, o2, out. split; [exact Hrun | exact H].
Defined.

(* ===================================================================== *)
(** * Further properties of the kernels *)
(* ===================================================================== *)

Local Open Scope R_scope.

Lemma asin_nonneg (x : R) : 0 <= x -> 0 <= asin x.
Proof.
  intros Hx. pose proof PI_RGT_0 as Hpi. unfold asin.
  destruct (Rle_dec x (-1)) as [H|H]; [lra|].
  destruct (Rle_dec 1 x) as [H1|H1]; [lra|].
  assert (Hs : 0 < sqrt (1 - x²)).
  { apply sqrt_lt_R0. unfold Rsqr. nra. }
  destruct (Req_dec x 0) as [->|Hne].
  - replace (0 / sqrt (1 - 0²)) with 0 by (field; lra).
    rewrite atan_0. lra.
  - assert (Hq : 0 < x / sqrt (1 - x²)).
    { apply Rdiv_lt_0_compat; lra. }
    pose proof (atan_increasing 0 _ Hq) as Hat. rewrite atan_0 in Hat. lra.
Qed.

(** X1: the distance the kernel computes does not depend on the direction
    of the trip, is never negative and never exceeds half the
    circumference of the sphere of radius 6371. *)
Theorem haversine_symmetric_and_bounded (lat1 lon1 lat2 lon2 : R) :
  haversine_distance_kernel lat1 lon1 lat2 lon2
  = haversine_distance_kernel lat2 lon2 lat1 lon1
  /\ 0 <= haversine_distance_kernel lat1 lon1 lat2 lon2 <= 6371 * PI.
Proof.
  split.
  - unfold haversine_distance_kernel.
    replace ((PI / 180 * lat1 - PI / 180 * lat2) / 2)
      with (- ((PI / 180 * lat2 - PI / 180 * lat1) / 2)) by field.
    replace ((PI / 180 * lon1 - PI / 180 * lon2) / 2)
      with (- ((PI / 180 * lon2 - PI / 180 * lon1) / 2)) by field.
    rewrite !sin_neg.
    match goal with
    | |- 2 * asin (sqrt ?A) * 6371 = 2 * asin (sqrt ?B) * 6371 =>
        replace B with A by ring
    end.
    reflexivity.
  - unfold haversine_distance_kernel.
    match goal with
    | |- 0 <= 2 * asin (sqrt ?A) * 6371 <= _ =>
        pose proof (asin_nonneg (sqrt A) (sqrt_pos A)) as Hlo;
        pose proof (asin_bound (sqrt A)) as [_ Hhi]
    end.
    split; lra.
Qed.

Local Close Scope R_scope.

Lemma day_of_week_spec_jan_feb (y d : Z) :
  2000 <= y <= 2099 -> 1 <= d <= 31 ->
  day_of_week_spec d 1 y = (Calendar.weekday_sat0 y 1 d + 6) mod 7
  /\ day_of_week_spec d 2 y = (Calendar.weekday_sat0 y 2 d + 2) mod 7.
Proof.
  intros Hy Hd.
  pose (P := fun y => forallb (fun d =>
               (day_of_week_spec d 1 y
                =? (Calendar.weekday_sat0 y 1 d + 6) mod 7)
               && (day_of_week_spec d 2 y
                   =? (Calendar.weekday_sat0 y 2 d + 2) mod 7))
               (Zrange 1 31)).
  assert (HP : P y = true).
  { apply (forallb_Zrange P 2000 100); [vm_compute; reflexivity | lia]. }
  unfold P in HP. rewrite forallb_forall in HP.
  specialize (HP d (Zrange_In 1 31 d ltac:(lia))).
  apply andb_true_iff in HP. destruct HP as [H1 H2].
  apply Z.eqb_eq in H1, H2. now split.
Qed.

(** X2: for every date of January 2000..2099 the kernel's day_of_week is
    the weekday (Saturday = 0) minus one, for every date of February it is
    the weekday plus two, modulo 7; the weekend flag day_of_week < 2
    therefore marks the Sundays and Mondays of January and the Thursdays
    and Fridays of February. *)
Theorem day_of_week_january_february (y d : Z) :
  2000 <= y <= 2099 -> 1 <= d <= 31 ->
  (exists w,
      day_of_the_week_kernel d 1 y = Some w
      /\ w = (Calendar.weekday_sat0 y 1 d + 6) mod 7
      /\ (Rltb (IZR w) (IZR 2) = true
          <-> Calendar.weekday_sat0 y 1 d = 1
              \/ Calendar.weekday_sat0 y 1 d = 2))
  /\ (exists w,
        day_of_the_week_kernel d 2 y = Some w
        /\ w = (Calendar.weekday_sat0 y 2 d + 2) mod 7
        /\ (Rltb (IZR w) (IZR 2) = true
            <-> Calendar.weekday_sat0 y 2 d = 5
                \/ Calendar.weekday_sat0 y 2 d = 6)).
Proof.
  intros Hy Hd.
  destruct (day_of_week_spec_jan_feb y d Hy Hd) as [H1 H2].
  assert (Hb : forall m, 0 <= Calendar.weekday_sat0 y m d <= 6).
  { intros m. unfold Calendar.weekday_sat0, Calendar.weekday_sat0_of_days.
    pose proof (Z.mod_pos_bound (Calendar.days_from_civil y m d + 5) 7
                  ltac:(lia)). lia. }
  split.
  - exists (day_of_week_spec d 1 y).
    rewrite day_of_the_week_kernel_spec by lia.
    split; [reflexivity|]. split; [exact H1|].
    rewrite Rltb_IZR, Z.ltb_lt, H1. specialize (Hb 1).
    set (w := Calendar.weekday_sat0 y 1 d) in *.
    assert (Hc : w = 0 \/ w = 1 \/ w = 2 \/ w = 3 \/ w = 4 \/ w = 5 \/ w = 6)
      by lia.
    destruct Hc as [->|[->|[->|[->|[->|[->| ->]]]]]]; vm_compute;
      intuition congruence.
  - exists (day_of_week_spec d 2 y).
    rewrite day_of_the_week_kernel_spec by lia.
    split; [reflexivity|]. split; [exact H2|].
    rewrite Rltb_IZR, Z.ltb_lt, H2. specialize (Hb 2).
    set (w := Calendar.weekday_sat0 y 2 d) in *.
    assert (Hc : w = 0 \/ w = 1 \/ w = 2 \/ w = 3 \/ w = 4 \/ w = 5 \/ w = 6)
      by lia.
    destruct Hc as [->|[->|[->|[->|[->|[->| ->]]]]]]; vm_compute;
      intuition congruence.
Qed.

Lemma day_of_week_january_february_witness :
  (exists w,
      day_of_the_week_kernel 4 1 2014 = Some w
      /\ w = (Calendar.weekday_sat0 2014 1 4 + 6) mod 7
      /\ (Rltb (IZR w) (IZR 2) = true
          <-> Calendar.weekday_sat0 2014 1 4 = 1
              \/ Calendar.weekday_sat0 2014 1 4 = 2))
  /\ (exists w,
        day_of_the_week_kernel 4 2 2014 = Some w
        /\ w = (Calendar.weekday_sat0 2014 2 4 + 2) mod 7
        /\ (Rltb (IZR w) (IZR 2) = true
            <-> Calendar.weekday_sat0 2014 2 4 = 5
                \/ Calendar.weekday_sat0 2014 2 4 = 6)).
Proof.
  apply (day_of_week_january_february 2014 4); lia.
Defined.

(* ===================================================================== *)
(** * Further properties of the Column Normalizer *)
(* ===================================================================== *)

Lemma traverse_length {A B : Type} (f : A -> result B) (l : list A)
  (l' : list B) :
  traverse f l = Ok l' -> List.length l' = List.length l.
Proof.
  intros H. apply traverse_Forall2 in H. symmetry.
  exact (Forall2_length H).
Qed.

Lemma fill_length {A : Type} (d : A) (v : list (option A)) :
  List.length (fill d v) = List.length v.
Proof. apply length_map. Qed.

Lemma fill_no_null {A : Type} (d : A) (v : list (option A)) :
  existsb is_null (fill d v) = false.
Proof.
  induction v as [|[x|] v IH]; simpl; [reflexivity | exact IH | exact IH].
Qed.

Lemma normalize_column_rows (col : string) (c c' : column) :
  normalize_column col c = Ok c' -> col_rows c' = col_rows c.
Proof.
  destruct c as [v|v|k v|k v|v]; cbn [normalize_column col_rows].
  - destruct (is_timestamp_col col); cbn [astype]; [|discriminate].
    destruct (traverse _ v) as [v'|] eqn:E; cbn [bind]; intros H;
      inversion H; subst. cbn [col_rows]. exact (traverse_length _ _ _ E).
  - intros H; inversion H. cbn [col_rows]. apply fill_length.
  - intros H; inversion H. cbn [col_rows].
    now rewrite fill_length, length_map.
  - intros H; inversion H. cbn [col_rows]. apply fill_length.
  - intros H; inversion H. cbn [col_rows]. apply fill_length.
Qed.

Lemma normalize_column_no_null (col : string) (c c' : column) :
  normalize_column col c = Ok c' ->
  is_timestamp_col col = false \/ dtype_of c <> D_object ->
  has_null c' = false.
Proof.
  destruct c as [v|v|k v|k v|v]; cbn [normalize_column dtype_of];
    intros H Hts.
  - destruct Hts as [Hts|Hts]; [|congruence]. rewrite Hts in H.
    discriminate.
  - inversion H. apply fill_no_null.
  - inversion H. apply fill_no_null.
  - inversion H. apply fill_no_null.
  - inversion H. apply fill_no_null.
Qed.

(** Every column of a normalized frame is the normalization of the input
    column of the same label, which is a schema label. *)
Lemma normalize_frame_In (mh : dict dtype) (df out : frame) (col : string)
  (c' : column) :
  normalize_frame mh df = Ok out -> In (col, c') out ->
  exists c, In (col, c) df /\ dict_mem mh col = true
            /\ normalize_column col c = Ok c'.
Proof.
  revert out. induction df as [|[n c] df IH]; intros out H Hin;
    cbn [normalize_frame] in H.
  - inversion H; subst. destruct Hin.
  - destruct (dict_mem mh n) eqn:Hm.
    + destruct (normalize_column n c) as [c1|] eqn:Hc; cbn [bind] in H;
        [|discriminate].
      destruct (normalize_frame mh df) as [r|]; cbn [bind] in H;
        [|discriminate].
      inversion H; subst out. destruct Hin as [Heq|Hin].
      * inversion Heq; subst. exists c. split; [now left|]. now split.
      * destruct (IH r eq_refl Hin) as [c0 [H1 H2]].
        exists c0. split; [now right | exact H2].
    + destruct (IH out H Hin) as [c0 [H1 H2]].
      exists c0. split; [now right | exact H2].
Qed.

Lemma clean_column_origin (df out : frame) (col : string) (c' : column) :
  NoDup (map (canonical_name remap) (columns df)) ->
  clean df remap must_haves = Ok out -> In (col, c') out ->
  exists name c, In (name, c) df /\ col = canonical_name remap name
                 /\ dict_mem must_haves col = true
                 /\ normalize_column col c = Ok c'.
Proof.
  intros Hnd Hout Hin. rewrite clean_is_normalize in Hout by exact Hnd.
  destruct (normalize_frame_In _ _ _ _ _ Hout Hin) as [c [Hc [Hm Hn]]].
  unfold canonical_frame in Hc. apply in_map_iff in Hc.
  destruct Hc as [[name c0] [Heq Hc]]. inversion Heq; subst.
  exists name, c. repeat split; assumption.
Qed.

(** X3: [clean] rejects no row: when every column of the input has [n]
    rows, every column of its result has [n] rows. *)
Theorem clean_keeps_rows (df out : frame) (n : nat) :
  NoDup (map (canonical_name remap) (columns df)) ->
  clean df remap must_haves = Ok out ->
  rectangular n df -> rectangular n out.
Proof.
  intros Hnd Hout Hrect. unfold rectangular in *.
  rewrite Forall_forall in *. intros [col c'] Hin.
  destruct (clean_column_origin df out col c' Hnd Hout Hin)
    as [name [c [Hc [_ [_ Hn]]]]].
  cbn [snd]. rewrite (normalize_column_rows col c c' Hn).
  exact (Hrect (name, c) Hc).
Qed.

(** X4: in the result of [clean] no column other than the two timestamp
    columns has a missing value: the nulls of every numeric column have
    become -1. *)
Theorem clean_leaves_no_null (df out : frame) (col : string) (c' : column) :
  NoDup (map (canonical_name remap) (columns df)) ->
  clean df remap must_haves = Ok out ->
  In (col, c') out -> is_timestamp_col col = false ->
  has_null c' = false.
Proof.
  intros Hnd Hout Hin Hts.
  destruct (clean_column_origin df out col c' Hnd Hout Hin)
    as [name [c [_ [_ [_ Hn]]]]].
  apply (normalize_column_no_null col c c' Hn). now left.
Qed.

(** Concrete frames: distinct canonical names and the result of [clean]
    are found by evaluation. *)
Ltac concrete_nodup :=
  vm_compute; repeat constructor; simpl; intuition discriminate.

Ltac concrete_clean :=
  rewrite clean_is_normalize by concrete_nodup;
  cbv -[IZR Rmult Rinv Rdiv pow10]; reflexivity.

Lemma clean_keeps_rows_witness : rectangular 2 frame_missing_pickup_cleaned.
Proof.
  apply (clean_keeps_rows frame_missing_pickup frame_missing_pickup_cleaned 2).
  - concrete_nodup.
  - concrete_clean.
  - repeat constructor.
Defined.

Lemma clean_leaves_no_null_witness :
  has_null (IntCol I32 [Some 1; Some (-1)]) = false.
Proof.
  apply (clean_leaves_no_null frame_missing_pickup
           frame_missing_pickup_cleaned "passenger_count").
  - concrete_nodup.
  - concrete_clean.
  - simpl. right. left. reflexivity.
  - reflexivity.
Defined.

Lemma timestamp_cells (v : list (option string)) (v' : list (option Z)) :
  traverse (parse_cell parse_datetime_ms) v = Ok v' ->
  Forall2 normalized_timestamp_cell v v'.
Proof.
  intros H. apply traverse_Forall2 in H.
  induction H as [|x y l l' Hxy _ IH]; constructor; [|exact IH].
  destruct x as [s|]; cbn [parse_cell normalized_timestamp_cell] in *.
  - destruct (parse_datetime_ms s) as [z|]; inversion Hxy; subst.
    split; [reflexivity | discriminate].
  - now inversion Hxy.
Qed.

(** X5: a timestamp column read as text is parsed and nothing else: its
    missing values stay missing in the result of [clean]; they do not get
    the sentinel. *)
Theorem clean_keeps_null_timestamps (df out : frame) (name col : string)
  (v : list (option string)) :
  NoDup (map (canonical_name remap) (columns df)) ->
  clean df remap must_haves = Ok out ->
  In (name, StrCol v) df ->
  col = canonical_name remap name ->
  is_timestamp_col col = true ->
  exists v',
    getitem out col = Ok (TimeCol v')
    /\ Forall2 normalized_timestamp_cell v v'.
Proof.
  intros Hnd Hout Hin Hcol Hts.
  rewrite clean_is_normalize in Hout by exact Hnd.
  rewrite <- columns_canonical_frame in Hnd.
  assert (Hin' : In (col, StrCol v) (canonical_frame remap df)).
  { unfold canonical_frame. apply in_map_iff. exists (name, StrCol v).
    split; [now subst col | exact Hin]. }
  assert (Hm : dict_mem must_haves col = true).
  { unfold is_timestamp_col in Hts. cbn [Str.mem] in Hts.
    rewrite orb_false_r in Hts. apply orb_true_iff in Hts.
    destruct Hts as [H|H]; apply String.eqb_eq in H; rewrite H; reflexivity. }
  destruct (normalize_frame_getitem _ _ _ _ _ Hnd Hout Hin' Hm)
    as [c' [Hc' Hget]].
  cbn [normalize_column] in Hc'. rewrite Hts in Hc'. cbn [astype] in Hc'.
  destruct (traverse (parse_cell parse_datetime_ms) v) as [v'|] eqn:Ev;
    cbn [bind] in Hc'; [|discriminate].
  inversion Hc'; subst c'. exists v'.
  split; [exact Hget | now apply timestamp_cells].
Qed.

Lemma clean_keeps_null_timestamps_witness :
  exists v',
    getitem frame_missing_pickup_cleaned "pickup_datetime" = Ok (TimeCol v')
    /\ Forall2 normalized_timestamp_cell
         [Some "2014-06-15 10:00:00"; None] v'.
Proof.
  apply (clean_keeps_null_timestamps frame_missing_pickup
           frame_missing_pickup_cleaned "tpep_pickup_datetime").
  - concrete_nodup.
  - concrete_clean.
  - simpl. left. reflexivity.
  - reflexivity.
  - reflexivity.
Defined.

(** X6: [clean] sees the labels of its input only through their trimmed,
    lower-cased form: relabelling the columns in a way that keeps that
    form (changing the case of letters, adding blanks around the label)
    does not change the outcome, be it a frame or an exception. *)
Theorem clean_ignores_case_and_blanks (f : string -> string) (df : frame)
  (mapping : dict string) (mh : dict dtype) :
  (forall name, Str.lower (Str.strip (f name)) = Str.lower (Str.strip name)) ->
  clean (relabel f df) mapping mh = clean df mapping mh.
Proof.
  intros Hf. unfold clean. cbv zeta. rewrite !clean_renames.
  assert (E : map (fun p => (canonical_name mapping (fst p), snd p))
                (relabel f df)
              = map (fun p => (canonical_name mapping (fst p), snd p)) df).
  { unfold relabel. rewrite map_map. apply map_ext. intros [n c].
    cbn [fst snd]. unfold canonical_name. now rewrite Hf. }
  now rewrite E.
Qed.

Lemma clean_ignores_case_and_blanks_witness :
  clean (relabel (fun name => String " " name) frame_missing_pickup)
        remap must_haves
  = clean frame_missing_pickup remap must_haves.
Proof.
  apply (clean_ignores_case_and_blanks (fun name => String " " name)).
  intros name. reflexivity.
Defined.

(** A column as [clean] leaves it: no text; 32-bit integers and floats
    without nulls; datetimes possibly with nulls. *)
Lemma wrap_I32_range (z : Z) : - 2 ^ 31 <= wrap I32 z < 2 ^ 31.
Proof.
  unfold wrap. cbn [ikind_bits ikind_signed].
  change (2 ^ (32 - 1)) with (2 ^ 31). change (2 ^ 32) with (2 * 2 ^ 31).
  pose proof (Z.mod_pos_bound (z + 2 ^ 31) (2 * 2 ^ 31) ltac:(lia)). lia.
Qed.

Lemma wrap_I32_idempotent (z : Z) : wrap I32 (wrap I32 z) = wrap I32 z.
Proof. apply wrap_I32_small, wrap_I32_range. Qed.

Lemma fill_no_null_id {A : Type} (d : A) (v : list (option A)) :
  existsb is_null v = false -> fill d v = v.
Proof.
  induction v as [|[x|] v IH]; simpl; intros H;
    [reflexivity | f_equal; now apply IH | discriminate].
Qed.

Lemma fill_fill {A : Type} (d : A) (v : list (option A)) :
  fill d (fill d v) = fill d v.
Proof. apply fill_no_null_id, fill_no_null. Qed.

Lemma map_wrap_fill_wrap (v : list (option Z)) :
  map (option_map (wrap I32)) (fill (-1) (map (option_map (wrap I32)) v))
  = fill (-1) (map (option_map (wrap I32)) v).
Proof.
  induction v as [|[x|] v IH]; simpl; [reflexivity| |]; rewrite IH.
  - now rewrite wrap_I32_idempotent.
  - reflexivity.
Qed.

(** Normalizing a normalized column fills the nulls of a datetime column
    and changes nothing else. *)
Lemma normalize_column_again (col col' : string) (c c' : column) :
  normalize_column col c = Ok c' ->
  normalize_column col' c' = Ok (fill_null_timestamps c').
Proof.
  destruct c as [v|v|k v|k v|v]; cbn [normalize_column]; intros H.
  - destruct (is_timestamp_col col); cbn [astype] in H; [|discriminate].
    destruct (traverse _ v) as [v'|]; cbn [bind] in H; inversion H.
    reflexivity.
  - inversion H. cbn [normalize_column fill_null_timestamps].
    now rewrite fill_fill.
  - inversion H. cbn [normalize_column fill_null_timestamps].
    now rewrite map_wrap_fill_wrap, fill_fill.
  - inversion H. cbn [normalize_column fill_null_timestamps].
    now rewrite fill_fill.
  - inversion H. reflexivity.
Qed.

Lemma schema_names_canonical (name : string) :
  dict_mem must_haves name = true -> canonical_name remap name = name.
Proof.
  unfold dict_mem, must_haves. cbn [dict_get].
  repeat match goal with
         | |- context [String.eqb name ?s] =>
             let E := fresh "E" in
             destruct (String.eqb name s) eqn:E;
             [apply String.eqb_eq in E; subst name; intros _; reflexivity|]
         end.
  discriminate.
Qed.

Lemma normalize_frame_again (df out : frame) :
  normalize_frame must_haves df = Ok out ->
  normalize_frame must_haves out
  = Ok (map (fun p => (fst p, fill_null_timestamps (snd p))) out).
Proof.
  revert out. induction df as [|[n c] df IH]; intros out H;
    cbn [normalize_frame] in H.
  - inversion H. reflexivity.
  - destruct (dict_mem must_haves n) eqn:Hm; [|now apply IH].
    destruct (normalize_column n c) as [c1|] eqn:Hc; cbn [bind] in H;
      [|discriminate].
    destruct (normalize_frame must_haves df) as [r|]; cbn [bind] in H;
      [|discriminate].
    inversion H; subst out. cbn [normalize_frame map fst snd].
    rewrite Hm, (normalize_column_again n n c c1 Hc), (IH r eq_refl).
    reflexivity.
Qed.

Lemma normalize_frame_schema_labels (df out : frame) :
  normalize_frame must_haves df = Ok out ->
  Forall (fun name => dict_mem must_haves name = true) (columns out).
Proof.
  intros H. destruct (normalize_frame_columns _ _ _ H) as [Hc _].
  rewrite Hc. apply Forall_forall. intros x Hx. apply filter_In in Hx. tauto.
Qed.

Lemma canonical_frame_schema_labels (df : frame) :
  Forall (fun name => dict_mem must_haves name = true) (columns df) ->
  canonical_frame remap df = df.
Proof.
  unfold canonical_frame, columns. induction df as [|[n c] df IH];
    intros H; [reflexivity|].
  inversion H; subst. cbn [map fst snd] in *.
  rewrite (schema_names_canonical n) by assumption. f_equal. now apply IH.
Qed.

(** X7: [clean] applied to its own result changes one thing only: the
    missing values of the datetime columns become the timestamp -1 (the
    first pass left them missing); applied once more it changes
    nothing. *)
Theorem clean_twice (df out : frame) :
  NoDup (map (canonical_name remap) (columns df)) ->
  clean df remap must_haves = Ok out ->
  let out' := map (fun p => (fst p, fill_null_timestamps (snd p))) out in
  clean out remap must_haves = Ok out'
  /\ clean out' remap must_haves = Ok out'.
Proof.
  intros Hnd Hout. cbv zeta.
  rewrite clean_is_normalize in Hout by exact Hnd.
  pose proof (normalize_frame_schema_labels _ _ Hout) as Hlab.
  assert (Hnd1 : NoDup (columns out)).
  { destruct (normalize_frame_columns _ _ _ Hout) as [Hc _].
    rewrite Hc, columns_canonical_frame. now apply NoDup_filter. }
  assert (Hcan : canonical_frame remap out = out)
    by now apply canonical_frame_schema_labels.
  assert (Hnd1' : NoDup (map (canonical_name remap) (columns out))).
  { rewrite <- columns_canonical_frame, Hcan. exact Hnd1. }
  pose proof (normalize_frame_again _ _ Hout) as H2.
  set (out' := map (fun p => (fst p, fill_null_timestamps (snd p))) out) in *.
  assert (Hcols : columns out' = columns out).
  { unfold out', columns. rewrite map_map. reflexivity. }
  split.
  - rewrite clean_is_normalize by exact Hnd1'. now rewrite Hcan.
  - assert (Hcan' : canonical_frame remap out' = out').
    { apply canonical_frame_schema_labels. now rewrite Hcols. }
    rewrite clean_is_normalize
      by (rewrite <- columns_canonical_frame, Hcan', Hcols; exact Hnd1).
    rewrite Hcan', (normalize_frame_again _ _ H2). f_equal.
    fold out'. unfold out'. rewrite map_map. apply map_ext.
    intros [n c]. cbn [fst snd]. f_equal.
    destruct c; cbn [fill_null_timestamps]; try reflexivity.
    now rewrite fill_fill.
Qed.

Lemma clean_twice_witness :
  let out' := map (fun p => (fst p, fill_null_timestamps (snd p)))
                frame_missing_pickup_cleaned in
  clean frame_missing_pickup_cleaned remap must_haves = Ok out'
  /\ clean out' remap must_haves = Ok out'.
Proof.
  apply (clean_twice frame_missing_pickup frame_missing_pickup_cleaned).
  - concrete_nodup.
  - concrete_clean.
Defined.

(* ===================================================================== *)
(** * Further properties of the Outlier Filter *)
(* ===================================================================== *)

Lemma select_Forall {A : Type} (P : A -> Prop) (d : A) (m : mask) :
  forall v : list A,
    (forall i, (i < List.length v)%nat -> keep (nth i m None) = true ->
               P (nth i v d)) ->
    Forall P (select m v).
Proof.
  induction m as [|b m IH]; intros [|x v] H; cbn [select]; try constructor.
  - destruct (keep b) eqn:E.
    + constructor.
      * apply (H 0%nat); [simpl; lia | exact E].
      * apply IH. intros i Hi Hk. apply (H (S i)); [simpl; lia | exact Hk].
    + apply IH. intros i Hi Hk. apply (H (S i)); [simpl; lia | exact Hk].
Qed.

Lemma select_length_eq {A : Type} (m : mask) (v : list A) :
  List.length v = List.length m ->
  List.length (select m v) = List.length (select m m).
Proof.
  revert v. induction m as [|b m IH]; intros [|x v] H; simpl in *;
    try discriminate; try reflexivity.
  destruct (keep b); simpl; [f_equal|]; apply IH; lia.
Qed.

Lemma select_length_le_mask {A : Type} (m : mask) (v : list A) :
  (List.length (select m v) <= List.length m)%nat.
Proof.
  revert v. induction m as [|b m IH]; intros [|x v]; simpl; try lia.
  destruct (keep b); simpl; specialize (IH v); lia.
Qed.

Lemma real_cells_take_rows (m : mask) (c : column) (v : list (option R)) :
  real_cells c = Ok v -> real_cells (take_rows m c) = Ok (select m v).
Proof.
  destruct c; cbn [real_cells take_rows]; intros H; inversion H;
    now rewrite ?select_map.
Qed.

Lemma numeric_column_restrict (df : frame) (name : string)
  (v : list (option R)) (n : nat) (m : mask) :
  numeric_column df name v n -> List.length m = n ->
  numeric_column (restrict m df) name (select m v)
    (List.length (select m m)).
Proof.
  intros [c [Hg [Hr Hl]]] Hm. exists (take_rows m c).
  rewrite getitem_restrict, Hg. cbn [bind].
  split; [reflexivity|]. split; [now apply real_cells_take_rows|].
  apply select_length_eq. congruence.
Qed.

Lemma column_in_range_restrict (df : frame) (name : string)
  (v : list (option R)) (n : nat) (m : mask) (lo hi : Z) :
  numeric_column df name v n ->
  (forall i, (i < n)%nat -> keep (nth i m None) = true ->
             in_range lo hi (nth i v None)) ->
  column_in_range (restrict m df) name lo hi.
Proof.
  intros [c [Hg [Hr Hl]]] H. exists (take_rows m c), (select m v).
  rewrite getitem_restrict, Hg. cbn [bind].
  split; [reflexivity|]. split; [now apply real_cells_take_rows|].
  apply (select_Forall _ None). intros i Hi. apply H. congruence.
Qed.

(** X8: what the filter returns satisfies the bounds: in its result every
    fare_amount is in (0, 500), every passenger_count in (0, 6), every
    longitude in (-75, -73) and every latitude in (40, 42), none of them
    missing. *)
Theorem outlier_filter_result_in_bounds (df : frame) (n : nat)
  (fare pc plon dlon plat dlat : list (option R)) :
  numeric_column df "fare_amount" fare n ->
  numeric_column df "passenger_count" pc n ->
  numeric_column df "pickup_longitude" plon n ->
  numeric_column df "dropoff_longitude" dlon n ->
  numeric_column df "pickup_latitude" plat n ->
  numeric_column df "dropoff_latitude" dlat n ->
  exists out,
    outlier_filter df = Ok out
    /\ column_in_range out "fare_amount" 0 500
    /\ column_in_range out "passenger_count" 0 6
    /\ column_in_range out "pickup_longitude" (-75) (-73)
    /\ column_in_range out "dropoff_longitude" (-75) (-73)
    /\ column_in_range out "pickup_latitude" 40 42
    /\ column_in_range out "dropoff_latitude" 40 42.
Proof.
  intros H1 H2 H3 H4 H5 H6.
  destruct (outlier_filter_rows df n _ _ _ _ _ _ H1 H2 H3 H4 H5 H6)
    as [m [Hlen [Hrows Hout]]].
  exists (restrict m df). split; [exact Hout|].
  assert (Hb : forall i, (i < n)%nat -> keep (nth i m None) = true ->
                 in_range 0 500 (nth i fare None)
                 /\ in_range 0 6 (nth i pc None)
                 /\ in_range (-75) (-73) (nth i plon None)
                 /\ in_range (-75) (-73) (nth i dlon None)
                 /\ in_range 40 42 (nth i plat None)
                 /\ in_range 40 42 (nth i dlat None)).
  { intros i Hi Hk. apply (Hrows i Hi) in Hk. unfold in_bounds in Hk.
    destruct (nth i fare None), (nth i pc None), (nth i plon None),
      (nth i dlon None), (nth i plat None), (nth i dlat None);
      try contradiction.
    cbn [in_range]. tauto. }
  repeat split;
    match goal with
    | |- column_in_range _ ?name _ _ =>
        match goal with
        | H : numeric_column df name _ n |- _ =>
            apply (column_in_range_restrict df name _ n m _ _ H);
            intros i Hi Hk; destruct (Hb i Hi Hk) as [? [? [? [? [? ?]]]]];
            assumption
        end
    end.
Qed.

Lemma outlier_filter_result_in_bounds_witness :
  exists out,
    outlier_filter frame_fares = Ok out
    /\ column_in_range out "fare_amount" 0 500
    /\ column_in_range out "passenger_count" 0 6
    /\ column_in_range out "pickup_longitude" (-75) (-73)
    /\ column_in_range out "dropoff_longitude" (-75) (-73)
    /\ column_in_range out "pickup_latitude" 40 42
    /\ column_in_range out "dropoff_latitude" 40 42.
Proof.
  apply (outlier_filter_result_in_bounds frame_fares 2
           [Some 501%R; Some 499.99%R] [Some (IZR 1); Some (IZR 1)]
           [Some (-73.98)%R; Some (-73.98)%R]
           [Some (-73.99)%R; Some (-73.99)%R]
           [Some 40.75%R; Some 40.75%R] [Some 40.76%R; Some 40.76%R]);
    eexists; (split; [reflexivity | split; reflexivity]).
Defined.

(** X9: the sentinel is outside every range of the filter: a row in which
    one of the six filtered fields is missing or holds -1 is dropped. *)
Theorem outlier_filter_drops_sentinel (df : frame) (n : nat)
  (fare pc plon dlon plat dlat : list (option R)) :
  numeric_column df "fare_amount" fare n ->
  numeric_column df "passenger_count" pc n ->
  numeric_column df "pickup_longitude" plon n ->
  numeric_column df "dropoff_longitude" dlon n ->
  numeric_column df "pickup_latitude" plat n ->
  numeric_column df "dropoff_latitude" dlat n ->
  exists m : mask,
    List.length m = n
    /\ outlier_filter df = Ok (restrict m df)
    /\ forall i, (i < n)%nat ->
         missing_or_sentinel (nth i fare None)
         \/ missing_or_sentinel (nth i pc None)
         \/ missing_or_sentinel (nth i plon None)
         \/ missing_or_sentinel (nth i dlon None)
         \/ missing_or_sentinel (nth i plat None)
         \/ missing_or_sentinel (nth i dlat None) ->
         keep (nth i m None) = false.
Proof.
  intros H1 H2 H3 H4 H5 H6.
  destruct (outlier_filter_rows df n _ _ _ _ _ _ H1 H2 H3 H4 H5 H6)
    as [m [Hlen [Hrows Hout]]].
  exists m. split; [exact Hlen|]. split; [exact Hout|].
  intros i Hi Hs.
  destruct (keep (nth i m None)) eqn:Hk; [|reflexivity]. exfalso.
  apply (Hrows i Hi) in Hk. unfold in_bounds, missing_or_sentinel in *.
  destruct (nth i fare None), (nth i pc None), (nth i plon None),
    (nth i dlon None), (nth i plat None), (nth i dlat None);
    try contradiction.
  destruct Hk as [? [? [? [? [? ?]]]]].
  repeat (destruct Hs as [Hs|Hs];
          [destruct Hs as [Hs|Hs]; [discriminate Hs|];
           inversion Hs; subst; lra|]).
  destruct Hs as [Hs|Hs]; [discriminate Hs|]. inversion Hs; subst; lra.
Qed.

Lemma outlier_filter_drops_sentinel_witness :
  exists m : mask,
    List.length m = 2%nat
    /\ outlier_filter frame_sentinel = Ok (restrict m frame_sentinel)
    /\ forall i, (i < 2)%nat ->
         missing_or_sentinel (nth i [Some 12.5%R; Some 8%R] None)
         \/ missing_or_sentinel (nth i [Some (IZR (-1)); Some (IZR 2)] None)
         \/ missing_or_sentinel (nth i [Some (-73.98)%R; Some (-73.98)%R] None)
         \/ missing_or_sentinel (nth i [Some (-73.99)%R; Some (-73.99)%R] None)
         \/ missing_or_sentinel (nth i [Some 40.75%R; Some 40.75%R] None)
         \/ missing_or_sentinel (nth i [Some 40.76%R; Some 40.76%R] None) ->
         keep (nth i m None) = false.
Proof.
  apply (outlier_filter_drops_sentinel frame_sentinel 2%nat);
    eexists; (split; [reflexivity | split; reflexivity]).
Defined.

Lemma getitem_In_pair (df : frame) (col : string) (c : column) :
  getitem df col = Ok c -> In (col, c) df.
Proof.
  unfold getitem, cols_named.
  destruct (map snd (filter (fun p => String.eqb (fst p) col) df))
    as [|x [|y l]] eqn:E; intros H; inversion H; subst.
  assert (Hin : In c (map snd (filter (fun p => String.eqb (fst p) col) df)))
    by (rewrite E; now left).
  apply in_map_iff in Hin. destruct Hin as [[n x] [Hx Hin]].
  apply filter_In in Hin. destruct Hin as [Hin He].
  apply String.eqb_eq in He. cbn [fst snd] in *. now subst.
Qed.

Lemma cmp_scalar_ok (gt : bool) (c : column) (k : Z) (m : mask) :
  cmp_scalar gt c k = Ok m ->
  dtype_of c <> D_object /\ dtype_of c <> D_datetime_ms
  /\ List.length m = col_rows c.
Proof.
  destruct c; cbn [cmp_scalar dtype_of col_rows]; intros H; inversion H;
    (split; [discriminate | split; [discriminate | apply length_map]]).
Qed.

Lemma eval_mask_reads (df : frame) (e : qexpr) (m : mask) (name : string) :
  eval_mask df e = Ok m -> In name (qexpr_cols e) ->
  exists c, getitem df name = Ok c
            /\ dtype_of c <> D_object /\ dtype_of c <> D_datetime_ms.
Proof.
  revert m. induction e as [col k|col k|a IHa b IHb]; intros m H Hin;
    cbn [eval_mask qexpr_cols] in *.
  - destruct Hin as [<-|[]].
    destruct (getitem df col) as [c|]; cbn [bind] in H; [|discriminate].
    exists c. split; [reflexivity|].
    destruct (cmp_scalar_ok _ _ _ _ H) as [? [? _]]. now split.
  - destruct Hin as [<-|[]].
    destruct (getitem df col) as [c|]; cbn [bind] in H; [|discriminate].
    exists c. split; [reflexivity|].
    destruct (cmp_scalar_ok _ _ _ _ H) as [? [? _]]. now split.
  - destruct (eval_mask df a) as [ma|]; cbn [bind] in H; [|discriminate].
    destruct (eval_mask df b) as [mb|]; cbn [bind] in H; [|discriminate].
    apply in_app_or in Hin. destruct Hin as [Hin|Hin];
      [exact (IHa ma eq_refl Hin) | exact (IHb mb eq_refl Hin)].
Qed.

(** X10: the filter returns a frame only if each of the six columns it
    reads is in the frame, under a label that occurs once, and is neither
    a text nor a datetime column; otherwise it raises. *)
Theorem outlier_filter_needs_columns (df out : frame) (name : string) :
  outlier_filter df = Ok out ->
  In name filtered_names ->
  exists c, getitem df name = Ok c
            /\ dtype_of c <> D_object /\ dtype_of c <> D_datetime_ms.
Proof.
  unfold outlier_filter, query. intros H Hin.
  destruct (join_and query_frags) as [e|] eqn:Ej; cbn [bind] in H;
    [|discriminate].
  destruct (eval_mask df e) as [m|] eqn:Em; cbn [bind] in H; [|discriminate].
  apply (eval_mask_reads df e m name Em).
  vm_compute in Ej. inversion Ej; subst e. cbn [qexpr_cols app].
  cbn [filtered_names In] in Hin. cbn [In].
  intuition.
Qed.

Lemma outlier_filter_needs_columns_witness :
  exists c, getitem frame_fares "fare_amount" = Ok c
            /\ dtype_of c <> D_object /\ dtype_of c <> D_datetime_ms.
Proof.
  apply (outlier_filter_needs_columns frame_fares frame_fares_kept).
  - exact outlier_filter_fares.
  - simpl. left. reflexivity.
Defined.

Lemma eval_mask_length (df : frame) (e : qexpr) (n : nat) :
  rectangular n df ->
  forall m, eval_mask df e = Ok m -> List.length m = n.
Proof.
  intros Hrect. unfold rectangular in Hrect. rewrite Forall_forall in Hrect.
  induction e as [col k|col k|a IHa b IHb]; intros m H; cbn [eval_mask] in H.
  - destruct (getitem df col) as [c|] eqn:Eg; cbn [bind] in H; [|discriminate].
    destruct (cmp_scalar_ok _ _ _ _ H) as [_ [_ Hl]]. rewrite Hl.
    exact (Hrect (col, c) (getitem_In_pair _ _ _ Eg)).
  - destruct (getitem df col) as [c|] eqn:Eg; cbn [bind] in H; [|discriminate].
    destruct (cmp_scalar_ok _ _ _ _ H) as [_ [_ Hl]]. rewrite Hl.
    exact (Hrect (col, c) (getitem_In_pair _ _ _ Eg)).
  - destruct (eval_mask df a) as [ma|]; cbn [bind] in H; [|discriminate].
    destruct (eval_mask df b) as [mb|]; cbn [bind] in H; [|discriminate].
    inversion H. apply length_and_mask; auto.
Qed.

Lemma col_rows_take_rows (m : mask) (c : column) :
  col_rows c = List.length m ->
  col_rows (take_rows m c) = List.length (select m m).
Proof.
  destruct c; cbn [col_rows take_rows]; apply select_length_eq.
Qed.

Lemma dtype_of_take_rows (m : mask) (c : column) :
  dtype_of (take_rows m c) = dtype_of c.
Proof. destruct c; reflexivity. Qed.

(** X11: the filter only removes rows: its result has the labels and the
    dtypes of its input, in the same order, and when every column of the
    input has [n] rows every column of the result has the same number
    [k <= n] of rows. *)
Theorem outlier_filter_shape (df out : frame) (n : nat) :
  rectangular n df ->
  outlier_filter df = Ok out ->
  columns out = columns df
  /\ map (fun p => dtype_of (snd p)) out = map (fun p => dtype_of (snd p)) df
  /\ exists k, (k <= n)%nat /\ rectangular k out.
Proof.
  intros Hrect H. unfold outlier_filter, query in H.
  destruct (join_and query_frags) as [e|]; cbn [bind] in H; [|discriminate].
  destruct (eval_mask df e) as [m|] eqn:Em; cbn [bind] in H; [|discriminate].
  inversion H; subst out. clear H.
  pose proof (eval_mask_length df e n Hrect m Em) as Hlen.
  split; [|split].
  - unfold restrict, columns. rewrite map_map. reflexivity.
  - unfold restrict. rewrite map_map. apply map_ext. intros [name c].
    cbn [fst snd]. apply dtype_of_take_rows.
  - exists (List.length (select m m)). split.
    + rewrite <- Hlen. apply select_length_le_mask.
    + unfold rectangular, restrict in *. rewrite Forall_forall in *.
      intros [name c'] Hin. apply in_map_iff in Hin.
      destruct Hin as [[name0 c] [Heq Hin]]. cbn [fst snd] in Heq.
      inversion Heq; subst name c'.
      cbn [snd]. apply col_rows_take_rows.
      rewrite Hlen. exact (Hrect (name0, c) Hin).
Qed.

Lemma outlier_filter_shape_witness :
  columns frame_fares_kept = columns frame_fares
  /\ map (fun p => dtype_of (snd p)) frame_fares_kept
     = map (fun p => dtype_of (snd p)) frame_fares
  /\ exists k, (k <= 2)%nat /\ rectangular k frame_fares_kept.
Proof.
  apply (outlier_filter_shape frame_fares frame_fares_kept 2).
  - repeat constructor.
  - exact outlier_filter_fares.
Defined.

(* ===================================================================== *)
(** * Further properties of the Feature Deriver *)
(* ===================================================================== *)

Lemma real_cells_rows (c : column) (v : list (option R)) :
  real_cells c = Ok v -> List.length v = col_rows c.
Proof.
  destruct c; cbn [real_cells col_rows]; intros H; inversion H;
    [apply length_map | reflexivity].
Qed.

Lemma bucket_col_rows (c : column) : col_rows (bucket_col c) = col_rows c.
Proof. destruct c; cbn [bucket_col col_rows]; now rewrite ?length_map. Qed.

Lemma zip_with_length {A B C : Type} (f : A -> B -> C) (n : nat) :
  forall (a : list A) (b : list B),
    List.length a = n -> List.length b = n ->
    List.length (zip_with f a b) = n.
Proof.
  induction n as [|n IH]; intros [|x a] [|y b] Ha Hb; simpl in *;
    try discriminate; try reflexivity.
  f_equal. apply IH; lia.
Qed.

Lemma zip4_length {A B : Type} (f : A -> A -> A -> A -> B) (n : nat) :
  forall a b c d : list A,
    List.length a = n -> List.length b = n ->
    List.length c = n -> List.length d = n ->
    List.length (zip4 f a b c d) = n.
Proof.
  induction n as [|n IH]; intros [|x a] [|y b] [|z c] [|w d] Ha Hb Hc Hd;
    simpl in *; try discriminate; try reflexivity.
  f_equal. apply IH; lia.
Qed.

Lemma rectangular_app (n : nat) (a b : frame) :
  rectangular n a -> rectangular n b -> rectangular n (a ++ b).
Proof. unfold rectangular. intros Ha Hb. apply Forall_app. now split. Qed.

Lemma rectangular_without_timestamps (n : nat) (df : frame) :
  rectangular n df -> rectangular n (without_timestamps df).
Proof.
  unfold rectangular, without_timestamps. rewrite !Forall_forall.
  intros H p Hin. apply filter_In in Hin. destruct Hin as [Hin _].
  apply filter_In in Hin. destruct Hin as [Hin _]. now apply H.
Qed.

Section DeriverShape.

Variables (df : frame) (pu dr : list (option Z)).
Variables (c_plat c_plon c_dlat c_dlon : column).
Variables (x_1 y_1 x_2 y_2 : list (option R)).
Hypothesis Hin :
  deriver_input df pu dr c_plat c_plon c_dlat c_dlon x_1 y_1 x_2 y_2.

Lemma deriver_input_rows (n : nat) :
  rectangular n df ->
  List.length pu = n /\ List.length dr = n
  /\ col_rows c_plat = n /\ col_rows c_plon = n
  /\ col_rows c_dlat = n /\ col_rows c_dlon = n
  /\ List.length x_1 = n /\ List.length y_1 = n
  /\ List.length x_2 = n /\ List.length y_2 = n.
Proof.
  intros Hrect. unfold rectangular in Hrect. rewrite Forall_forall in Hrect.
  destruct Hin as [Hpu Hdr H1 H2 H3 H4 R1 R2 R3 R4 _].
  pose proof (Hrect _ (getitem_In_pair _ _ _ Hpu)) as Lpu.
  pose proof (Hrect _ (getitem_In_pair _ _ _ Hdr)) as Ldr.
  pose proof (Hrect _ (getitem_In_pair _ _ _ H1)) as L1.
  pose proof (Hrect _ (getitem_In_pair _ _ _ H2)) as L2.
  pose proof (Hrect _ (getitem_In_pair _ _ _ H3)) as L3.
  pose proof (Hrect _ (getitem_In_pair _ _ _ H4)) as L4.
  cbn [snd col_rows] in *.
  rewrite (real_cells_rows _ _ R1), (real_cells_rows _ _ R2),
    (real_cells_rows _ _ R3), (real_cells_rows _ _ R4).
  repeat split; assumption.
Qed.

Lemma derived_columns_rows (n : nat) :
  rectangular n df ->
  rectangular n (derived_columns pu dr c_plat c_plon c_dlat c_dlon
                   x_1 y_1 x_2 y_2).
Proof.
  intros Hrect.
  destruct (deriver_input_rows n Hrect)
    as [Lpu [Ldr [L1 [L2 [L3 [L4 [K1 [K2 [K3 K4]]]]]]]]].
  unfold rectangular, derived_columns, assigned_columns, dt_col, diff_col.
  cbn [app].
  repeat (apply Forall_cons; [cbn [snd col_rows]|]); try apply Forall_nil;
    rewrite ?bucket_col_rows, ?length_map; try assumption.
  - apply zip_with_length; now rewrite length_map.
  - now apply zip4_length.
Qed.

End DeriverShape.

(** X12: the Feature Deriver neither drops nor adds a row: when every
    column of its input has [n] rows, it returns a frame all of whose
    columns, the derived ones included, have [n] rows. *)
Theorem add_features_keeps_rows (df : frame) (pu dr : list (option Z))
  (c_plat c_plon c_dlat c_dlon : column) (x_1 y_1 x_2 y_2 : list (option R))
  (n : nat) :
  deriver_input df pu dr c_plat c_plon c_dlat c_dlon x_1 y_1 x_2 y_2 ->
  rectangular n df ->
  exists out, add_features df = Ok out /\ rectangular n out.
Proof.
  intros Hin Hrect. eexists.
  split; [exact (add_features_eq _ _ _ _ _ _ _ _ _ _ _ Hin)|].
  apply rectangular_app.
  - now apply rectangular_without_timestamps.
  - exact (derived_columns_rows df _ _ _ _ _ _ _ _ _ _ Hin n Hrect).
Qed.

Lemma add_features_keeps_rows_witness :
  exists out, add_features frame_trip = Ok out /\ rectangular 1 out.
Proof.
  apply (add_features_keeps_rows frame_trip
           [Some 1402826400000] [Some 1402828200000]
           (FloatCol F32 [Some 40.75%R]) (FloatCol F32 [Some (-73.98)%R])
           (FloatCol F32 [Some 40.76%R]) (FloatCol F32 [Some (-73.99)%R])
           [Some 40.75%R] [Some (-73.98)%R] [Some 40.76%R] [Some (-73.99)%R]).
  - concrete_deriver_input.
  - repeat constructor.
Defined.

(** X13: the Feature Deriver is one-shot: it consumes the timestamp
    columns, so applied to its own result it raises [KeyError]. *)
Theorem add_features_is_one_shot (df : frame) (pu dr : list (option Z))
  (c_plat c_plon c_dlat c_dlon : column) (x_1 y_1 x_2 y_2 : list (option R)) :
  deriver_input df pu dr c_plat c_plon c_dlat c_dlon x_1 y_1 x_2 y_2 ->
  exists out,
    add_features df = Ok out /\ add_features out = Raise KeyError.
Proof.
  intros Hin. eexists.
  split; [exact (add_features_eq _ _ _ _ _ _ _ _ _ _ _ Hin)|].
  unfold add_features, add_features_assign.
  assert (Hno : ~ In "pickup_datetime"
                  (columns (without_timestamps df
                            ++ derived_columns pu dr c_plat c_plon c_dlat
                                 c_dlon x_1 y_1 x_2 y_2))).
  { rewrite columns_app, columns_without_timestamps. intros H.
    apply in_app_or in H. destruct H as [H|H].
    - apply filter_In in H. destruct H as [_ H]. discriminate H.
    - cbn in H. repeat (destruct H as [H|H]; [discriminate H|]). exact H. }
  unfold getitem at 1. rewrite (cols_named_notin _ _ Hno). reflexivity.
Qed.

Lemma add_features_is_one_shot_witness :
  exists out,
    add_features frame_trip = Ok out /\ add_features out = Raise KeyError.
Proof.
  apply (add_features_is_one_shot frame_trip
           [Some 1402826400000] [Some 1402828200000]
           (FloatCol F32 [Some 40.75%R]) (FloatCol F32 [Some (-73.98)%R])
           (FloatCol F32 [Some 40.76%R]) (FloatCol F32 [Some (-73.99)%R])
           [Some 40.75%R] [Some (-73.98)%R] [Some 40.76%R] [Some (-73.99)%R]).
  concrete_deriver_input.
Defined.







(* ===================================================================== *)
(** * From the derived frame to the training inputs *)
(* ===================================================================== *)

Lemma fold_and_mask_keep (ms : list mask) (i : nat) :
  forall m0,
    keep (nth i (fold_left and_mask ms m0) None) = true ->
    keep (nth i m0 None) = true
    /\ Forall (fun m => keep (nth i m None) = true) ms.
Proof.
  induction ms as [|m ms IH]; intros m0 H; cbn [fold_left] in H.
  - split; [exact H | constructor].
  - destruct (IH _ H) as [H0 Hms].
    rewrite nth_and_mask, keep_and_cell in H0.
    apply andb_true_iff in H0. destruct H0 as [Ha Hb].
    split; [exact Ha | now constructor].
Qed.

Lemma notnull_keep {A : Type} (v : list (option A)) (i : nat) :
  (i < List.length v)%nat ->
  keep (nth i (map (fun x => Some (negb (is_null x))) v) None) = true ->
  is_null (nth i v None) = false.
Proof.
  intros Hi H.
  rewrite (nth_indep _ None (Some (negb (is_null (@None A))))) in H
    by now rewrite length_map.
  rewrite (map_nth (fun x => Some (negb (is_null x)))) in H.
  destruct (nth i v None); [reflexivity | discriminate H].
Qed.

Lemma select_no_null {A : Type} (m : mask) (v : list (option A)) :
  (forall i, (i < List.length v)%nat -> keep (nth i m None) = true ->
             is_null (nth i v None) = false) ->
  existsb is_null (select m v) = false.
Proof.
  intros H. pose proof (select_Forall (fun x => is_null x = false) None m v H)
    as HF.
  induction HF as [|x l Hx _ IH]; [reflexivity|]. simpl. now rewrite Hx.
Qed.

Lemma take_rows_no_null (m : mask) (c : column) :
  (forall i, keep (nth i m None) = true ->
             keep (nth i (notnull_mask c) None) = true) ->
  has_null (take_rows m c) = false.
Proof.
  intros H.
  destruct c; cbn [take_rows has_null notnull_mask] in *;
    apply select_no_null; intros i Hi Hk; apply notnull_keep;
    auto.
Qed.

(** After [dropna] no column has a missing value. *)
Lemma dropna_no_null (df : frame) :
  Forall (fun p => has_null (snd p) = false) (dropna df).
Proof.
  unfold dropna.
  destruct (map (fun p => notnull_mask (snd p)) df) as [|m0 ms] eqn:E.
  - destruct df; [constructor | discriminate E].
  - unfold restrict. rewrite Forall_forall. intros [name c'] Hin.
    apply in_map_iff in Hin. destruct Hin as [[n c] [Heq Hin]].
    cbn [fst snd] in Heq. inversion Heq; subst name c'. cbn [snd].
    apply take_rows_no_null. intros i Hk.
    destruct (fold_and_mask_keep ms i m0 Hk) as [H0 Hms].
    assert (Hc : In (notnull_mask c) (m0 :: ms)).
    { rewrite <- E. apply in_map_iff. now exists (n, c). }
    destruct Hc as [<-|Hc]; [exact H0|].
    rewrite Forall_forall in Hms. now apply Hms.
Qed.

Lemma dropna_columns (df : frame) :
  columns (dropna df) = columns df
  /\ map (fun p => dtype_of (snd p)) (dropna df)
     = map (fun p => dtype_of (snd p)) df.
Proof.
  unfold dropna.
  destruct (map (fun p => notnull_mask (snd p)) df) as [|m0 ms];
    [split; reflexivity|].
  unfold restrict, columns. rewrite !map_map. split; [reflexivity|].
  apply map_ext. intros [n c]. apply dtype_of_take_rows.
Qed.

Lemma option_map_no_null {A B : Type} (f : A -> B) (v : list (option A)) :
  existsb is_null (map (option_map f) v) = existsb is_null v.
Proof.
  induction v as [|[x|] v IH]; simpl; [reflexivity | exact IH | reflexivity].
Qed.

Lemma astype_float32_ok (c : column) :
  dtype_of c <> D_object ->
  exists v, astype c (D_float F32) = Ok (FloatCol F32 v)
            /\ existsb is_null v = has_null c.
Proof.
  destruct c as [s|b|k z|k r|t]; cbn [dtype_of astype has_null]; intros H;
    try congruence; eexists; (split; [reflexivity|]);
    try apply option_map_no_null; reflexivity.
Qed.

Lemma frame_astype_float32 (df : frame) :
  Forall (fun p => dtype_of (snd p) <> D_object) df ->
  exists df',
    frame_astype df (D_float F32) = Ok df'
    /\ Forall2 (fun p q => fst q = fst p
                           /\ exists v, snd q = FloatCol F32 v
                                        /\ existsb is_null v = has_null (snd p))
         df df'.
Proof.
  unfold frame_astype. induction df as [|[n c] df IH]; intros H.
  - exists []. split; [reflexivity | constructor].
  - inversion H; subst. destruct (IH H3) as [df' [Hok HF]].
    destruct (astype_float32_ok c H2) as [v [Hv Hn]].
    exists ((n, FloatCol F32 v) :: df'). cbn [traverse fst snd].
    rewrite Hv. cbn [bind]. rewrite Hok. cbn [bind].
    split; [reflexivity|]. constructor; [|exact HF].
    split; [reflexivity|]. now exists v.
Qed.

Lemma Forall2_cols_named (R : column -> column -> Prop) (df df' : frame)
  (col : string) :
  Forall2 (fun p q => fst q = fst p /\ R (snd p) (snd q)) df df' ->
  Forall2 R (cols_named df col) (cols_named df' col).
Proof.
  unfold cols_named. induction 1 as [|[n c] [n' c'] l l' [Hn Hr] _ IH];
    [constructor|].
  cbn [fst snd] in *. subst n'. cbn [filter fst].
  destruct (String.eqb n col); cbn [map snd]; [constructor|]; assumption.
Qed.

Lemma Forall2_columns (R : column -> column -> Prop) (df df' : frame) :
  Forall2 (fun p q => fst q = fst p /\ R (snd p) (snd q)) df df' ->
  columns df' = columns df.
Proof.
  unfold columns. induction 1 as [|p q l l' [Hn _] _ IH]; [reflexivity|].
  cbn [map]. now rewrite Hn, IH.
Qed.

Lemma columns_drop (df X : frame) (col : string) :
  drop df col = Ok X ->
  columns X = filter (fun n => negb (String.eqb n col)) (columns df)
  /\ forall p, In p X -> In p df.
Proof.
  unfold drop. destruct (Str.mem col (columns df)); [|discriminate].
  intros H. inversion H. split.
  - unfold columns. clear. induction df as [|[n c] df IH]; [reflexivity|].
    cbn [filter map fst]. destruct (String.eqb n col); cbn [negb map fst];
      now rewrite IH.
  - intros p Hp. apply filter_In in Hp. tauto.
Qed.

(** X16: from a frame without text columns that has a fare_amount column,
    the statements before the train/test split produce a feature frame X
    and a target y such that X has every column of the frame but
    fare_amount, every column of X and y itself are float32 columns, and
    none of them has a missing value. *)
Theorem prepare_gives_float32 (df : frame) (fare : column) :
  Forall (fun p => dtype_of (snd p) <> D_object) df ->
  getitem df "fare_amount" = Ok fare ->
  exists X y,
    prepare df = Ok (X, FloatCol F32 y)
    /\ columns X
       = filter (fun n => negb (String.eqb n "fare_amount")) (columns df)
    /\ Forall (fun p => dtype_of (snd p) = D_float F32
                        /\ has_null (snd p) = false) X
    /\ existsb is_null y = false.
Proof.
  intros Hty Hfare. unfold prepare. cbv zeta.
  destruct (dropna_columns df) as [Hcols Hdt].
  assert (Hty' : Forall (fun p => dtype_of (snd p) <> D_object) (dropna df)).
  { rewrite Forall_forall in *. intros p Hp.
    assert (Hd : In (dtype_of (snd p))
                   (map (fun p => dtype_of (snd p)) (dropna df)))
      by (apply in_map_iff; now exists p).
    rewrite Hdt in Hd. apply in_map_iff in Hd.
    destruct Hd as [q [Hq Hin]]. rewrite <- Hq. now apply Hty. }
  destruct (frame_astype_float32 (dropna df) Hty') as [df' [Hok HF]].
  rewrite Hok. cbn [bind].
  pose proof (dropna_no_null df) as Hnn.
  assert (Hall : Forall (fun q => exists v, snd q = FloatCol F32 v
                                            /\ existsb is_null v = false) df').
  { clear - HF Hnn. induction HF as [|p q l l' [_ [v [Hv Hn]]] _ IH];
      [constructor|].
    inversion Hnn; subst. constructor; [|now apply IH].
    exists v. split; [exact Hv | congruence]. }
  assert (Hc' : columns df' = columns df).
  { rewrite <- Hcols.
    exact (Forall2_columns
             (fun c c' => exists v, c' = FloatCol F32 v
                                    /\ existsb is_null v = has_null c)
             _ _ HF). }
  assert (Hget : exists y, getitem df' "fare_amount" = Ok (FloatCol F32 y)
                           /\ existsb is_null y = false).
  { pose proof (Forall2_cols_named
                  (fun c c' => exists v, c' = FloatCol F32 v
                                         /\ existsb is_null v = has_null c)
                  _ _ "fare_amount" HF) as Hcn.
    assert (Hd : exists c, cols_named (dropna df) "fare_amount" = [c]).
    { unfold dropna.
      destruct (map (fun p => notnull_mask (snd p)) df) as [|m0 ms].
      - unfold getitem in Hfare.
        destruct (cols_named df "fare_amount") as [|c [|c2 l]];
          try discriminate. now exists c.
      - rewrite cols_named_restrict. unfold getitem in Hfare.
        destruct (cols_named df "fare_amount") as [|c [|c2 l]];
          try discriminate. eexists. reflexivity. }
    destruct Hd as [c Hd]. rewrite Hd in Hcn.
    inversion Hcn as [|? c' ? l' [v [Hv Hn]] Hrest Heq1 Heq2]; subst.
    inversion Hrest; subst.
    assert (Hin : In ("fare_amount", FloatCol F32 v) df').
    { apply getitem_In_pair. unfold getitem.
      match goal with H : _ = cols_named df' _ |- _ => rewrite <- H end.
      reflexivity. }
    exists v. split.
    - unfold getitem.
      match goal with H : _ = cols_named df' _ |- _ => rewrite <- H end.
      reflexivity.
    - rewrite Forall_forall in Hall. destruct (Hall _ Hin) as [v0 [E0 N0]].
      cbn [snd] in E0. inversion E0; subst. exact N0. }
  destruct Hget as [y [Hy Hyn]].
  unfold features_and_target.
  destruct (drop df' "fare_amount") as [X|] eqn:Ed.
  2:{ unfold drop in Ed.
      replace (Str.mem "fare_amount" (columns df')) with true in Ed;
        [discriminate|].
      symmetry. apply mem_In. exact (getitem_In _ _ _ Hy). }
  cbn [bind]. rewrite Hy. cbn [bind astype].
  destruct (columns_drop _ _ _ Ed) as [HcX HsubX].
  exists X, y. split; [reflexivity|]. split; [now rewrite HcX, Hc'|].
  split; [|exact Hyn].
  rewrite Forall_forall in *. intros p Hp.
  destruct (Hall p (HsubX p Hp)) as [v [Hv Hn]].
  rewrite Hv. split; [reflexivity | exact Hn].
Qed.

Lemma prepare_gives_float32_witness :
  exists X y,
    prepare frame_derived = Ok (X, FloatCol F32 y)
    /\ columns X
       = filter (fun n => negb (String.eqb n "fare_amount"))
           (columns frame_derived)
    /\ Forall (fun p => dtype_of (snd p) = D_float F32
                        /\ has_null (snd p) = false) X
    /\ existsb is_null y = false.
Proof.
  apply (prepare_gives_float32 frame_derived
           (FloatCol F32 [Some 12.5%R; Some 8%R])).
  - repeat constructor; discriminate.
  - reflexivity.
Defined.

Lemma all_kept_and_mask (a b : mask) :
  Forall (fun x => keep x = true) a -> Forall (fun x => keep x = true) b ->
  Forall (fun x => keep x = true) (and_mask a b).
Proof.
  intros Ha. revert b. induction Ha as [|x a Hx _ IH]; intros b Hb;
    [constructor|].
  destruct Hb as [|y b Hy Hb]; cbn [and_mask]; constructor.
  - now rewrite keep_and_cell, Hx, Hy.
  - now apply IH.
Qed.

Lemma notnull_mask_complete (c : column) :
  has_null c = false ->
  Forall (fun x => keep x = true) (notnull_mask c)
  /\ List.length (notnull_mask c) = col_rows c.
Proof.
  assert (G : forall (A : Type) (v : list (option A)),
             existsb is_null v = false ->
             Forall (fun x => keep x = true)
               (map (fun x => Some (negb (is_null x))) v)).
  { intros A v. induction v as [|[x|] v IH]; simpl; intros H;
      [constructor | constructor; [reflexivity | now apply IH]
      | discriminate]. }
  destruct c; cbn [has_null notnull_mask col_rows]; intros H;
    (split; [now apply G | apply length_map]).
Qed.

Lemma fold_and_mask_complete (n : nat) (ms : list mask) :
  forall m0,
    Forall (fun x => keep x = true) m0 -> List.length m0 = n ->
    Forall (fun m => Forall (fun x => keep x = true) m /\ List.length m = n)
      ms ->
    Forall (fun x => keep x = true) (fold_left and_mask ms m0)
    /\ List.length (fold_left and_mask ms m0) = n.
Proof.
  induction ms as [|m ms IH]; intros m0 Hk Hl Hms; cbn [fold_left].
  - now split.
  - inversion Hms as [|? ? [Hkm Hlm] Hrest]; subst. apply IH.
    + now apply all_kept_and_mask.
    + now apply length_and_mask.
    + exact Hrest.
Qed.

Lemma take_rows_all_kept (m : mask) (c : column) :
  Forall (fun x => keep x = true) m -> col_rows c = List.length m ->
  take_rows m c = c.
Proof.
  intros Hk Hl. destruct c; cbn [take_rows col_rows] in *; f_equal;
    apply select_all_kept; auto; lia.
Qed.

(** [dropna] leaves no missing value in any column and keeps the
    labels and the dtypes; a frame in which nothing is missing comes back
    unchanged. *)
Theorem dropna_removes_incomplete_rows (df : frame) :
  Forall (fun p => has_null (snd p) = false) (dropna df)
  /\ columns (dropna df) = columns df
  /\ map (fun p => dtype_of (snd p)) (dropna df)
     = map (fun p => dtype_of (snd p)) df
  /\ (forall n, rectangular n df ->
                Forall (fun p => has_null (snd p) = false) df ->
                dropna df = df).
Proof.
  split; [apply dropna_no_null|].
  destruct (dropna_columns df) as [H1 H2]. split; [exact H1|].
  split; [exact H2|].
  intros n Hrect Hnn. unfold dropna.
  destruct (map (fun p => notnull_mask (snd p)) df) as [|m0 ms] eqn:E;
    [reflexivity|].
  assert (Hall : Forall (fun m => Forall (fun x => keep x = true) m
                                  /\ List.length m = n) (m0 :: ms)).
  { rewrite <- E. rewrite Forall_forall. intros m Hm.
    apply in_map_iff in Hm. destruct Hm as [p [<- Hp]].
    unfold rectangular in Hrect. rewrite Forall_forall in Hrect, Hnn.
    destruct (notnull_mask_complete (snd p) (Hnn p Hp)) as [Hk Hl].
    split; [exact Hk|]. rewrite Hl. now apply Hrect. }
  inversion Hall as [|? ? [Hk0 Hl0] Hms]; subst.
  destruct (fold_and_mask_complete (List.length m0) ms m0 Hk0 eq_refl Hms)
    as [HK HL].
  unfold restrict. rewrite <- (map_id df) at 2. apply map_ext_in.
  intros [name c] Hin. cbn [fst snd]. f_equal.
  apply take_rows_all_kept; [exact HK|].
  rewrite HL. unfold rectangular in Hrect. rewrite Forall_forall in Hrect.
  exact (Hrect (name, c) Hin).
Qed.

Lemma dropna_removes_incomplete_rows_witness :
  dropna frame_fares = frame_fares.
Proof.
  apply (proj2 (proj2 (proj2 (dropna_removes_incomplete_rows frame_fares)))
           2%nat); repeat constructor.
Defined.

(* ===================================================================== *)
(** * What a partition needs to get through the workflow *)
(* ===================================================================== *)

Lemma cols_named_setitem_other (df : frame) (col col' : string) (c : column) :
  col' <> col -> cols_named (setitem df col c) col' = cols_named df col'.
Proof.
  intros Hne. unfold setitem. destruct (Str.mem col (columns df)).
  - unfold cols_named. f_equal.
    induction df as [|[n x] df IH]; [reflexivity|].
    cbn [map filter fst]. destruct (String.eqb n col) eqn:E1; cbn [fst].
    + apply String.eqb_eq in E1. subst n.
      replace (String.eqb col col') with false
        by (symmetry; apply String.eqb_neq; congruence).
      exact IH.
    + destruct (String.eqb n col'); now rewrite IH.
  - rewrite cols_named_app. unfold cols_named at 2. cbn [filter fst].
    replace (String.eqb col col') with false
      by (symmetry; apply String.eqb_neq; congruence).
    cbn [map]. apply app_nil_r.
Qed.

Lemma getitem_setitem_other (df : frame) (col col' : string) (c : column) :
  col' <> col -> getitem (setitem df col c) col' = getitem df col'.
Proof. intros H. unfold getitem. now rewrite cols_named_setitem_other. Qed.

Lemma dt_field_ok (f : Z -> Z) (c c' : column) :
  dt_field f c = Ok c' -> exists v, c = TimeCol v.
Proof. destruct c; cbn [dt_field]; intros H; inversion H. now eexists. Qed.

Lemma add_features_assign_reads (df df1 : frame) :
  add_features_assign df = Ok df1 ->
  (exists v, getitem df "pickup_datetime" = Ok (TimeCol v))
  /\ exists d, getitem df "dropoff_datetime" = Ok d.
Proof.
  unfold add_features_assign. intros H. cbv zeta in H.
  destruct (getitem df "pickup_datetime") as [c0|] eqn:E0; cbn [bind] in H;
    [|discriminate].
  destruct (dt_hour c0) as [h|] eqn:Eh; cbn [bind] in H; [|discriminate].
  destruct (dt_field_ok _ _ _ Eh) as [v ->].
  split; [now exists v|].
  rewrite !getitem_setitem_other in H by discriminate.
  unfold dt_year, dt_month, dt_day in H.
  rewrite E0 in H. cbn [bind dt_field] in H.
  rewrite !getitem_setitem_other in H by discriminate.
  rewrite E0 in H. cbn [bind dt_field] in H.
  rewrite !getitem_setitem_other in H by discriminate.
  rewrite E0 in H. cbn [bind dt_field] in H.
  rewrite !getitem_setitem_other in H by discriminate.
  destruct (getitem df "dropoff_datetime") as [d|]; [now exists d|].
  discriminate H.
Qed.

(** X17: [add_features] returns a frame only if pickup_datetime is a
    datetime column and dropoff_datetime is present, each under a label
    that occurs once; with the pickup time absent, or cast by [clean] to
    int32 or float32 because it had been read as a number, it raises. *)
Theorem add_features_needs_datetime (df out : frame) :
  add_features df = Ok out ->
  (exists v, getitem df "pickup_datetime" = Ok (TimeCol v))
  /\ exists d, getitem df "dropoff_datetime" = Ok d.
Proof.
  unfold add_features. intros H.
  destruct (add_features_assign df) as [df1|] eqn:E; cbn [bind] in H;
    [|discriminate].
  exact (add_features_assign_reads df df1 E).
Qed.

Lemma add_features_needs_datetime_witness :
  (exists v, getitem frame_trip "pickup_datetime" = Ok (TimeCol v))
  /\ exists d, getitem frame_trip "dropoff_datetime" = Ok d.
Proof.
  apply (add_features_needs_datetime frame_trip
           (without_timestamps frame_trip
            ++ derived_columns [Some 1402826400000] [Some 1402828200000]
                 (FloatCol F32 [Some 40.75%R]) (FloatCol F32 [Some (-73.98)%R])
                 (FloatCol F32 [Some 40.76%R]) (FloatCol F32 [Some (-73.99)%R])
                 [Some 40.75%R] [Some (-73.98)%R] [Some 40.76%R]
                 [Some (-73.99)%R])).
  apply add_features_eq. concrete_deriver_input.
Defined.

(** X18: the workflow returns a frame only for a partition that has, under
    some accepted spelling, the six filtered columns and the two timestamp
    columns; trip_distance and rate_code are not asked for. *)
Theorem pipeline_needs_columns (raw out : frame) (name : string) :
  NoDup (map (canonical_name remap) (columns raw)) ->
  pipeline raw = Ok out ->
  In name needed_names ->
  In name (map (canonical_name remap) (columns raw)).
Proof.
  intros Hnd H Hin. unfold pipeline in H.
  destruct (clean raw remap must_haves) as [c|] eqn:Ec; cbn [bind] in H;
    [|discriminate].
  destruct (outlier_filter c) as [q|] eqn:Eq; cbn [bind] in H; [|discriminate].
  rewrite clean_is_normalize in Ec by exact Hnd.
  destruct (normalize_frame_columns _ _ _ Ec) as [Hcols _].
  rewrite columns_canonical_frame in Hcols.
  assert (Hc : In name (columns c)).
  { unfold needed_names in Hin. apply in_app_or in Hin.
    destruct Hin as [Hin|Hin].
    - unfold outlier_filter, query in Eq.
      destruct (join_and query_frags) as [e|] eqn:Ej; cbn [bind] in Eq;
        [|discriminate].
      destruct (eval_mask c e) as [m|] eqn:Em; cbn [bind] in Eq;
        [|discriminate].
      assert (Hq : In name (qexpr_cols e)).
      { vm_compute in Ej. inversion Ej; subst e. cbn [qexpr_cols app].
        cbn [filtered_names In] in Hin. cbn [In]. intuition. }
      destruct (eval_mask_reads c e m name Em Hq) as [x [Hx _]].
      exact (getitem_In _ _ _ Hx).
    - unfold add_features in H.
      destruct (add_features_assign q) as [q1|] eqn:Ea; cbn [bind] in H;
        [|discriminate].
      destruct (add_features_assign_reads q q1 Ea) as [[v Hp] [d Hd]].
      assert (Hcq : columns q = columns c).
      { unfold outlier_filter, query in Eq.
        destruct (join_and query_frags) as [e|]; cbn [bind] in Eq;
          [|discriminate].
        destruct (eval_mask c e) as [m|]; cbn [bind] in Eq; [|discriminate].
        inversion Eq. unfold restrict, columns. now rewrite map_map. }
      rewrite <- Hcq.
      destruct Hin as [<-|[<-|[]]];
        [exact (getitem_In _ _ _ Hp) | exact (getitem_In _ _ _ Hd)]. }
  rewrite Hcols in Hc. apply filter_In in Hc. tauto.
Qed.

Lemma pipeline_needs_columns_witness :
  In "fare_amount" (map (canonical_name remap) (columns frame_raw)).
Proof.
  apply (pipeline_needs_columns frame_raw frame_raw_result "fare_amount").
  - concrete_nodup.
  - exact pipeline_frame_raw.
  - simpl. left. reflexivity.
Defined.

Lemma derived_names_not_in_schema (name : string) :
  In name derived_names -> dict_mem must_haves name = false.
Proof.
  intros H. cbn in H.
  repeat (destruct H as [<-|H]; [reflexivity|]). destruct H.
Qed.

Lemma filtered_names_in_schema (name : string) :
  In name filtered_names -> dict_mem must_haves name = true.
Proof.
  intros H. cbn in H.
  repeat (destruct H as [<-|H]; [reflexivity|]). destruct H.
Qed.

Lemma filtered_names_not_timestamps (name : string) :
  In name filtered_names -> is_timestamp_col name = false.
Proof.
  intros H. cbn in H.
  repeat (destruct H as [<-|H]; [reflexivity|]). destruct H.
Qed.

Lemma normalize_number_column (col : string) (c c' : column) :
  is_timestamp_col col = false -> read_as_number (dtype_of c) ->
  normalize_column col c = Ok c' ->
  exists v, real_cells c' = Ok v.
Proof.
  intros Hts Hn. destruct c as [s|b|k z|k r|t]; cbn [dtype_of read_as_number] in Hn;
    try contradiction; cbn [normalize_column].
  - intros H; inversion H. now eexists.
  - intros H; inversion H. now eexists.
Qed.

Lemma normalize_time_column (col : string) (c c' : column) :
  is_timestamp_col col = true -> read_as_time (dtype_of c) ->
  normalize_column col c = Ok c' ->
  exists v, c' = TimeCol v.
Proof.
  intros Hts [Hd|Hd]; destruct c as [s|b|k z|k r|t]; cbn [dtype_of] in Hd;
    try discriminate Hd; cbn [normalize_column].
  - rewrite Hts. cbn [astype].
    destruct (traverse _ s) as [v|]; cbn [bind]; intros H; inversion H.
    now eexists.
  - intros H; inversion H. now eexists.
Qed.

Section Processable.

Variables (raw c : frame) (n : nat).
Hypothesis Hpr : processable raw n.
Hypothesis Hclean : clean raw remap must_haves = Ok c.

Lemma cleaned_column (name : string) (P : dtype -> Prop) :
  has_column raw name P -> dict_mem must_haves name = true ->
  exists c0 c', P (dtype_of c0) /\ normalize_column name c0 = Ok c'
                /\ getitem c name = Ok c' /\ col_rows c' = n.
Proof.
  intros [name0 [c0 [Hin [Hname HP]]]] Hm.
  pose proof (pr_nodup _ _ Hpr) as Hnd.
  pose proof Hclean as Hc. rewrite clean_is_normalize in Hc by exact Hnd.
  rewrite <- columns_canonical_frame in Hnd.
  assert (Hin' : In (name, c0) (canonical_frame remap raw)).
  { unfold canonical_frame. apply in_map_iff. exists (name0, c0).
    split; [cbn [fst snd]; now rewrite Hname | exact Hin]. }
  destruct (normalize_frame_getitem _ _ _ _ _ Hnd Hc Hin' Hm)
    as [c' [Hn Hg]].
  exists c0, c'. repeat split; try assumption.
  rewrite (normalize_column_rows _ _ _ Hn).
  pose proof (pr_rows _ _ Hpr) as Hr. unfold rectangular in Hr.
  rewrite Forall_forall in Hr. exact (Hr (name0, c0) Hin).
Qed.

Lemma cleaned_number (name : string) :
  In name filtered_names ->
  exists c' v, getitem c name = Ok c' /\ real_cells c' = Ok v
               /\ List.length v = n.
Proof.
  intros Hin.
  destruct (cleaned_column name read_as_number (pr_numbers _ _ Hpr name Hin)
              (filtered_names_in_schema name Hin))
    as [c0 [c' [HP [Hn [Hg Hr]]]]].
  destruct (normalize_number_column name c0 c'
              (filtered_names_not_timestamps name Hin) HP Hn) as [v Hv].
  exists c', v. repeat split; try assumption.
  now rewrite (real_cells_rows _ _ Hv).
Qed.

Lemma cleaned_time (name : string) :
  In name ["pickup_datetime"; "dropoff_datetime"] ->
  exists v, getitem c name = Ok (TimeCol v).
Proof.
  intros Hin.
  assert (Hts : is_timestamp_col name = true)
    by (cbn in Hin; destruct Hin as [<-|[<-|[]]]; reflexivity).
  assert (Hm : dict_mem must_haves name = true)
    by (cbn in Hin; destruct Hin as [<-|[<-|[]]]; reflexivity).
  destruct (cleaned_column name read_as_time (pr_times _ _ Hpr name Hin) Hm)
    as [c0 [c' [HP [Hn [Hg _]]]]].
  destruct (normalize_time_column name c0 c' Hts HP Hn) as [v ->].
  now exists v.
Qed.

Lemma cleaned_has_no_derived_name (name : string) :
  In name derived_names -> ~ In name (columns c).
Proof.
  intros Hd Hin. pose proof Hclean as Hc.
  rewrite clean_is_normalize in Hc by exact (pr_nodup _ _ Hpr).
  pose proof (normalize_frame_schema_labels _ _ Hc) as Hlab.
  rewrite Forall_forall in Hlab. specialize (Hlab name Hin).
  rewrite (derived_names_not_in_schema name Hd) in Hlab. discriminate.
Qed.

End Processable.

(** X19: a processable partition (numeric fields read as numbers, the
    timestamps as text or datetimes, no other schema column read as text)
    gets through the whole workflow: [clean], the filter and
    [add_features] all return, and the result has the retained schema
    columns of the partition without the two timestamps, followed by the
    twelve derived columns. *)
Theorem pipeline_returns (raw : frame) (n : nat) :
  processable raw n ->
  exists out,
    pipeline raw = Ok out
    /\ columns out
       = filter (fun name => negb (is_timestamp_col name))
           (filter (dict_mem must_haves)
              (map (canonical_name remap) (columns raw)))
         ++ derived_names.
Proof.
  intros Hpr.
  destruct (castable_normalizes raw (pr_nodup _ _ Hpr) (pr_castable _ _ Hpr))
    as [c Hc].
  assert (Hnum : forall name, In name filtered_names ->
                   exists c' v, getitem c name = Ok c' /\ real_cells c' = Ok v
                                /\ List.length v = n)
    by (intros name; exact (cleaned_number raw c n Hpr Hc name)).
  destruct (Hnum "fare_amount" ltac:(cbn; tauto)) as [c1 [v1 [G1 [R1 L1]]]].
  destruct (Hnum "passenger_count" ltac:(cbn; tauto)) as [c2 [v2 [G2 [R2 L2]]]].
  destruct (Hnum "pickup_longitude" ltac:(cbn; tauto)) as [c3 [v3 [G3 [R3 L3]]]].
  destruct (Hnum "dropoff_longitude" ltac:(cbn; tauto)) as [c4 [v4 [G4 [R4 L4]]]].
  destruct (Hnum "pickup_latitude" ltac:(cbn; tauto)) as [c5 [v5 [G5 [R5 L5]]]].
  destruct (Hnum "dropoff_latitude" ltac:(cbn; tauto)) as [c6 [v6 [G6 [R6 L6]]]].
  destruct (outlier_filter_rows c n v1 v2 v3 v4 v5 v6)
    as [m [Hlen [_ Hq]]];
    try (eexists; split; [eassumption | split; assumption]).
  destruct (cleaned_time raw c n Hpr Hc "pickup_datetime" ltac:(cbn; tauto))
    as [pu Hpu].
  destruct (cleaned_time raw c n Hpr Hc "dropoff_datetime" ltac:(cbn; tauto))
    as [dr Hdr].
  assert (Hin : deriver_input (restrict m c) (select m pu) (select m dr)
                  (take_rows m c5) (take_rows m c3)
                  (take_rows m c6) (take_rows m c4)
                  (select m v5) (select m v3) (select m v6) (select m v4)).
  { constructor;
      try (rewrite getitem_restrict;
           first [rewrite Hpu | rewrite Hdr | rewrite G3 | rewrite G4
                 | rewrite G5 | rewrite G6]; reflexivity);
      try (apply real_cells_take_rows; assumption).
    intros name Hd Hcol.
    apply (cleaned_has_no_derived_name raw c n Hpr Hc name Hd).
    unfold restrict, columns in Hcol. rewrite map_map in Hcol. exact Hcol. }
  eexists. split.
  - unfold pipeline. rewrite Hc. cbn [bind]. rewrite Hq. cbn [bind].
    exact (add_features_eq _ _ _ _ _ _ _ _ _ _ _ Hin).
  - rewrite columns_app, columns_without_timestamps.
    replace (columns (restrict m c)) with (columns c)
      by (unfold restrict, columns; now rewrite map_map).
    rewrite clean_is_normalize in Hc by exact (pr_nodup _ _ Hpr).
    destruct (normalize_frame_columns _ _ _ Hc) as [Hcols _].
    rewrite Hcols, columns_canonical_frame. reflexivity.
Qed.

Lemma pipeline_returns_witness :
  exists out,
    pipeline frame_raw = Ok out
    /\ columns out
       = filter (fun name => negb (is_timestamp_col name))
           (filter (dict_mem must_haves)
              (map (canonical_name remap) (columns frame_raw)))
         ++ derived_names.
Proof.
  apply (pipeline_returns frame_raw 2). constructor.
  - concrete_nodup.
  - vm_compute. reflexivity.
  - repeat constructor.
  - intros name H. cbn in H.
    repeat (destruct H as [<-|H];
            [unfold has_column;
             first
               [ exists " fare_amount"; eexists; split;
                 [cbn; intuition reflexivity | split; [reflexivity | exact I]]
               | exists " passenger_count"; eexists; split;
                 [cbn; intuition reflexivity | split; [reflexivity | exact I]]
               | exists " pickup_longitude"; eexists; split;
                 [cbn; intuition reflexivity | split; [reflexivity | exact I]]
               | exists " dropoff_longitude"; eexists; split;
                 [cbn; intuition reflexivity | split; [reflexivity | exact I]]
               | exists " pickup_latitude"; eexists; split;
                 [cbn; intuition reflexivity | split; [reflexivity | exact I]]
               | exists " dropoff_latitude"; eexists; split;
                 [cbn; intuition reflexivity | split; [reflexivity | exact I]]
               ]|]).
    destruct H.
  - intros name H. cbn in H.
    destruct H as [<-|[<-|[]]]; unfold has_column.
    + exists " pickup_datetime"; eexists; split;
        [cbn; intuition reflexivity | split; [reflexivity | now left]].
    + exists " dropoff_datetime"; eexists; split;
        [cbn; intuition reflexivity | split; [reflexivity | now left]].
Defined.

(* ===================================================================== *)
(** * The numeric branch of the Column Normalizer and the dropped columns *)
(* ===================================================================== *)

Lemma int_cells_normalized (v : list (option Z)) :
  Forall2 normalized_int_cell v (fill (-1) (map (option_map (wrap I32)) v)).
Proof.
  induction v as [|[z|] v IH]; cbn [map option_map fill]; constructor;
    try exact IH; reflexivity.
Qed.

Lemma fill_sentinel_cells {A : Type} (d : A) (v : list (option A)) :
  Forall2 (sentinel_cell d) v (fill d v).
Proof.
  induction v as [|[r|] v IH]; cbn [map fill]; constructor;
    try exact IH; cbn [sentinel_cell]; [discriminate | reflexivity].
Qed.


Lemma cleaned_schema_column (df out : frame) (name col : string) (c : column) :
  NoDup (map (canonical_name remap) (columns df)) ->
  clean df remap must_haves = Ok out ->
  In (name, c) df -> col = canonical_name remap name ->
  dict_mem must_haves col = true ->
  exists c', normalize_column col c = Ok c' /\ getitem out col = Ok c'.
Proof.
  intros Hnd Hout Hin Hcol Hm.
  rewrite clean_is_normalize in Hout by exact Hnd.
  rewrite <- columns_canonical_frame in Hnd.
  apply (normalize_frame_getitem _ _ _ _ _ Hnd Hout); [|exact Hm].
  unfold canonical_frame. apply in_map_iff. exists (name, c).
  split; [now subst col | exact Hin].
Qed.

(** X20: the numeric branch of [clean]: a schema column read as integers
    comes out as int32 with every value reduced to 32 bits (unchanged when
    it fits) and every missing value replaced by -1; a schema column read
    as floating point comes out as float32 with -1 for every missing value
    and a value wherever there was one. *)
Theorem clean_numeric_columns (df out : frame) (name col : string) :
  NoDup (map (canonical_name remap) (columns df)) ->
  clean df remap must_haves = Ok out ->
  col = canonical_name remap name ->
  dict_mem must_haves col = true ->
  (forall k v, In (name, IntCol k v) df ->
     exists v', getitem out col = Ok (IntCol I32 v')
                /\ Forall2 normalized_int_cell v v')
  /\ (forall k v, In (name, FloatCol k v) df ->
        exists v', getitem out col = Ok (FloatCol F32 v')
                   /\ Forall2 (sentinel_cell (IZR (-1))) v v')
  /\ (forall z, - 2 ^ 31 <= z < 2 ^ 31 -> wrap I32 z = z).
Proof.
  intros Hnd Hout Hcol Hm. split; [|split].
  - intros k v Hin.
    destruct (cleaned_schema_column df out name col _ Hnd Hout Hin Hcol Hm)
      as [c' [Hc' Hg]].
    cbn [normalize_column] in Hc'. inversion Hc'; subst c'.
    eexists. split; [exact Hg | apply int_cells_normalized].
  - intros k v Hin.
    destruct (cleaned_schema_column df out name col _ Hnd Hout Hin Hcol Hm)
      as [c' [Hc' Hg]].
    cbn [normalize_column] in Hc'. inversion Hc'; subst c'.
    eexists. split; [exact Hg | apply fill_sentinel_cells].
  - exact wrap_I32_small.
Qed.

Lemma clean_numeric_columns_witness :
  exists v', getitem frame_wide_count_cleaned "passenger_count"
             = Ok (IntCol I32 v')
             /\ Forall2 normalized_int_cell
                  [Some 2; None; Some 4294967297] v'.
Proof.
  apply (proj1 (clean_numeric_columns frame_wide_count
                  frame_wide_count_cleaned "Passenger_Count" "passenger_count"
                  ltac:(concrete_nodup) ltac:(concrete_clean)
                  eq_refl eq_refl) I64).
  simpl. left. reflexivity.
Defined.

Lemma normalize_frame_schema_only (mh : dict dtype) (df : frame) :
  normalize_frame mh (filter (fun p => dict_mem mh (fst p)) df)
  = normalize_frame mh df.
Proof.
  induction df as [|[n c] df IH]; [reflexivity|].
  cbn [filter fst]. destruct (dict_mem mh n) eqn:E.
  - cbn [normalize_frame]. now rewrite E, IH.
  - cbn [normalize_frame]. now rewrite E.
Qed.

Lemma canonical_frame_schema_columns (mapping : dict string) (mh : dict dtype)
  (df : frame) :
  canonical_frame mapping (schema_columns mapping mh df)
  = filter (fun p => dict_mem mh (fst p)) (canonical_frame mapping df).
Proof.
  unfold canonical_frame, schema_columns.
  induction df as [|[n c] df IH]; [reflexivity|].
  cbn [filter map fst snd].
  destruct (dict_mem mh (canonical_name mapping n)); cbn [map fst snd];
    now rewrite IH.
Qed.

(** X21: the columns outside the schema have no part in what [clean]
    does: they are dropped before anything is cast, so with them or
    without them the outcome is the same, whatever they hold. *)
Theorem clean_ignores_other_columns (df : frame) :
  NoDup (map (canonical_name remap) (columns df)) ->
  clean (schema_columns remap must_haves df) remap must_haves
  = clean df remap must_haves.
Proof.
  intros Hnd.
  assert (Hnd' : NoDup (map (canonical_name remap)
                          (columns (schema_columns remap must_haves df)))).
  { rewrite <- columns_canonical_frame, canonical_frame_schema_columns.
    rewrite <- columns_canonical_frame in Hnd.
    revert Hnd. generalize (canonical_frame remap df). intros f Hf.
    induction f as [|[n c] f IH]; [constructor|].
    cbn [columns map fst] in Hf. inversion Hf; subst.
    cbn [filter fst]. destruct (dict_mem must_haves n).
    - cbn [columns map fst]. constructor; [|now apply IH].
      intros Hin. apply columns_filter_In in Hin. contradiction.
    - now apply IH. }
  rewrite !clean_is_normalize by assumption.
  rewrite canonical_frame_schema_columns. apply normalize_frame_schema_only.
Qed.

Lemma clean_ignores_other_columns_witness :
  clean (schema_columns remap must_haves frame_wide_count) remap must_haves
  = clean frame_wide_count remap must_haves.
Proof.
  apply (clean_ignores_other_columns frame_wide_count). concrete_nodup.
Defined.

(* ===================================================================== *)
(** * The sentinel for missing numbers *)
(* ===================================================================== *)


